(** * ltntstools: the PCR slicer and the clock inspector

    A shallow embedding of [src/slicer.c] (the file holds two tools: the
    PCR indexer/slicer and the clock inspector) and the properties of its
    stream-time arithmetic, index lookup, fast duration query, slice copy,
    continuity-counter check, PTS drift check and ordered PTS list.

    C integers are modelled as [Z] with the wrap-around of their width
    written out; [/] and [%] of C are [Z.quot] and [Z.rem]. *)

From Stdlib Require Import ZArith List Bool Lia Ascii String Sorted
  Permutation.
Import ListNotations.
Local Open Scope Z_scope.

(** ** Machine integers *)

Module CInt.

Definition wrap_unsigned (w x : Z) : Z := x mod 2 ^ w.

Definition wrap_signed (w x : Z) : Z :=
  (x + 2 ^ (w - 1)) mod 2 ^ w - 2 ^ (w - 1).

Definition int32 (x : Z) : Z := wrap_signed 32 x.
Definition int64 (x : Z) : Z := wrap_signed 64 x.
Definition uint32 (x : Z) : Z := wrap_unsigned 32 x.
Definition uint64 (x : Z) : Z := wrap_unsigned 64 x.

End CInt.
Import CInt.

(** ** Stream time: [struct videotime_s] and its conversions *)

Record videotime_s : Type := mk_videotime {
  days : Z;
  hours : Z;
  mins : Z;
  secs : Z;
  msecs : Z
}.

(** [pcr_to_videotime]: [pcr] is an [int64_t], every field an [int].  The
    expression first stored in [msecs] is kept although the next statement
    overwrites it. *)
Definition pcr_to_videotime (pcr : Z) : videotime_s :=
  let seconds := int32 (Z.quot pcr 27000000) in
  let vt_days := int32 (Z.quot seconds (3600 * 24)) in
  let seconds := int32 (seconds - int32 (int32 (vt_days * 3600) * 24)) in
  let vt_hours := int32 (Z.quot seconds 3600) in
  let seconds := int32 (seconds - int32 (vt_hours * 3600)) in
  let vt_mins := int32 (Z.quot seconds 60) in
  let seconds := int32 (seconds - int32 (vt_mins * 60)) in
  let vt_secs := seconds in
  let vt_msecs := int32 (Z.rem (int64 (pcr - Z.quot pcr 27000000)) 27000) in
  let vt_msecs := 0 in
  mk_videotime vt_days vt_hours vt_mins vt_secs vt_msecs.

(** [videotime_to_pcr]: the products are [int] products, the sums are
    [int64_t] sums. *)
Definition videotime_to_pcr (vt : videotime_s) : Z :=
  let pcr := 0 in
  let pcr := int64 (pcr + int32 (int32 (days vt * 3600) * 24)) in
  let pcr := int64 (pcr + int32 (hours vt * 3600)) in
  let pcr := int64 (pcr + int32 (mins vt * 60)) in
  let pcr := int64 (pcr + secs vt) in
  let pcr := int64 (pcr * 27000000) in
  let pcr := int64 (pcr + int32 (msecs vt * 27000)) in
  pcr.

(** ** The [sscanf] and [sprintf] conversions the tool uses

    C strings are lists of characters here; the entry points below take
    and return [string]. *)

Module Stdio.

Definition is_space (c : ascii) : bool :=
  let n := nat_of_ascii c in
  (n =? 32)%nat || ((9 <=? n)%nat && (n <=? 13)%nat).

Definition is_digit (c : ascii) : bool :=
  let n := nat_of_ascii c in (48 <=? n)%nat && (n <=? 57)%nat.

Definition digit_val (c : ascii) : Z := Z.of_nat (nat_of_ascii c) - 48.

Fixpoint skip_spaces (s : list ascii) : list ascii :=
  match s with
  | c :: s' => if is_space c then skip_spaces s' else s
  | [] => []
  end.

(** The digits of one conversion: at most [width] of them when a width
    is given.  Returns the value, the number of digits read and the rest
    of the input. *)
Fixpoint scan_digits (width : option nat) (acc : Z) (count : nat)
         (s : list ascii) : Z * nat * list ascii :=
  match s with
  | c :: s' =>
      match width with
      | Some O => (acc, count, s)
      | _ =>
          if is_digit c
          then scan_digits (option_map Nat.pred width)
                           (acc * 10 + digit_val c) (S count) s'
          else (acc, count, s)
      end
  | [] => (acc, count, s)
  end.

(** The value of a run of digits read after the value [a0]. *)
Definition digits_value (ds : list ascii) (a0 : Z) : Z :=
  fold_left (fun a c => a * 10 + digit_val c) ds a0.

(** [strtol] saturates at the range of [long]; the result is then stored
    in an [int]. *)
Definition store_int (v : Z) : Z :=
  int32 (Z.max (- 9223372036854775808) (Z.min 9223372036854775807 v)).

(** [%d] and [%Nd]: leading white space is skipped, a sign counts in the
    field width, and a conversion without a digit fails. *)
Definition scan_d (width : option nat) (s : list ascii)
  : option (Z * list ascii) :=
  match skip_spaces s with
  | [] => None
  | c :: s' =>
      let signed := Ascii.eqb c "-" || Ascii.eqb c "+" in
      let body := if signed then s' else c :: s' in
      let w := if signed then option_map Nat.pred width else width in
      let '(v, count, rest) := scan_digits w 0 0 body in
      match count with
      | O => None
      | S _ => Some (store_int (if Ascii.eqb c "-" then - v else v), rest)
      end
  end.

(** An ordinary character of the format matches itself. *)
Definition scan_lit (c : ascii) (s : list ascii) : option (list ascii) :=
  match s with
  | c' :: s' => if Ascii.eqb c c' then Some s' else None
  | [] => None
  end.

Definition digit_char (d : Z) : ascii := ascii_of_nat (Z.to_nat (48 + d)).

(** Decimal digits of [n >= 0], most significant first, in front of
    [acc]; an [int] has at most ten of them. *)
Fixpoint dec_digits (fuel : nat) (n : Z) (acc : list ascii) : list ascii :=
  match fuel with
  | O => acc
  | S fuel' =>
      let acc' := digit_char (n mod 10) :: acc in
      if n <? 10 then acc' else dec_digits fuel' (n / 10) acc'
  end.

(** [%d] *)
Definition fmt_d (n : Z) : list ascii :=
  if n <? 0 then "-"%char :: dec_digits 10 (- n) []
  else dec_digits 10 n [].

(** [%02d]: the zeros go between the sign and the digits. *)
Definition fmt_02d (n : Z) : list ascii :=
  if n <? 0 then "-"%char :: dec_digits 10 (- n) []
  else
    let ds := dec_digits 10 n [] in
    if (List.length ds <? 2)%nat then "0"%char :: ds else ds.

Definition hex_char (d : Z) : ascii :=
  if d <? 10 then ascii_of_nat (Z.to_nat (48 + d))
  else ascii_of_nat (Z.to_nat (87 + d)).

Fixpoint hex_digits (fuel : nat) (n : Z) (acc : list ascii) : list ascii :=
  match fuel with
  | O => acc
  | S fuel' =>
      let acc' := hex_char (n mod 16) :: acc in
      if n <? 16 then acc' else hex_digits fuel' (n / 16) acc'
  end.

(** [%0Nx] of an [unsigned int]. *)
Definition fmt_0x (width : nat) (n : Z) : list ascii :=
  let ds := hex_digits 8 (uint32 n) [] in
  repeat "0"%char (width - List.length ds) ++ ds.

End Stdio.
Import Stdio.

(** [str_to_videotime]: [None] stands for the return value -1 (fewer
    than five conversions), [Some vt] for 0 with the fields stored. *)
Definition str_to_videotime (t : string) : option videotime_s :=
  match scan_d None (list_ascii_of_string t) with
  | None => None
  | Some (vt_days, s) =>
  match scan_lit "." s with
  | None => None
  | Some s =>
  match scan_d (Some 2%nat) s with
  | None => None
  | Some (vt_hours, s) =>
  match scan_lit ":" s with
  | None => None
  | Some s =>
  match scan_d (Some 2%nat) s with
  | None => None
  | Some (vt_mins, s) =>
  match scan_lit ":" s with
  | None => None
  | Some s =>
  match scan_d (Some 2%nat) s with
  | None => None
  | Some (vt_secs, s) =>
  match scan_lit "." s with
  | None => None
  | Some s =>
  match scan_d None s with
  | None => None
  | Some (vt_msecs, _) =>
      Some (mk_videotime vt_days vt_hours vt_mins vt_secs vt_msecs)
  end end end end end end end end end.

(** [videotime_to_str]: the text [sprintf] produces (the 32-byte buffer
    holds it for every time the tool prints). *)
Definition videotime_to_str (vt : videotime_s) : string :=
  string_of_list_ascii
    (fmt_d (days vt) ++ "."%char :: fmt_02d (hours vt) ++ ":"%char ::
     fmt_02d (mins vt) ++ ":"%char :: fmt_02d (secs vt) ++ "."%char ::
     fmt_d (msecs vt)).

(** The chain of the round trip: parse, to PCR, back to a time, print. *)
Definition time_roundtrip (t : string) : option string :=
  match str_to_videotime t with
  | Some vt => Some (videotime_to_str (pcr_to_videotime (videotime_to_pcr vt)))
  | None => None
  end.

(** ** Clock primitives and the TS packet accessor (libltntstools) *)

(** Modelled from the spec: the constant [MAX_PTS_VALUE] of the
    libltntstools headers, "MAX_PTS = 2^33". *)
Definition MAX_PTS_VALUE : Z := 2 ^ 33.

(** Modelled from the spec: the constant [MAX_SCR_VALUE] of the
    libltntstools headers, "MAX_SCR = 2^33 * 300". *)
Definition MAX_SCR_VALUE : Z := 2 ^ 33 * 300.

(** Modelled from the spec: [ltntstools_pts_diff] of libltntstools,
    "pts_diff(a, b) returning (b - a) reduced by adding the modulus when
    negative". *)
Definition ltntstools_pts_diff (a b : Z) : Z :=
  let d := b - a in if d <? 0 then d + MAX_PTS_VALUE else d.

(** Modelled from the spec: [ltntstools_scr_diff] of libltntstools, the
    same reduction modulo [MAX_SCR_VALUE]. *)
Definition ltntstools_scr_diff (a b : Z) : Z :=
  let d := b - a in if d <? 0 then d + MAX_SCR_VALUE else d.

(** Modelled from the spec: the macro [PTS_TICKS_TO_MS] of libltntstools,
    "ticks_90k / 90 = ms"; the division is C's. *)
Definition PTS_TICKS_TO_MS (ticks : Z) : Z := Z.quot ticks 90.

Module TsPacket.

(** A packet is its 188 bytes, each a value in 0..255. *)
Definition byte_at (pkt : list Z) (i : nat) : Z := nth i pkt 0.

(** Modelled from the spec: [ltntstools_pid], "PID from bytes 1-2 (mask
    0x1FFF)". *)
Definition ltntstools_pid (pkt : list Z) : Z :=
  Z.land (Z.lor (Z.shiftl (byte_at pkt 1) 8) (byte_at pkt 2)) 0x1fff.

(** Modelled from the spec: [ltntstools_continuity_counter],
    "continuity-counter from byte 3 bits 3-0". *)
Definition ltntstools_continuity_counter (pkt : list Z) : Z :=
  Z.land (byte_at pkt 3) 0x0f.

(** Modelled from the spec: [ltntstools_adaption_field_control], "afc
    from byte 3 bits 5-4". *)
Definition ltntstools_adaption_field_control (pkt : list Z) : Z :=
  Z.land (Z.shiftr (byte_at pkt 3) 4) 0x03.

(** Modelled from the spec: [ltntstools_scr], "PCR extraction requires
    afc in {2,3} and the adaptation-field PCR_flag bit set, combining a
    33-bit base (x300) with a 9-bit extension"; the byte positions are
    those of ISO/IEC 13818-1. *)
Definition ltntstools_scr (pkt : list Z) : option Z :=
  let afc := ltntstools_adaption_field_control pkt in
  if ((afc =? 2) || (afc =? 3)) && (0 <? byte_at pkt 4)
     && (Z.land (byte_at pkt 5) 0x10 =? 0x10)
  then
    let base :=
      Z.lor (Z.shiftl (byte_at pkt 6) 25)
        (Z.lor (Z.shiftl (byte_at pkt 7) 17)
           (Z.lor (Z.shiftl (byte_at pkt 8) 9)
              (Z.lor (Z.shiftl (byte_at pkt 9) 1)
                 (Z.shiftr (byte_at pkt 10) 7)))) in
    let ext :=
      Z.lor (Z.shiftl (Z.land (byte_at pkt 10) 1) 8) (byte_at pkt 11) in
    Some (base * 300 + ext)
  else None.

(** A payload-only or adaptation-only packet with the given header
    fields, for the scenarios. *)
Definition ts_packet (pid afc cc : Z) : list Z :=
  [0x47; Z.land (Z.shiftr pid 8) 0x1f; Z.land pid 0xff;
   Z.lor (Z.shiftl afc 4) cc] ++ repeat 0xff 184.

(** A packet whose adaptation field carries [pcr], for the scenarios. *)
Definition pcr_packet (pid cc pcr : Z) : list Z :=
  let base := pcr / 300 in
  let ext := pcr mod 300 in
  [0x47; Z.land (Z.shiftr pid 8) 0x1f; Z.land pid 0xff;
   Z.lor 0x20 cc; 183; 0x10;
   Z.land (Z.shiftr base 25) 0xff; Z.land (Z.shiftr base 17) 0xff;
   Z.land (Z.shiftr base 9) 0xff; Z.land (Z.shiftr base 1) 0xff;
   Z.lor (Z.shiftl (Z.land base 1) 7) (Z.lor 0x7e (Z.shiftr ext 8));
   Z.land ext 0xff] ++ repeat 0xff 176.

End TsPacket.
Import TsPacket.

(** ** The PCR indexer and slicer *)

Module Slicer.

(** Modelled from the spec: [struct ltntstools_pcr_position_s] of
    libltntstools, "PcrPosition: { byte_offset: u64, pid: u16, pcr: i64
    (27 MHz ticks) }". *)
Record ltntstools_pcr_position_s : Type := mk_position {
  pcr : Z;
  offset : Z;
  pid : Z
}.

(** Modelled from the spec: [ltntstools_queryPCRs] of libltntstools,
    "each chunk is scanned by 4.B to emit PcrPosition records": one
    record for every 188-byte packet of the buffer that carries a PCR,
    its offset counted from [addr]. *)
Fixpoint queryPCRs_scan (packets : nat) (buf : list Z) (addr : Z)
  : list ltntstools_pcr_position_s :=
  match packets with
  | O => []
  | S n =>
      let pkt := firstn 188 buf in
      let rest := queryPCRs_scan n (skipn 188 buf) (addr + 188) in
      match ltntstools_scr pkt with
      | Some v => mk_position v addr (ltntstools_pid pkt) :: rest
      | None => rest
      end
  end.

Definition ts_queryPCRs (buf : list Z) (lengthBytes addr : Z)
  : option (list ltntstools_pcr_position_s) :=
  Some (queryPCRs_scan (Z.to_nat (lengthBytes / 188)) buf addr).

(** The fields of [struct tool_context_s] the index functions use;
    [allPCRLength] is the length of [allPCRs]. *)
Record tool_context_s : Type := mk_context {
  allPCRs : list ltntstools_pcr_position_s;
  opt_s : bool;
  opt_e : bool;
  pcrMin : Z;
  pcrMax : Z;
  timeStartStream : videotime_s;
  timeEndStream : videotime_s
}.

(** [indexLookupPCR]: the loop over [i], from [i] on; the pointer
    [ctx->allPCRs + i] is the index [i], [NULL] is [None]. *)
Fixpoint indexLookupPCR_from (i : nat) (l : list ltntstools_pcr_position_s)
         (q : Z) : option nat :=
  match l with
  | [] => None
  | r :: l' => if q <=? pcr r then Some i else indexLookupPCR_from (S i) l' q
  end.

Definition indexLookupPCR (ctx : tool_context_s) (q : Z) : option nat :=
  indexLookupPCR_from 0 (allPCRs ctx) q.

(** [fread] of [n] bytes at position [pos] of a file. *)
Definition fread_at (file : list Z) (pos n : Z) : list Z :=
  firstn (Z.to_nat n) (skipn (Z.to_nat pos) file).

(** What [indexFastQueryDuration] stored through its pointers: [None]
    for memory it did not write. *)
Record query_writes : Type := mk_writes {
  w_begin : option ltntstools_pcr_position_s;
  w_end : option ltntstools_pcr_position_s;
  w_durationTicks : option Z;
  w_fileSize : option Z;
  w_streamTime : option videotime_s
}.

Definition no_writes : query_writes := mk_writes None None None None None.

(** The function returns a value, or reads through a null or dangling
    array pointer ([Fault]). *)
Inductive query_outcome : Type :=
| Returned (ret : Z) (w : query_writes)
| Fault.

(** One entry of the local array [segs]; [buf = None] is the null
    pointer the [memset] leaves. *)
Record segment : Type := mk_segment {
  buf : option (list Z);
  lengthBytes : Z;
  addr : Z
}.

Definition no_segment : segment := mk_segment None 0 0.

Section FastQuery.

(** [ltntstools_queryPCRs buf lengthBytes addr]: [Some arr] when it
    returns 0 and stores the array, [None] otherwise. *)
Variable ltntstools_queryPCRs :
  list Z -> Z -> Z -> option (list ltntstools_pcr_position_s).

(** [fopen(fname, "rb")]: the bytes of the file when it opens. *)
Variable fopen_rb : string -> option (list Z).

Definition query_segment (sg : segment)
  : option (list ltntstools_pcr_position_s) :=
  match buf sg with
  | Some b => ltntstools_queryPCRs b (lengthBytes sg) (addr sg)
  | None => None
  end.

(** The two segments read from a file of [file_length] bytes and the
    flag [singleRead]. *)
Definition read_segments (file : list Z) : bool * segment * segment :=
  let file_length := Z.of_nat (List.length file) in
  if file_length <? 32 * 1048576 then
    let len0 := int32 file_length in
    (true, mk_segment (Some (fread_at file 0 len0)) len0 0, no_segment)
  else
    let len := 16 * 1048576 in
    (false,
     mk_segment (Some (fread_at file 0 len)) len 0,
     mk_segment (Some (fread_at file (file_length - 16 * 1048576) len))
                len (int32 (file_length - 16 * 1048576))).

(** [indexFastQueryDuration]: [fname] is [None] for a null pointer;
    the five booleans say which of [begin], [end], [durationTicks],
    [streamTime] and [fileSize] are not null. *)
Definition indexFastQueryDuration (fname : option string)
           (begin end_ durationTicks streamTime fileSize : bool)
  : query_outcome :=
  match fname with
  | None => Returned (-1) no_writes
  | Some name =>
  if negb begin || negb end_ then Returned (-1) no_writes else
  match fopen_rb name with
  | None => Returned (-1) no_writes
  | Some file =>
      let file_length := Z.of_nat (List.length file) in
      let '(singleRead, seg0, seg1) := read_segments file in
      let arr0 := query_segment seg0 in
      let arr1 := query_segment seg1 in
      match arr0 with
      | Some ((b :: _) as a0) =>
          match (if singleRead then Some a0 else arr1) with
          | Some ((_ :: _) as a) =>
              let e := last a b in
              let d := int64 (pcr e - pcr b) in
              Returned 0
                (mk_writes (Some b) (Some e)
                   (if durationTicks then Some d else None)
                   (if fileSize then Some file_length else None)
                   (if streamTime then Some (pcr_to_videotime d)
                    else None))
          | _ => Fault
          end
      | _ => Fault
      end
  end
  end.

End FastQuery.

(** The MPEG-TS files of the scenarios are scanned by [ts_queryPCRs]. *)

(** [blen] of the copy loop of [slicer]. *)
Definition slice_blen : Z := 188 * 64.

(** The copy loop of [slicer]: [ifh] is the unread rest of the input,
    [ofh] what has been written, [begin] the 64-bit loop counter.  Each
    round reads up to [blen] bytes and writes what it read.  [None]
    when [fuel] rounds were not enough. *)
Fixpoint slicer_copy_loop (fuel : nat) (ifh : list Z) (begin e_offset : Z)
         (ofh : list Z) : option (list Z) :=
  match fuel with
  | O => None
  | S fuel' =>
      if begin <? e_offset then
        let pkts := firstn (Z.to_nat slice_blen) ifh in
        slicer_copy_loop fuel' (skipn (Z.to_nat slice_blen) ifh)
          (uint64 (begin + slice_blen)) e_offset (ofh ++ pkts)
      else Some ofh
  end.

(** [fseeko(ifh, s->offset, SEEK_SET)]: an offset that is negative as
    an [off_t] is refused and the position stays at 0. *)
Definition fseeko_set (file : list Z) (off : Z) : list Z :=
  if int64 off <? 0 then file else skipn (Z.to_nat off) file.

(** The body of [if (ofh)] in [slicer]: the bytes written to the output
    file for the records [s] and [e]. *)
Definition slicer_copy (fuel : nat) (input : list Z)
           (s e : ltntstools_pcr_position_s) : option (list Z) :=
  slicer_copy_loop fuel (fseeko_set input (offset s)) (offset s) (offset e) [].

(** The head and the tail of a file in the words of the spec: the whole
    file when it is shorter than 32 MiB, else its first and its last
    16 MiB. *)
Definition head_segment (file : list Z) : segment :=
  let n := Z.of_nat (List.length file) in
  if n <? 32 * 1048576 then mk_segment (Some file) n 0
  else mk_segment (Some (firstn (Z.to_nat (16 * 1048576)) file))
                  (16 * 1048576) 0.

Definition tail_segment (file : list Z) : segment :=
  let n := Z.of_nat (List.length file) in
  if n <? 32 * 1048576 then mk_segment (Some file) n 0
  else mk_segment (Some (skipn (Z.to_nat (n - 16 * 1048576)) file))
                  (16 * 1048576) (int32 (n - 16 * 1048576)).

(** Two packets of a recording that runs across the wrap of the 27 MHz
    clock: one second before it and one second after it. *)
Definition wrapping_file : list Z :=
  pcr_packet 0x31 0 (MAX_SCR_VALUE - 27000000) ++ pcr_packet 0x31 1 27000000.

(** A recording of one second: a PCR packet, a payload packet, a PCR
    packet. *)
Definition one_second_file : list Z :=
  pcr_packet 0x31 0 1000000 ++ ts_packet 0x100 1 0
  ++ pcr_packet 0x31 1 28000000.

(** The end of [slicer]: the two lookups and, with an output file
    given, the copy; the result is what the output file holds.
    [indexDumpEntry] reads through both pointers, so a lookup that
    returns [NULL] gives [None] here, as do too few rounds of [fuel]. *)
Definition slicer_slice (fuel : nat) (ctx : tool_context_s) (input : list Z)
  : option (list Z) :=
  let pcrStart :=
    if opt_s ctx then videotime_to_pcr (timeStartStream ctx) else pcrMin ctx in
  let pcrEnd :=
    if opt_e ctx then videotime_to_pcr (timeEndStream ctx) else pcrMax ctx in
  match indexLookupPCR ctx pcrStart, indexLookupPCR ctx pcrEnd with
  | Some i, Some j =>
      match nth_error (allPCRs ctx) i, nth_error (allPCRs ctx) j with
      | Some s, Some e => slicer_copy fuel input s e
      | _, _ => None
      end
  | _, _ => None
  end.

(** A file of 64 packets (12032 bytes), each with a PCR, one
    millisecond apart. *)
Definition pcr_every_packet_file : list Z :=
  List.concat
    (map (fun i => pcr_packet 0x31 (Z.of_nat i mod 16) (Z.of_nat i * 27000))
         (seq 0 64)).

(** The context of [slicer] for that file and the options
    [-s 0.00:00:00.0 -e 0.00:00:00.1]. *)
Definition one_millisecond_slice : tool_context_s :=
  mk_context (queryPCRs_scan 64 pcr_every_packet_file 0) true true
             0 (63 * 27000)
             (mk_videotime 0 0 0 0 0) (mk_videotime 0 0 0 0 1).

(** The rounds the copy loop makes from [begin] up to [e_offset]. *)
Definition copy_rounds (begin e_offset : Z) : nat :=
  Z.to_nat ((e_offset - begin + slice_blen - 1) / slice_blen).

End Slicer.

(** ** The clock inspector

    The wall-clock trackers, the linear trend and the time stamps of the
    report lines depend on the time of day and on floating point; the
    model leaves them out and keeps every integer field and every report
    line with its integer columns. *)

Module ClockInspector.

Record ordered_clock_item_s : Type := mk_item {
  nr : Z;
  clock : Z;
  filepos : Z
}.

(** Modelled from the spec: [struct ltn_pes_packet_s] of libltntstools,
    "PesHeader { pts_dts_flags, PTS, DTS }". *)
Record ltn_pes_packet_s : Type := mk_pes {
  PTS_DTS_flags : Z;
  PTS : Z;
  DTS : Z
}.

Record pid_s : Type := mk_pid {
  pkt_count : Z;
  cc : Z;
  cc_errors : Z;
  scr : Z;
  pts_count : Z;
  pts_last : ltn_pes_packet_s;
  pts_diff_ticks : Z;
  pts_last_scr : Z;
  clk_pts_initialized : Z;
  dts_count : Z;
  dts_last : ltn_pes_packet_s;
  dts_diff_ticks : Z;
  dts_last_scr : Z;
  clk_dts_initialized : Z;
  pes : ltn_pes_packet_s;
  ordered_pts_list : list ordered_clock_item_s
}.

(** [pids] is the array of 8192 slots, read and written by index. *)
Record tool_context_s : Type := mk_context {
  enableNonTimingConformantMessages : Z;
  enablePESDeliveryReport : Z;
  dumpHex : Z;
  maxAllowablePTSDTSDrift : Z;
  pids : Z -> pid_s;
  doPESStatistics : Z;
  pts_linenr : Z;
  ts_linenr : Z;
  ts_total_packets : Z;
  order_asc_pts_output : Z;
  scr_pid : Z
}.

Definition store_pid (table : Z -> pid_s) (i : Z) (p : pid_s) : Z -> pid_s :=
  fun j => if j =? i then p else table j.

(** The lines written to the console, with their integer columns. *)
Inductive report_line : Type :=
| TS_header
| TS_line (total pos pid : Z)
| TS_hexdump (bytes : Z)
| CC_error (pid expected got : Z)
| PTS_header
| PTS_behind_PCR (count : Z)
| PTS_diff_warning (count limit is_ms : Z)
| PTS_scr_diff_warning (count limit is_ms : Z)
| PTS_line (count pos pid pts diff_ticks scr_diff_ms minus_scr_ticks : Z)
| PES_delivery (count pid ticks us : Z)
| DTS_diff_warning (count limit is_ms : Z)
| DTS_scr_diff_warning (count limit is_ms : Z)
| DTS_line (count pos pid dts diff_ticks scr_diff_ms minus_scr_ticks : Z)
| PES_dump.

(** The text of a [!CC Error] line up to the time stamp. *)
Definition CC_error_text (pid expected got : Z) : string :=
  ("!CC Error. PID " ++ string_of_list_ascii (fmt_0x 4 pid)
   ++ " expected " ++ string_of_list_ascii (fmt_0x 2 expected)
   ++ " got " ++ string_of_list_ascii (fmt_0x 2 got))%string.


Definition is_CC_error (l : report_line) : bool :=
  match l with CC_error _ _ _ => true | _ => false end.

Definition is_PTS_diff_warning (l : report_line) : bool :=
  match l with PTS_diff_warning _ _ _ => true | _ => false end.

(** *** Ordered PTS handling *)

(** The list is kept head first.  [insert_backwards] is the reverse
    walk of [xorg_list_for_each_entry_reverse] over the items, tail
    first: the new entry is linked behind the first item whose clock is
    not above it; [None] when the walk reaches the head without linking
    it. *)
Fixpoint insert_backwards (from_tail : list ordered_clock_item_s)
         (e : ordered_clock_item_s) : option (list ordered_clock_item_s) :=
  match from_tail with
  | [] => None
  | item :: before =>
      if clock e >=? clock item then Some (e :: item :: before)
      else option_map (cons item) (insert_backwards before e)
  end.

Definition ordered_clock_insert (items : list ordered_clock_item_s)
           (src : ordered_clock_item_s) : list ordered_clock_item_s :=
  match items with
  | [] => items ++ [src]
  | _ =>
      match insert_backwards (rev items) src with
      | Some from_tail => rev from_tail
      | None => items
      end
  end.

(** Sorted, non-decreasing, by clock. *)
Definition clock_le (a b : ordered_clock_item_s) : Prop := clock a <= clock b.

Definition clocks_sorted (items : list ordered_clock_item_s) : Prop :=
  StronglySorted clock_le items.

(** *** Packet statistics *)

Definition processPacketStats (ctx : tool_context_s) (pkt : list Z)
           (pos : Z) : tool_context_s * list report_line :=
  let pid := ltntstools_pid pkt in
  let p := pids ctx pid in
  let pkt_count' := uint64 (pkt_count p + 1) in
  let cc_now := ltntstools_continuity_counter pkt in
  let '(ts_linenr', out_ts) :=
    if dumpHex ctx =? 0 then (ts_linenr ctx, [])
    else
      let header := if ts_linenr ctx =? 0 then [TS_header] else [] in
      let n := int32 (ts_linenr ctx + 1) in
      (if n >? 24 then 0 else n,
       header ++ [TS_line (ts_total_packets ctx) pos pid]) in
  let out_hex :=
    if dumpHex ctx =? 1 then [TS_hexdump 32]
    else if dumpHex ctx =? 2 then [TS_hexdump 188] else [] in
  let afc := ltntstools_adaption_field_control pkt in
  let expected := Z.land (uint32 (cc p + 1)) 0x0f in
  let error :=
    if (afc =? 1) || (afc =? 3) then
      if pkt_count' >? 1 then
        if negb (expected =? cc_now) then negb (pid =? 0x1fff) else false
      else false
    else false in
  let out_cc := if error then [CC_error pid expected cc_now] else [] in
  let cc_errors' :=
    if error then uint64 (cc_errors p + 1) else cc_errors p in
  let p' :=
    mk_pid pkt_count' cc_now cc_errors' (scr p) (pts_count p) (pts_last p)
           (pts_diff_ticks p) (pts_last_scr p) (clk_pts_initialized p)
           (dts_count p) (dts_last p) (dts_diff_ticks p) (dts_last_scr p)
           (clk_dts_initialized p) (pes p) (ordered_pts_list p) in
  (mk_context (enableNonTimingConformantMessages ctx)
              (enablePESDeliveryReport ctx) (dumpHex ctx)
              (maxAllowablePTSDTSDrift ctx) (store_pid (pids ctx) pid p')
              (doPESStatistics ctx) (pts_linenr ctx) ts_linenr'
              (ts_total_packets ctx) (order_asc_pts_output ctx)
              (scr_pid ctx),
   out_ts ++ out_hex ++ out_cc).

(** The packet loop of [clock_inspector] with the statistics that are
    on by default (packet statistics only): every 188 bytes one packet,
    [filepos] its offset. *)
Fixpoint inspect_packets (ctx : tool_context_s) (pkts : list (list Z))
         (pos : Z) : tool_context_s * list report_line :=
  match pkts with
  | [] => (ctx, [])
  | pkt :: rest =>
      let '(ctx1, out1) := processPacketStats ctx pkt pos in
      let ctx2 :=
        mk_context (enableNonTimingConformantMessages ctx1)
                   (enablePESDeliveryReport ctx1) (dumpHex ctx1)
                   (maxAllowablePTSDTSDrift ctx1) (pids ctx1)
                   (doPESStatistics ctx1) (pts_linenr ctx1) (ts_linenr ctx1)
                   (uint64 (ts_total_packets ctx1 + 1))
                   (order_asc_pts_output ctx1) (scr_pid ctx1) in
      let '(ctx3, out2) := inspect_packets ctx2 rest (uint64 (pos + 188)) in
      (ctx3, out1 ++ out2)
  end.

(** *** PES headers *)

Definition has_PTS (h : ltn_pes_packet_s) : bool :=
  (PTS_DTS_flags h =? 2) || (PTS_DTS_flags h =? 3).

Definition has_DTS (h : ltn_pes_packet_s) : bool := PTS_DTS_flags h =? 3.

(** The wrap correction of [pts_diff_ticks]: ten seconds of 90 kHz
    ticks is the limit of a forward step. *)
Definition corrected_pts_diff (last_pts new_pts : Z) : Z :=
  let d := ltntstools_pts_diff last_pts new_pts in
  if d >? 10 * 90000 then int64 (d - MAX_PTS_VALUE) else d.

Section PES.

(** [ltn_pes_packet_parse pes bs], the PES header parser of
    libltntstools: from the structure it is given and the bytes, the
    length it returns and the structure it leaves. *)
Variable ltn_pes_packet_parse :
  ltn_pes_packet_s -> list Z -> Z * ltn_pes_packet_s.

(** [processPESHeader]: the new context, the lines written and the
    returned length.  The test of the double [d_pts_minus_scr_ticks]
    against 0 is the test of the integer it was converted from. *)
Definition processPESHeader (buf : list Z) (pid : Z)
           (ctx : tool_context_s) (pos : Z)
           (prior_pes_delivery_ticks prior_pes_delivery_us : Z)
  : tool_context_s * list report_line * Z :=
  let p := pids ctx pid in
  (* the header parsed by the previous call is still in p->pes *)
  let pts_last' := if has_PTS (pes p) then pes p else pts_last p in
  let clk_pts_initialized' :=
    if has_PTS (pes p) then
      if clk_pts_initialized p =? 0 then 1 else clk_pts_initialized p
    else clk_pts_initialized p in
  let dts_last' := if has_DTS (pes p) then pes p else dts_last p in
  let clk_dts_initialized' :=
    if has_DTS (pes p) then
      if clk_dts_initialized p =? 0 then 1 else clk_dts_initialized p
    else clk_dts_initialized p in
  let '(len, pes') := ltn_pes_packet_parse (pes p) buf in
  (* differences against the previous header *)
  let pts_diff_ticks' :=
    if has_PTS pes' then corrected_pts_diff (PTS pts_last') (PTS pes')
    else pts_diff_ticks p in
  let pts_count' :=
    if has_PTS pes' then uint64 (pts_count p + 1) else pts_count p in
  let pts_scr_diff_ms :=
    if has_PTS pes'
    then uint64 (Z.quot (ltntstools_scr_diff (pts_last_scr p) (scr p)) 27000)
    else 0 in
  let pts_last_scr' := if has_PTS pes' then scr p else pts_last_scr p in
  let dts_diff_ticks' :=
    if has_DTS pes' then ltntstools_pts_diff (DTS pts_last') (DTS pes')
    else dts_diff_ticks p in
  let dts_count' :=
    if has_DTS pes' then uint64 (dts_count p + 1) else dts_count p in
  let dts_scr_diff_ms :=
    if has_DTS pes'
    then uint64 (Z.quot (ltntstools_scr_diff (dts_last_scr p) (scr p)) 27000)
    else 0 in
  let dts_last_scr' := if has_DTS pes' then scr p else dts_last_scr p in
  (* column header every 25 lines *)
  let out_header := if pts_linenr ctx =? 0 then [PTS_header] else [] in
  let n := int32 (pts_linenr ctx + 1) in
  let pts_linenr' := if n >? 24 then 0 else n in
  let limit := maxAllowablePTSDTSDrift ctx in
  let scr_now := scr (pids ctx (scr_pid ctx)) in
  (* the PTS report *)
  let out_pts :=
    if has_PTS pes' then
      let pts_minus_scr_ticks := int64 (PTS pes' * 300 - scr_now) in
      (if (pts_minus_scr_ticks <? 0)
          && negb (enableNonTimingConformantMessages ctx =? 0)
       then [PTS_behind_PCR pts_count'] else [])
      ++ (if PTS_TICKS_TO_MS pts_diff_ticks' >=? limit
          then [PTS_diff_warning pts_count' limit
                  (PTS_TICKS_TO_MS pts_diff_ticks')]
          else [])
      ++ (if pts_scr_diff_ms >=? uint64 limit
          then [PTS_scr_diff_warning pts_count' limit pts_scr_diff_ms]
          else [])
      ++ (if order_asc_pts_output ctx =? 0 then
            [PTS_line pts_count' pos pid (PTS pes') pts_diff_ticks'
                      pts_scr_diff_ms pts_minus_scr_ticks]
            ++ (if enablePESDeliveryReport ctx =? 0 then []
                else [PES_delivery (uint64 (pts_count' - 1)) pid
                        prior_pes_delivery_ticks prior_pes_delivery_us])
          else [])
    else [] in
  let ordered_pts_list' :=
    if has_PTS pes' && negb (order_asc_pts_output ctx =? 0) then
      ordered_clock_insert
        (if pts_count' =? 1 then [] else ordered_pts_list p)
        (mk_item pts_count' (PTS pes') pos)
    else ordered_pts_list p in
  (* the DTS report *)
  let out_dts :=
    if has_DTS pes' then
      let dts_minus_scr_ticks := int64 (DTS pes' * 300 - scr_now) in
      (if PTS_TICKS_TO_MS dts_diff_ticks' >=? limit
       then [DTS_diff_warning dts_count' limit
               (PTS_TICKS_TO_MS pts_diff_ticks')]
       else [])
      ++ (if dts_scr_diff_ms >=? uint64 limit
          then [DTS_scr_diff_warning dts_count' limit dts_scr_diff_ms]
          else [])
      ++ [DTS_line pts_count' pos pid (DTS pes') dts_diff_ticks'
                   dts_scr_diff_ms dts_minus_scr_ticks]
    else [] in
  let out_dump :=
    if (len >? 0) && (doPESStatistics ctx >? 1) then [PES_dump] else [] in
  let p' :=
    mk_pid (pkt_count p) (cc p) (cc_errors p) (scr p) pts_count' pts_last'
           pts_diff_ticks' pts_last_scr' clk_pts_initialized'
           dts_count' dts_last' dts_diff_ticks' dts_last_scr'
           clk_dts_initialized' pes' ordered_pts_list' in
  (mk_context (enableNonTimingConformantMessages ctx)
              (enablePESDeliveryReport ctx) (dumpHex ctx)
              (maxAllowablePTSDTSDrift ctx) (store_pid (pids ctx) pid p')
              (doPESStatistics ctx) pts_linenr' (ts_linenr ctx)
              (ts_total_packets ctx) (order_asc_pts_output ctx)
              (scr_pid ctx),
   out_header ++ out_pts ++ out_dts ++ out_dump,
   len).

End PES.

(** A parser that finds the header [h] in [len] bytes, for the
    scenarios. *)
Definition parser_finding (len : Z) (h : ltn_pes_packet_s)
  : ltn_pes_packet_s -> list Z -> Z * ltn_pes_packet_s :=
  fun _ _ => (len, h).

(** Two PES headers in a row on one PID, the first with PTS [a] and
    the second with PTS [b]; the result is the PID slot and the lines of
    the second call. *)
Definition two_headers (ctx : tool_context_s) (pid a b : Z)
  : pid_s * list report_line :=
  let '(ctx1, _, _) :=
    processPESHeader (parser_finding 14 (mk_pes 2 a 0)) [] pid ctx 0 0 0 in
  let '(ctx2, out, _) :=
    processPESHeader (parser_finding 14 (mk_pes 2 b 0)) [] pid ctx1 188 0 0 in
  (pids ctx2 pid, out).

Definition zero_pes : ltn_pes_packet_s := mk_pes 0 0 0.

Definition zero_pid : pid_s :=
  mk_pid 0 0 0 0 0 zero_pes 0 0 0 0 zero_pes 0 0 0 zero_pes [].

(** The context [clock_inspector] starts from: [calloc] and the
    defaults it then stores ([-D 700], SCR PID 0x31, warnings on). *)
Definition initial_context : tool_context_s :=
  mk_context 1 0 0 700 (fun _ => zero_pid) 0 0 0 0 0 0x31.

End ClockInspector.

(** ** The index file and its build (slicer) *)

Module Indexer.

(** The first [n] elements of a list and the list without them, counted
    in [Z] (a block length of a read). *)
Fixpoint takeZ {A : Type} (n : Z) (l : list A) : list A :=
  match l with
  | [] => []
  | x :: l' => if 0 <? n then x :: takeZ (n - 1) l' else []
  end.

Fixpoint dropZ {A : Type} (n : Z) (l : list A) : list A :=
  match l with
  | [] => []
  | x :: l' => if 0 <? n then dropZ (n - 1) l' else l
  end.

(** What [indexLoad] leaves: the context with the records and the first
    and last PCR, [pcrDuration] and [streamTime]; the return -1 of a
    missing index file; or the read through the pointer to an empty
    array. *)
Inductive load_outcome : Type :=
| Loaded (ctx : Slicer.tool_context_s) (pcrDuration : Z)
         (streamTime : videotime_s)
| IndexNotFound
| LoadFault.

(** [indexLoad]: the index file is the sequence of its packed records,
    [None] a file that does not open. *)
Definition indexLoad (ctx : Slicer.tool_context_s)
           (index_file : option (list Slicer.ltntstools_pcr_position_s))
  : load_outcome :=
  match index_file with
  | None => IndexNotFound
  | Some [] => LoadFault
  | Some ((first :: _) as records) =>
      let vpcrMin := Slicer.pcr first in
      let vpcrMax := Slicer.pcr (last records first) in
      let vpcrDuration := int64 (vpcrMax - vpcrMin) in
      Loaded (Slicer.mk_context records (Slicer.opt_s ctx) (Slicer.opt_e ctx)
                vpcrMin vpcrMax (Slicer.timeStartStream ctx)
                (Slicer.timeEndStream ctx))
             vpcrDuration (pcr_to_videotime vpcrDuration)
  end.

(** [indexSave]: the records written to the index file. *)
Definition indexSave (ctx : Slicer.tool_context_s)
  : list Slicer.ltntstools_pcr_position_s :=
  Slicer.allPCRs ctx.

(** [blen] of the index build in [slicer]; the division is C's. *)
Definition index_blen : Z := Z.quot (16 * 1048576) 188 * 188.

Section Build.

Variable ltntstools_queryPCRs :
  list Z -> Z -> Z -> option (list Slicer.ltntstools_pcr_position_s).

(** The build loop of [slicer]: [rest] is the unread part of the input,
    [pos] the file position, [eof] the end-of-file flag a short read
    sets, [allPCRs] the records so far.  [None] when [fuel] rounds were
    not enough. *)
Fixpoint index_build_loop (fuel : nat) (rest : list Z) (pos : Z) (eof : bool)
         (allPCRs : list Slicer.ltntstools_pcr_position_s)
  : option (list Slicer.ltntstools_pcr_position_s) :=
  match fuel with
  | O => None
  | S fuel' =>
      if eof then Some allPCRs
      else
        let buf := takeZ index_blen rest in
        let rlen := Z.of_nat (List.length buf) in
        if rlen <=? 0 then Some allPCRs
        else
          let allPCRs' :=
            match ltntstools_queryPCRs buf rlen pos with
            | Some arr => allPCRs ++ arr
            | None => allPCRs
            end in
          index_build_loop fuel' (dropZ index_blen rest) (pos + rlen)
                           (rlen <? index_blen) allPCRs'
  end.

(** The index [slicer] builds and saves for an input file. *)
Definition index_build (fuel : nat) (file : list Z)
  : option (list Slicer.ltntstools_pcr_position_s) :=
  index_build_loop fuel file 0 false [].

End Build.

(** One line of [indexDump]: the id, the PID, the offset, the PCR and the
    stream time of a record. *)
Definition indexDumpEntry (id : Z) (p : Slicer.ltntstools_pcr_position_s)
  : Z * Z * Z * Z * string :=
  (id, Slicer.pid p, Slicer.offset p, Slicer.pcr p,
   videotime_to_str (pcr_to_videotime (Slicer.pcr p))).

Fixpoint indexDump_from (i : Z) (l : list Slicer.ltntstools_pcr_position_s)
  : list (Z * Z * Z * Z * string) :=
  match l with
  | [] => []
  | p :: l' => indexDumpEntry i p :: indexDump_from (int32 (i + 1)) l'
  end.

Definition indexDump (ctx : Slicer.tool_context_s)
  : list (Z * Z * Z * Z * string) :=
  indexDump_from 0 (Slicer.allPCRs ctx).

End Indexer.

(** ** The clock inspector: SCR and PES statistics, the packet loop and
    the final reports *)

Module Pipeline.
Import ClockInspector.

(** Modelled from the spec: [ltntstools_payload_unit_start_indicator],
    "pusi from byte 1 bit 6". *)
Definition ltntstools_payload_unit_start_indicator (pkt : list Z) : Z :=
  Z.land (Z.shiftr (byte_at pkt 1) 6) 1.

(** The fields of [struct pid_s] that the SCR and the PES statistics use
    beside those of [ClockInspector.pid_s]; a [struct timeval] is kept as
    one number. *)
Record scr_fields : Type := mk_scr_fields {
  scr_first : Z;
  scr_first_time : Z;
  scr_updateCount : Z;
  scr_at_pes_unit_header : Z;
  scr_last_seen : Z;
  scr_at_pes_unit_header_ts : Z;
  scr_last_seen_ts : Z
}.

(** The context with these fields (one slot per PID, as [pids]) and with
    the fields of [struct tool_context_s] the SCR statistics use. *)
Record inspector_state : Type := mk_state {
  ctx : tool_context_s;
  more : Z -> scr_fields;
  initial_time : Z;
  current_stream_time : Z;
  scr_linenr : Z;
  doSCRStatistics : Z
}.

Definition store_fields (table : Z -> scr_fields) (i : Z) (f : scr_fields)
  : Z -> scr_fields :=
  fun j => if j =? i then f else table j.

Definition with_pids (c : tool_context_s) (table : Z -> pid_s)
  : tool_context_s :=
  mk_context (enableNonTimingConformantMessages c)
             (enablePESDeliveryReport c) (dumpHex c)
             (maxAllowablePTSDTSDrift c) table (doPESStatistics c)
             (pts_linenr c) (ts_linenr c) (ts_total_packets c)
             (order_asc_pts_output c) (scr_pid c).

Definition with_scr (p : pid_s) (v : Z) : pid_s :=
  mk_pid (pkt_count p) (cc p) (cc_errors p) v (pts_count p) (pts_last p)
         (pts_diff_ticks p) (pts_last_scr p) (clk_pts_initialized p)
         (dts_count p) (dts_last p) (dts_diff_ticks p) (dts_last_scr p)
         (clk_dts_initialized p) (pes p) (ordered_pts_list p).

(** The lines of the SCR report, with their integer columns. *)
Inductive scr_report : Type :=
| SCR_header
| SCR_line (count pos pid scr_value diff_ticks diff_us : Z).

(** [processSCRStats]: a packet without a PCR changes nothing. *)
Definition processSCRStats (st : inspector_state) (pkt : list Z) (pos : Z)
  : inspector_state * list scr_report :=
  let pid := ltntstools_pid pkt in
  match ltntstools_scr pkt with
  | None => (st, [])
  | Some v =>
      let scr_now := uint64 v in
      let p := pids (ctx st) pid in
      let f := more st pid in
      let seen := scr_updateCount f >? 0 in
      let scr_diff :=
        if seen then uint64 (ltntstools_scr_diff (scr p) scr_now) else 0 in
      let scr_first' := if seen then scr_first f else scr_now in
      let scr_first_time' :=
        if seen then scr_first_time f else initial_time st in
      let header := if scr_linenr st =? 0 then [SCR_header] else [] in
      let n := int32 (scr_linenr st + 1) in
      let scr_linenr' := if n >? 24 then 0 else n in
      let dt :=
        int64 (scr_first_time'
               + Z.quot (ltntstools_scr_diff scr_first' scr_now) 27000000) in
      let count' := uint64 (scr_updateCount f + 1) in
      let f' :=
        mk_scr_fields scr_first' scr_first_time' count'
                      (scr_at_pes_unit_header f) (scr_last_seen f)
                      (scr_at_pes_unit_header_ts f) (scr_last_seen_ts f) in
      (mk_state (with_pids (ctx st)
                           (store_pid (pids (ctx st)) pid (with_scr p scr_now)))
                (store_fields (more st) pid f')
                (initial_time st) dt scr_linenr' (doSCRStatistics st),
       header ++ [SCR_line count' pos pid scr_now scr_diff
                           (Z.quot scr_diff 27)])
  end.

Section Loop.

Variable ltn_pes_packet_parse :
  ltn_pes_packet_s -> list Z -> Z * ltn_pes_packet_s.

(** [ltntstools_contains_pes_header buf len] of libltntstools: the offset
    of a PES start code in the buffer, negative when there is none. *)
Variable ltntstools_contains_pes_header : list Z -> Z -> Z.

(** [ltn_timeval_subtract_us a b] of libltntstools. *)
Variable ltn_timeval_subtract_us : Z -> Z -> Z.

(** [processPESStats]: [ts] is the arrival time of the packet. *)
Definition processPESStats (st : inspector_state) (pkt : list Z) (pos ts : Z)
  : inspector_state * list report_line :=
  let pid := ltntstools_pid pkt in
  let f := more st pid in
  let peshdr := ltntstools_payload_unit_start_indicator pkt in
  let scr_of_scr_pid := scr (pids (ctx st) (scr_pid (ctx st))) in
  if peshdr =? 0 then
    let f' :=
      mk_scr_fields (scr_first f) (scr_first_time f) (scr_updateCount f)
                    (scr_at_pes_unit_header f) scr_of_scr_pid
                    (scr_at_pes_unit_header_ts f) ts in
    (mk_state (ctx st) (store_fields (more st) pid f') (initial_time st)
              (current_stream_time st) (scr_linenr st) (doSCRStatistics st),
     [])
  else
    let pesoffset :=
      int32 (ltntstools_contains_pes_header (skipn 4 pkt) (188 - 4)) in
    let prior_pes_delivery_ticks :=
      int64 (scr_last_seen f - scr_at_pes_unit_header f) in
    let prior_pes_delivery_us :=
      ltn_timeval_subtract_us (scr_last_seen_ts f)
                              (scr_at_pes_unit_header_ts f) in
    let f' :=
      mk_scr_fields (scr_first f) (scr_first_time f) (scr_updateCount f)
                    scr_of_scr_pid (scr_last_seen f) ts
                    (scr_last_seen_ts f) in
    if (pesoffset >=? 0) && (pid >? 0) then
      let '(ctx', out, _) :=
        processPESHeader ltn_pes_packet_parse
          (skipn (Z.to_nat (4 + pesoffset)) pkt) pid (ctx st) pos
          prior_pes_delivery_ticks prior_pes_delivery_us in
      (mk_state ctx' (store_fields (more st) pid f') (initial_time st)
                (current_stream_time st) (scr_linenr st)
                (doSCRStatistics st),
       out)
    else
      (mk_state (ctx st) (store_fields (more st) pid f') (initial_time st)
                (current_stream_time st) (scr_linenr st)
                (doSCRStatistics st),
       []).

(** A line of the console: of the packet and PES reports or of the SCR
    report. *)
Inductive console_line : Type :=
| Report (l : report_line)
| ScrReport (l : scr_report).

(** The body of the packet loop of [clock_inspector] for one packet that
    arrived at time [ts]; [doPacketStatistics] is 1 from the start and no
    option changes it. *)
Definition inspect_packet (st : inspector_state) (pkt : list Z) (pos ts : Z)
  : inspector_state * list console_line :=
  let '(ctx1, out1) := processPacketStats (ctx st) pkt pos in
  let st1 :=
    mk_state ctx1 (more st) (initial_time st) (current_stream_time st)
             (scr_linenr st) (doSCRStatistics st) in
  let '(st2, out2) :=
    if doSCRStatistics st1 =? 0 then (st1, [])
    else processSCRStats st1 pkt pos in
  let '(st3, out3) :=
    if doPESStatistics (ctx st2) =? 0 then (st2, [])
    else processPESStats st2 pkt pos ts in
  let c := ctx st3 in
  (mk_state
     (mk_context (enableNonTimingConformantMessages c)
                 (enablePESDeliveryReport c) (dumpHex c)
                 (maxAllowablePTSDTSDrift c) (pids c) (doPESStatistics c)
                 (pts_linenr c) (ts_linenr c)
                 (uint64 (ts_total_packets c + 1))
                 (order_asc_pts_output c) (scr_pid c))
     (more st3) (initial_time st3) (current_stream_time st3)
     (scr_linenr st3) (doSCRStatistics st3),
   map Report out1 ++ map ScrReport out2 ++ map Report out3).

(** The packet loop over the packets of the input, each with its arrival
    time. *)
Fixpoint clock_inspector_loop (st : inspector_state)
         (pkts : list (list Z * Z)) (pos : Z)
  : inspector_state * list console_line :=
  match pkts with
  | [] => (st, [])
  | (pkt, ts) :: rest =>
      let '(st1, out1) := inspect_packet st pkt pos ts in
      let '(st2, out2) := clock_inspector_loop st1 rest (uint64 (pos + 188)) in
      (st2, out1 ++ out2)
  end.

End Loop.

Definition zero_fields : scr_fields := mk_scr_fields 0 0 0 0 0 0 0.

(** The state the loop starts from, for the statistics chosen by the
    options and the initial wall-clock time. *)
Definition initial_state (c : tool_context_s) (t0 scr_stats : Z)
  : inspector_state :=
  mk_state c (fun _ => zero_fields) t0 0 0 scr_stats.

(** [pidReport]: one line (PID, packets, discontinuities) for every PID
    with a packet count that is not 0; the percentage is left out. *)
Definition pidReport (c : tool_context_s) : list (Z * Z * Z) :=
  flat_map
    (fun i =>
       let p := pids c (Z.of_nat i) in
       if pkt_count p =? 0 then []
       else [(Z.of_nat i, pkt_count p, cc_errors p)])
    (seq 0 (Z.to_nat 8192)).




(** The packets of one PID in a stream. *)
Definition packets_of (pid : Z) (pkts : list (list Z * Z))
  : list (list Z * Z) :=
  filter (fun x => ltntstools_pid (fst x) =? pid) pkts.

(** The discontinuities of the payload-carrying packets in a run of
    packets of one PID, after a packet with the counter [prev]. *)
Fixpoint cc_discontinuities (prev : Z) (pkts : list (list Z * Z)) : Z :=
  match pkts with
  | [] => 0
  | (pkt, _) :: rest =>
      let afc := ltntstools_adaption_field_control pkt in
      let now := ltntstools_continuity_counter pkt in
      (if ((afc =? 1) || (afc =? 3)) && negb (now =? (prev + 1) mod 16)
       then 1 else 0)
      + cc_discontinuities now rest
  end.

Definition is_CC_error_of (pid : Z) (l : console_line) : bool :=
  match l with
  | Report (CC_error p _ _) => p =? pid
  | _ => false
  end.

Definition is_scr_diff_warning (l : console_line) : bool :=
  match l with
  | Report (PTS_scr_diff_warning _ _ _) => true
  | Report (DTS_scr_diff_warning _ _ _) => true
  | _ => false
  end.



(** The PCR values carried by the packets of one PID, in stream order. *)
Definition pcrs_of (pid : Z) (pkts : list (list Z * Z)) : list Z :=
  flat_map
    (fun x =>
       if ltntstools_pid (fst x) =? pid then
         match ltntstools_scr (fst x) with
         | Some v => [uint64 v]
         | None => []
         end
       else [])
    pkts.

(** A payload packet that starts a PES unit, for the scenarios. *)
Definition pusi_packet (pid cc : Z) : list Z :=
  [0x47; Z.lor 0x40 (Z.land (Z.shiftr pid 8) 0x1f); Z.land pid 0xff;
   Z.lor 0x10 cc] ++ repeat 0xff 184.

(** Two interleaved PIDs and a null packet: PID 0x100 with the counters
    0, 1, 3 (one discontinuity), PID 0x101 with one packet. *)
Definition two_pid_stream : list (list Z * Z) :=
  [(ts_packet 0x100 1 0, 0); (ts_packet 0x101 1 7, 0);
   (ts_packet 0x100 1 1, 0); (ts_packet 0x100 1 3, 0);
   (ts_packet 0x1fff 1 0, 0)].

(** PES units on PID 0x100 between the PCRs of PID 0x31, one and two
    seconds of the 27 MHz clock. *)
Definition pes_and_pcr_stream : list (list Z * Z) :=
  [(pcr_packet 0x31 0 27000000, 0); (pusi_packet 0x100 0, 0);
   (pcr_packet 0x31 1 54000000, 0); (pusi_packet 0x100 1, 0)].

(** The context after the option [-p]: PES statistics, and with them the
    SCR statistics of [initial_state]. *)
Definition pes_context : tool_context_s :=
  mk_context 1 0 0 700 (fun _ => zero_pid) 1 0 0 0 0 0x31.

End Pipeline.

(** * Properties *)

(** ** Machine integers that do not wrap *)

Lemma int32_id (x : Z) : - 2147483648 <= x < 2147483648 -> int32 x = x.
Proof.
  intros H. unfold int32, wrap_signed.
  change (2 ^ (32 - 1)) with 2147483648. change (2 ^ 32) with 4294967296.
  rewrite Z.mod_small; lia.
Qed.

Lemma int64_id (x : Z) :
  - 9223372036854775808 <= x < 9223372036854775808 -> int64 x = x.
Proof.
  intros H. unfold int64, wrap_signed.
  change (2 ^ (64 - 1)) with 9223372036854775808.
  change (2 ^ 64) with 18446744073709551616.
  rewrite Z.mod_small; lia.
Qed.

Lemma uint64_id (x : Z) : 0 <= x < 18446744073709551616 -> uint64 x = x.
Proof.
  intros H. unfold uint64, wrap_unsigned.
  change (2 ^ 64) with 18446744073709551616.
  apply Z.mod_small; lia.
Qed.

Lemma uint32_id (x : Z) : 0 <= x < 4294967296 -> uint32 x = x.
Proof.
  intros H. unfold uint32, wrap_unsigned.
  change (2 ^ 32) with 4294967296.
  apply Z.mod_small; lia.
Qed.

Lemma land_15_mod_16 (x : Z) : Z.land x 0x0f = x mod 16.
Proof. change 0x0f with (Z.ones 4). apply Z.land_ones. lia. Qed.

(** ** Stream time *)

Lemma mod_mod_divides (s a b : Z) :
  0 < a -> 0 < b -> (s mod (a * b)) mod a = s mod a.
Proof.
  intros Ha Hb. rewrite Z.rem_mul_r by lia.
  rewrite (Z.mul_comm a), Z.mod_add by lia. apply Z.mod_mod; lia.
Qed.

Lemma pcr_to_videotime_fields (pcr : Z) :
  0 <= pcr < 2147483648 * 27000000 ->
  let s := pcr / 27000000 in
  pcr_to_videotime pcr =
    mk_videotime (s / 86400) (s mod 86400 / 3600) (s mod 3600 / 60) (s mod 60) 0.
Proof.
  intros H s. unfold pcr_to_videotime.
  assert (Hs : 0 <= s < 2147483648).
  { unfold s. split.
    - apply Z.div_pos; lia.
    - apply Z.div_lt_upper_bound; lia. }
  rewrite (Z.quot_div_nonneg pcr 27000000) by lia. fold s.
  rewrite (int32_id s) by lia.
  change (3600 * 24) with 86400.
  rewrite (Z.quot_div_nonneg s 86400) by lia.
  pose proof (Z.div_mod s 86400 ltac:(lia)) as E1.
  pose proof (Z.mod_pos_bound s 86400 ltac:(lia)) as B1.
  assert (D1 : 0 <= s / 86400 < 24856).
  { split; [apply Z.div_pos; lia | apply Z.div_lt_upper_bound; lia]. }
  rewrite (int32_id (s / 86400)) by lia.
  rewrite (int32_id (s / 86400 * 3600)) by lia.
  rewrite (int32_id (s / 86400 * 3600 * 24)) by lia.
  replace (s - s / 86400 * 3600 * 24) with (s mod 86400) by lia.
  rewrite (int32_id (s mod 86400)) by lia.
  rewrite (Z.quot_div_nonneg (s mod 86400) 3600) by lia.
  set (r1 := s mod 86400) in *.
  pose proof (Z.div_mod r1 3600 ltac:(lia)) as E2.
  pose proof (Z.mod_pos_bound r1 3600 ltac:(lia)) as B2.
  assert (D2 : 0 <= r1 / 3600 < 24).
  { split; [apply Z.div_pos; lia | apply Z.div_lt_upper_bound; lia]. }
  rewrite (int32_id (r1 / 3600)) by lia.
  rewrite (int32_id (r1 / 3600 * 3600)) by lia.
  replace (r1 - r1 / 3600 * 3600) with (r1 mod 3600) by lia.
  rewrite (int32_id (r1 mod 3600)) by lia.
  rewrite (Z.quot_div_nonneg (r1 mod 3600) 60) by lia.
  set (r2 := r1 mod 3600) in *.
  pose proof (Z.div_mod r2 60 ltac:(lia)) as E3.
  pose proof (Z.mod_pos_bound r2 60 ltac:(lia)) as B3.
  assert (D3 : 0 <= r2 / 60 < 60).
  { split; [apply Z.div_pos; lia | apply Z.div_lt_upper_bound; lia]. }
  rewrite (int32_id (r2 / 60)) by lia.
  rewrite (int32_id (r2 / 60 * 60)) by lia.
  replace (r2 - r2 / 60 * 60) with (r2 mod 60) by lia.
  rewrite (int32_id (r2 mod 60)) by lia.
  subst r2 r1.
  pose proof (mod_mod_divides s 3600 24 ltac:(lia) ltac:(lia)) as M1.
  pose proof (mod_mod_divides s 60 60 ltac:(lia) ltac:(lia)) as M2.
  change (3600 * 24) with 86400 in M1. change (60 * 60) with 3600 in M2.
  rewrite M1, M2. reflexivity.
Qed.

Lemma fmt_d_zero : fmt_d 0 = ["0"%char].
Proof. reflexivity. Qed.

(** C8: for every 27 MHz PCR value (0 <= pcr < MAX_SCR_VALUE)
    [pcr_to_videotime] leaves [msecs] at 0, so the text of the time ends
    in ".0", and [days], [hours], [mins] and [secs] are the whole-second
    decomposition of pcr / 27000000. *)
Theorem pcr_to_videotime_whole_seconds (pcr : Z) :
  0 <= pcr < MAX_SCR_VALUE ->
  let vt := pcr_to_videotime pcr in
  let s := pcr / 27000000 in
  msecs vt = 0
  /\ (exists front,
        list_ascii_of_string (videotime_to_str vt)
        = front ++ ["."%char; "0"%char])
  /\ days vt = s / 86400
  /\ hours vt = s mod 86400 / 3600
  /\ mins vt = s mod 3600 / 60
  /\ secs vt = s mod 60
  /\ days vt * 86400 + hours vt * 3600 + mins vt * 60 + secs vt = s
  /\ 0 <= days vt /\ 0 <= hours vt < 24 /\ 0 <= mins vt < 60
  /\ 0 <= secs vt < 60.
Proof.
  intros H vt s.
  assert (Hw : 0 <= pcr < 2147483648 * 27000000).
  { unfold MAX_SCR_VALUE in H. change (2 ^ 33 * 300) with 2576980377600 in H.
    lia. }
  pose proof (pcr_to_videotime_fields pcr Hw) as E. cbv zeta in E. fold s in E.
  assert (Hs : 0 <= s).
  { unfold s. apply Z.div_pos; lia. }
  subst vt. rewrite E. cbn [msecs days hours mins secs].
  split; [reflexivity|]. split.
  { unfold videotime_to_str. rewrite list_ascii_of_string_of_list_ascii.
    cbn [msecs days hours mins secs]. rewrite fmt_d_zero.
    exists (fmt_d (s / 86400) ++ "."%char :: fmt_02d (s mod 86400 / 3600)
            ++ ":"%char :: fmt_02d (s mod 3600 / 60)
            ++ ":"%char :: fmt_02d (s mod 60)).
    repeat (rewrite <- app_assoc; cbn [app]). reflexivity. }
  repeat split; try reflexivity.
  - pose proof (Z.div_mod s 86400 ltac:(lia)).
    pose proof (Z.div_mod (s mod 86400) 3600 ltac:(lia)).
    pose proof (Z.div_mod (s mod 3600) 60 ltac:(lia)).
    pose proof (mod_mod_divides s 3600 24 ltac:(lia) ltac:(lia)) as M1.
    pose proof (mod_mod_divides s 60 60 ltac:(lia) ltac:(lia)) as M2.
    change (3600 * 24) with 86400 in M1. change (60 * 60) with 3600 in M2.
    lia.
  - apply Z.div_pos; lia.
  - apply Z.div_pos; [apply Z.mod_pos_bound|]; lia.
  - apply Z.div_lt_upper_bound; [|pose proof (Z.mod_pos_bound s 86400)]; lia.
  - apply Z.div_pos; [apply Z.mod_pos_bound|]; lia.
  - apply Z.div_lt_upper_bound; [|pose proof (Z.mod_pos_bound s 3600)]; lia.
  - apply Z.mod_pos_bound; lia.
  - apply Z.mod_pos_bound; lia.
Qed.

Lemma pcr_to_videotime_whole_seconds_witness :
  0 <= 95443 * 27000000 + 12345 < MAX_SCR_VALUE
  /\ pcr_to_videotime (95443 * 27000000 + 12345) = mk_videotime 1 2 30 43 0.
Proof.
  assert (H : 0 <= 95443 * 27000000 + 12345 < MAX_SCR_VALUE)
    by (unfold MAX_SCR_VALUE; lia).
  split; [exact H|].
  pose proof (pcr_to_videotime_whole_seconds _ H) as T.
  cbv zeta in T.
  destruct (pcr_to_videotime (95443 * 27000000 + 12345)) as [d h m s ms].
  cbn [msecs days hours mins secs] in T.
  destruct T as (T0 & _ & T1 & T2 & T3 & T4 & _).
  rewrite T0, T1, T2, T3, T4. reflexivity.
Defined.

(** ** Index lookup *)

Lemma indexLookupPCR_from_spec (l : list Slicer.ltntstools_pcr_position_s)
      (q : Z) (i0 : nat) :
  match Slicer.indexLookupPCR_from i0 l q with
  | Some i =>
      (i0 <= i)%nat
      /\ (exists r, nth_error l (i - i0) = Some r /\ q <= Slicer.pcr r)
      /\ (forall j r', (j < i - i0)%nat -> nth_error l j = Some r' ->
                       Slicer.pcr r' < q)
  | None => forall r, In r l -> Slicer.pcr r < q
  end.
Proof.
  revert i0. induction l as [|r l IH]; intros i0; cbn [Slicer.indexLookupPCR_from].
  - intros r [].
  - destruct (Z.leb_spec q (Slicer.pcr r)) as [Hle|Hlt].
    + split; [lia|]. rewrite Nat.sub_diag. split.
      * exists r. split; [reflexivity|exact Hle].
      * intros j r' Hj. lia.
    + specialize (IH (S i0)).
      destruct (Slicer.indexLookupPCR_from (S i0) l q) as [i|].
      * destruct IH as (Hi & (r1 & Hn & Hq) & Hmin).
        split; [lia|]. split.
        -- exists r1. split; [|exact Hq].
           replace (i - i0)%nat with (S (i - S i0)) by lia. exact Hn.
        -- intros j r' Hj Hn'. destruct j as [|j].
           ++ cbn in Hn'. injection Hn' as <-. exact Hlt.
           ++ cbn in Hn'. apply (Hmin j r'); [lia|exact Hn'].
      * intros r' [<-|Hin]; [exact Hlt|apply IH; exact Hin].
Qed.

(** C9: [indexLookupPCR] returns the lowest index whose record has
    pcr >= q, and NULL exactly when every record has pcr < q. *)
Theorem indexLookupPCR_lowest_ge (ctx : Slicer.tool_context_s) (q : Z) :
  match Slicer.indexLookupPCR ctx q with
  | Some i =>
      (exists r, nth_error (Slicer.allPCRs ctx) i = Some r /\ q <= Slicer.pcr r)
      /\ (forall j r', (j < i)%nat ->
                       nth_error (Slicer.allPCRs ctx) j = Some r' ->
                       Slicer.pcr r' < q)
  | None => forall r, In r (Slicer.allPCRs ctx) -> Slicer.pcr r < q
  end.
Proof.
  unfold Slicer.indexLookupPCR.
  pose proof (indexLookupPCR_from_spec (Slicer.allPCRs ctx) q 0) as H.
  destruct (Slicer.indexLookupPCR_from 0 (Slicer.allPCRs ctx) q) as [i|].
  - rewrite Nat.sub_0_r in H. destruct H as (_ & H1 & H2). split; assumption.
  - exact H.
Qed.

(** ** Fast duration query: the error returns *)

(** C10: [indexFastQueryDuration] returns -1 and writes nothing when
    [fname], [begin] or [end] is NULL or the file does not open; when it
    returns 0 the three pointers were given and the file opened; it
    returns no other value. *)
Theorem indexFastQueryDuration_error_returns
        (query : list Z -> Z -> Z -> option (list Slicer.ltntstools_pcr_position_s))
        (fopen_rb : string -> option (list Z))
        (fname : option string)
        (begin end_ durationTicks streamTime fileSize : bool) :
  let run :=
    Slicer.indexFastQueryDuration query fopen_rb fname begin end_
      durationTicks streamTime fileSize in
  ((fname = None \/ begin = false \/ end_ = false
    \/ (exists name, fname = Some name /\ fopen_rb name = None)) ->
   run = Slicer.Returned (-1) Slicer.no_writes)
  /\ (forall w, run = Slicer.Returned 0 w ->
        begin = true /\ end_ = true
        /\ exists name file, fname = Some name /\ fopen_rb name = Some file)
  /\ (forall ret w, run = Slicer.Returned ret w -> ret = -1 \/ ret = 0).
Proof.
  intros run. subst run. unfold Slicer.indexFastQueryDuration.
  destruct fname as [name|].
  2:{ split; [reflexivity|]. split; intros; [discriminate|].
      left. congruence. }
  destruct begin, end_; cbn [negb orb];
    try (split; [reflexivity|]; split; intros; [discriminate|left; congruence]).
  destruct (fopen_rb name) as [file|] eqn:Ef.
  2:{ split; [reflexivity|]. split; intros; [discriminate|].
      left. congruence. }
  destruct (Slicer.read_segments file) as [[single seg0] seg1].
  split.
  { intros [H|[H|[H|(n & Hn & Hf)]]]; try discriminate.
    injection Hn as <-. congruence. }
  split.
  - intros w _. repeat split. exists name, file. split; [reflexivity|exact Ef].
  - intros ret w.
    destruct (Slicer.query_segment query seg0) as [[|b a0]|];
      try discriminate.
    destruct single;
      [|destruct (Slicer.query_segment query seg1) as [[|x a]|]];
      try discriminate; intros H; right; congruence.
Qed.

Lemma indexFastQueryDuration_error_returns_witness :
  Slicer.indexFastQueryDuration Slicer.ts_queryPCRs (fun _ => None)
    (Some "missing.ts"%string) true true true true true
  = Slicer.Returned (-1) Slicer.no_writes.
Proof.
  apply (indexFastQueryDuration_error_returns Slicer.ts_queryPCRs
           (fun _ => None) (Some "missing.ts"%string) true true true true true).
  right. right. right. exists "missing.ts"%string. split; reflexivity.
Defined.

(** ** Continuity counters *)

Import ClockInspector.

Lemma store_pid_same (table : Z -> pid_s) (i : Z) (p : pid_s) :
  store_pid table i p i = p.
Proof. unfold store_pid. rewrite Z.eqb_refl. reflexivity. Qed.

Lemma store_pid_other (table : Z -> pid_s) (i j : Z) (p : pid_s) :
  j <> i -> store_pid table i p j = table j.
Proof.
  intros H. unfold store_pid. destruct (Z.eqb_spec j i); [contradiction|].
  reflexivity.
Qed.

(** The decision [processPacketStats] takes on a packet, read off the
    slot of its PID before the call. *)
Lemma processPacketStats_effect (ctx : tool_context_s) (pkt : list Z) (pos : Z) :
  let pid := ltntstools_pid pkt in
  let p := pids ctx pid in
  let afc := ltntstools_adaption_field_control pkt in
  let cc_now := ltntstools_continuity_counter pkt in
  let expected := Z.land (uint32 (cc p + 1)) 0x0f in
  let error :=
    ((afc =? 1) || (afc =? 3)) && (uint64 (pkt_count p + 1) >? 1)
    && negb (expected =? cc_now) && negb (pid =? 0x1fff) in
  filter is_CC_error (snd (processPacketStats ctx pkt pos))
  = (if error then [CC_error pid expected cc_now] else [])
  /\ cc_errors (pids (fst (processPacketStats ctx pkt pos)) pid)
     = (if error then uint64 (cc_errors p + 1) else cc_errors p)
  /\ cc (pids (fst (processPacketStats ctx pkt pos)) pid) = cc_now
  /\ pkt_count (pids (fst (processPacketStats ctx pkt pos)) pid)
     = uint64 (pkt_count p + 1)
  /\ (forall other, other <> pid ->
        pids (fst (processPacketStats ctx pkt pos)) other = pids ctx other).
Proof.
  intros pid p afc cc_now expected error.
  unfold processPacketStats. fold pid. fold p. fold afc. fold cc_now.
  fold expected.
  set (err := if (afc =? 1) || (afc =? 3) then _ else false).
  assert (Eerr : err = error).
  { subst err error.
    destruct ((afc =? 1) || (afc =? 3)); [|reflexivity].
    destruct (uint64 (pkt_count p + 1) >? 1); [|reflexivity].
    destruct (negb (expected =? cc_now)); reflexivity. }
  rewrite Eerr. clear Eerr err.
  assert (Hts : forall (a b : list report_line),
             (forall l, In l a -> is_CC_error l = false) ->
             (forall l, In l b -> is_CC_error l = false) ->
             filter is_CC_error
               (a ++ b ++ (if error then [CC_error pid expected cc_now] else []))
             = (if error then [CC_error pid expected cc_now] else [])).
  { intros a b Ha Hb. rewrite !filter_app.
    assert (Hnone : forall l0 : list report_line,
               (forall l, In l l0 -> is_CC_error l = false) ->
               filter is_CC_error l0 = []).
    { induction l0 as [|x l0 IH]; intros Hl; [reflexivity|].
      cbn [filter]. rewrite (Hl x (or_introl eq_refl)).
      apply IH. intros l Hin. apply Hl. right. exact Hin. }
    rewrite (Hnone a Ha), (Hnone b Hb). cbn [app].
    destruct error; reflexivity. }
  destruct (dumpHex ctx =? 0) eqn:Ed;
    cbn [fst snd pids]; rewrite store_pid_same; cbn [cc_errors cc pkt_count].
  - split; [|split; [reflexivity|split; [reflexivity|split; [reflexivity|]]]].
    + apply Hts.
      * intros l [].
      * intros l Hin.
        destruct (dumpHex ctx =? 1); [destruct Hin as [<-|[]]; reflexivity|].
        destruct (dumpHex ctx =? 2); [destruct Hin as [<-|[]]; reflexivity|].
        destruct Hin.
    + intros other Ho. apply store_pid_other. exact Ho.
  - split; [|split; [reflexivity|split; [reflexivity|split; [reflexivity|]]]].
    + apply Hts.
      * intros l Hin. apply in_app_or in Hin. destruct Hin as [Hin|Hin].
        -- destruct (ts_linenr ctx =? 0); [destruct Hin as [<-|[]]; reflexivity|].
           destruct Hin.
        -- destruct Hin as [<-|[]]. reflexivity.
      * intros l Hin.
        destruct (dumpHex ctx =? 1); [destruct Hin as [<-|[]]; reflexivity|].
        destruct (dumpHex ctx =? 2); [destruct Hin as [<-|[]]; reflexivity|].
        destruct Hin.
    + intros other Ho. apply store_pid_other. exact Ho.
Qed.

(** C3: [processPacketStats] writes a [!CC Error] line and increments
    [cc_errors] of the packet's PID exactly when afc is 1 or 3, the packet
    is not the first on the PID, the PID is not 0x1FFF and the continuity
    counter differs from (previous cc + 1) mod 16; no other PID is
    touched; the step from cc 15 to cc 0 raises no error; and the
    sequence 0,1,2,3,5,6,7,8,9,10 on PID 0x100 raises exactly one error,
    "expected 04 got 05". *)
Theorem processPacketStats_cc_error (ctx : tool_context_s) (pkt : list Z)
        (pos : Z) :
  let pid := ltntstools_pid pkt in
  let p := pids ctx pid in
  let afc := ltntstools_adaption_field_control pkt in
  let cc_now := ltntstools_continuity_counter pkt in
  let ctx' := fst (processPacketStats ctx pkt pos) in
  let out := snd (processPacketStats ctx pkt pos) in
  let mismatch :=
    ((afc =? 1) || (afc =? 3)) && negb (pkt_count p =? 0)
    && negb (pid =? 0x1fff) && negb (cc_now =? (cc p + 1) mod 16) in
  (0 <= pkt_count p < 2 ^ 64 - 1 ->
   filter is_CC_error out
   = (if mismatch then [CC_error pid ((cc p + 1) mod 16) cc_now] else [])
   /\ cc_errors (pids ctx' pid)
      = (if mismatch then uint64 (cc_errors p + 1) else cc_errors p)
   /\ (forall other, other <> pid ->
         cc_errors (pids ctx' other) = cc_errors (pids ctx other)))
  /\ (cc p = 15 -> cc_now = 0 ->
      filter is_CC_error out = []
      /\ cc_errors (pids ctx' pid) = cc_errors p)
  /\ (let run :=
        inspect_packets initial_context
          (map (ts_packet 0x100 1) [0; 1; 2; 3; 5; 6; 7; 8; 9; 10]) 0 in
      snd run = [CC_error 0x100 4 5]
      /\ cc_errors (pids (fst run) 0x100) = 1
      /\ CC_error_text 0x100 4 5
         = "!CC Error. PID 0100 expected 04 got 05"%string).
Proof.
  intros pid p afc cc_now ctx' out mismatch.
  pose proof (processPacketStats_effect ctx pkt pos) as E. cbv zeta in E.
  fold pid p afc cc_now ctx' out in E.
  destruct E as (Eout & Eerrs & _ & _ & Eother).
  assert (Eexp : Z.land (uint32 (cc p + 1)) 0x0f = (cc p + 1) mod 16).
  { rewrite land_15_mod_16. unfold uint32, wrap_unsigned.
    change (2 ^ 32) with (16 * 268435456).
    apply mod_mod_divides; lia. }
  rewrite Eexp in Eout, Eerrs.
  split; [|split].
  - intros Hcount.
    assert (Em : ((afc =? 1) || (afc =? 3)) && (uint64 (pkt_count p + 1) >? 1)
                 && negb ((cc p + 1) mod 16 =? cc_now) && negb (pid =? 0x1fff)
                 = mismatch).
    { subst mismatch. rewrite uint64_id by lia.
      rewrite (Z.eqb_sym cc_now).
      replace (pkt_count p + 1 >? 1) with (negb (pkt_count p =? 0)).
      - destruct ((afc =? 1) || (afc =? 3)), (negb (pkt_count p =? 0)),
          (negb ((cc p + 1) mod 16 =? cc_now)), (negb (pid =? 0x1fff));
          reflexivity.
      - rewrite Z.gtb_ltb.
        destruct (Z.eqb_spec (pkt_count p) 0) as [E0|E0]; cbn [negb];
          symmetry; [apply Z.ltb_ge | apply Z.ltb_lt]; lia. }
    rewrite Em in Eout, Eerrs.
    split; [exact Eout|]. split; [exact Eerrs|].
    intros other Ho. rewrite (Eother other Ho). reflexivity.
  - intros H15 H0.
    assert (Ex : negb ((cc p + 1) mod 16 =? cc_now) = false).
    { rewrite H15, H0. reflexivity. }
    rewrite Ex in Eout, Eerrs. rewrite !andb_false_r in Eout, Eerrs.
    cbn [andb] in Eout, Eerrs. split; assumption.
  - vm_compute. repeat split; reflexivity.
Qed.

Lemma processPacketStats_cc_error_witness :
  filter is_CC_error
    (snd (processPacketStats
            (fst (processPacketStats initial_context (ts_packet 0x100 1 3) 0))
            (ts_packet 0x100 1 5) 188))
  = [CC_error 0x100 4 5].
Proof.
  pose proof (processPacketStats_cc_error
                (fst (processPacketStats initial_context (ts_packet 0x100 1 3) 0))
                (ts_packet 0x100 1 5) 188) as T.
  cbv zeta in T. destruct T as (T & _).
  assert (H : 0 <= 1 < 2 ^ 64 - 1) by lia.
  apply T in H. destruct H as (H & _). exact H.
Defined.

(** ** PTS differences and the drift warning *)

Lemma filter_if_one {A : Type} (f : A -> bool) (c : bool) (x : A) :
  filter f (if c then [x] else []) = if c && f x then [x] else [].
Proof. destruct c; cbn; [destruct (f x)|]; reflexivity. Qed.

Lemma processPESHeader_pts
      (parse : ltn_pes_packet_s -> list Z -> Z * ltn_pes_packet_s)
      (buf : list Z) (pid : Z) (ctx : tool_context_s) (pos t u : Z) :
  let p := pids ctx pid in
  let parsed := snd (parse (pes p) buf) in
  let r := processPESHeader parse buf pid ctx pos t u in
  let p' := pids (fst (fst r)) pid in
  let limit := maxAllowablePTSDTSDrift ctx in
  (has_PTS parsed = true ->
   pts_diff_ticks p'
   = corrected_pts_diff (PTS (if has_PTS (pes p) then pes p else pts_last p))
                        (PTS parsed)
   /\ pts_count p' = uint64 (pts_count p + 1)
   /\ filter is_PTS_diff_warning (snd (fst r))
      = if PTS_TICKS_TO_MS (pts_diff_ticks p') >=? limit
        then [PTS_diff_warning (pts_count p') limit
                (PTS_TICKS_TO_MS (pts_diff_ticks p'))]
        else [])
  /\ (has_PTS parsed = false ->
      pts_diff_ticks p' = pts_diff_ticks p
      /\ filter is_PTS_diff_warning (snd (fst r)) = []).
Proof.
  intros p parsed r p' limit. subst r p'. unfold processPESHeader.
  fold p. subst parsed. destruct (parse (pes p) buf) as [len pes'].
  cbn [fst snd pids]. rewrite store_pid_same.
  cbn [pts_diff_ticks pts_count]. fold limit.
  split; intros Hpts; rewrite Hpts.
  - split; [reflexivity|]. split; [reflexivity|].
    rewrite !filter_app, !filter_if_one.
    destruct (order_asc_pts_output ctx =? 0),
      (enablePESDeliveryReport ctx =? 0), (has_DTS pes');
      rewrite ?filter_app, ?filter_if_one;
      cbn [filter is_PTS_diff_warning app];
      rewrite ?andb_false_r, ?andb_true_r; cbn [app];
      rewrite ?app_nil_r; reflexivity.
  - split; [reflexivity|].
    rewrite !filter_app, !filter_if_one.
    destruct (has_DTS pes');
      rewrite ?filter_app, ?filter_if_one;
      cbn [filter is_PTS_diff_warning app];
      rewrite ?andb_false_r; reflexivity.
Qed.




(** C4 (amended): on a PTS observation whose [pts_diff_ticks] is not
    negative, [processPESHeader] writes the PTS difference warning
    exactly when |pts_diff_ticks| in milliseconds is at least (not: above)
    [maxAllowablePTSDTSDrift], and the line then carries that limit and
    that value; without a PTS it writes none; a difference of exactly
    700 ms under the default limit 700 gives the warning "(is 700)". *)
Theorem processPESHeader_drift_warning
        (parse : ltn_pes_packet_s -> list Z -> Z * ltn_pes_packet_s)
        (buf : list Z) (pid : Z) (ctx : tool_context_s) (pos t u : Z) :
  let p := pids ctx pid in
  let parsed := snd (parse (pes p) buf) in
  let r := processPESHeader parse buf pid ctx pos t u in
  let out := snd (fst r) in
  let p' := pids (fst (fst r)) pid in
  let limit := maxAllowablePTSDTSDrift ctx in
  let ms := PTS_TICKS_TO_MS (Z.abs (pts_diff_ticks p')) in
  (has_PTS parsed = true -> 0 <= pts_diff_ticks p' ->
   existsb is_PTS_diff_warning out = (limit <=? ms)
   /\ filter is_PTS_diff_warning out
      = if limit <=? ms then [PTS_diff_warning (pts_count p') limit ms]
        else [])
  /\ (has_PTS parsed = false -> filter is_PTS_diff_warning out = [])
  /\ (has_PTS parsed = true -> limit = 700 -> pts_diff_ticks p' = 63000 ->
      In (PTS_diff_warning (pts_count p') 700 700) out)
  /\ In (PTS_diff_warning 2 700 700)
        (snd (two_headers initial_context 0x200 0 63000)).
Proof.
  intros p parsed r out p' limit ms.
  pose proof (processPESHeader_pts parse buf pid ctx pos t u) as E.
  cbv zeta in E. fold p parsed r p' limit out in E.
  destruct E as (Eyes & Eno).
  assert (Hfilter : has_PTS parsed = true -> 0 <= pts_diff_ticks p' ->
            filter is_PTS_diff_warning out
            = if limit <=? ms then [PTS_diff_warning (pts_count p') limit ms]
              else []).
  { intros Hpts Hpos. destruct (Eyes Hpts) as (_ & _ & Ef).
    subst ms. rewrite Z.abs_eq by exact Hpos.
    rewrite Ef. rewrite Z.geb_leb. reflexivity. }
  split; [|split; [|split]].
  - intros Hpts Hpos. specialize (Hfilter Hpts Hpos).
    split; [|exact Hfilter].
    assert (Hex : forall l : list report_line,
               existsb is_PTS_diff_warning l
               = negb (match filter is_PTS_diff_warning l with
                       | [] => true | _ => false end)).
    { induction l as [|x l IH]; [reflexivity|]. cbn [existsb filter].
      destruct (is_PTS_diff_warning x); [reflexivity|exact IH]. }
    rewrite Hex, Hfilter. destruct (limit <=? ms); reflexivity.
  - intros Hpts. apply Eno. exact Hpts.
  - intros Hpts Hl Hd.
    assert (Hpos : 0 <= pts_diff_ticks p') by lia.
    specialize (Hfilter Hpts Hpos).
    assert (Hms : ms = 700) by (subst ms; rewrite Hd; reflexivity).
    rewrite Hl, Hms in Hfilter. cbn in Hfilter.
    apply (proj1 (filter_In is_PTS_diff_warning _ out)).
    rewrite Hfilter. left. reflexivity.
  - vm_compute. left. reflexivity.
Qed.

Lemma processPESHeader_drift_warning_witness :
  filter is_PTS_diff_warning
    (snd (fst (processPESHeader
                 (parser_finding 14 (mk_pes 2 63000 0)) [] 0x200
                 (fst (fst (processPESHeader
                              (parser_finding 14 (mk_pes 2 0 0))
                              [] 0x200 initial_context 0 0 0)))
                 188 0 0)))
  = [PTS_diff_warning 2 700 700].
Proof.
  pose proof (processPESHeader_drift_warning
                (parser_finding 14 (mk_pes 2 63000 0)) [] 0x200
                (fst (fst (processPESHeader
                             (parser_finding 14 (mk_pes 2 0 0))
                             [] 0x200 initial_context 0 0 0)))
                188 0 0) as T.
  cbv zeta in T. destruct T as (T & _).
  assert (H1 : has_PTS (mk_pes 2 63000 0) = true) by reflexivity.
  assert (H2 : 0 <= 63000) by lia.
  destruct (T H1 H2) as (_ & E). rewrite E. reflexivity.
Defined.

(** C4 as stated fails on the code: a backward step of 1000 ms
    ([pts_diff_ticks] = -90000) has |difference| above 700 ms and raises no
    warning, and a forward step of exactly 700 ms raises the warning
    although 700 is not above 700. *)
Lemma drift_warning_counterexample :
  (pts_diff_ticks (fst (two_headers initial_context 0x200 90000 0)) = -90000
   /\ (PTS_TICKS_TO_MS (Z.abs (-90000)) >? 700) = true
   /\ existsb is_PTS_diff_warning
        (snd (two_headers initial_context 0x200 90000 0)) = false)
  /\ (pts_diff_ticks (fst (two_headers initial_context 0x200 0 63000)) = 63000
      /\ (PTS_TICKS_TO_MS (Z.abs 63000) >? 700) = false
      /\ existsb is_PTS_diff_warning
           (snd (two_headers initial_context 0x200 0 63000)) = true).
Proof. vm_compute. repeat split; reflexivity. Qed.

(** ** The ordered PTS list *)

Lemma StronglySorted_app_iff {A : Type} (R : A -> A -> Prop) (l1 l2 : list A) :
  StronglySorted R (l1 ++ l2)
  <-> StronglySorted R l1 /\ StronglySorted R l2
      /\ (forall a b, In a l1 -> In b l2 -> R a b).
Proof.
  induction l1 as [|x l1 IH]; cbn [app].
  - split.
    + intros H. repeat split; [constructor|exact H|intros a b []].
    + intros (_ & H & _). exact H.
  - split.
    + intros H. apply StronglySorted_inv in H. destruct H as (Hs & Hall).
      apply IH in Hs. destruct Hs as (H1 & H2 & H12).
      rewrite Forall_app in Hall. destruct Hall as (Ha1 & Ha2).
      repeat split.
      * constructor; assumption.
      * exact H2.
      * intros a b [<-|Ha] Hb.
        -- rewrite Forall_forall in Ha2. apply Ha2. exact Hb.
        -- apply H12; assumption.
    + intros (H1 & H2 & H12). apply StronglySorted_inv in H1.
      destruct H1 as (Hs & Hall). constructor.
      * apply IH. repeat split; [exact Hs|exact H2|].
        intros a b Ha Hb. apply H12; [right; exact Ha|exact Hb].
      * rewrite Forall_app. split; [exact Hall|].
        rewrite Forall_forall. intros b Hb. apply H12; [left; reflexivity|exact Hb].
Qed.

(** The reverse walk passes the items above the new clock and links the
    new entry behind the first item that is not above it. *)
Lemma insert_backwards_found (above before : list ordered_clock_item_s)
      (x e : ordered_clock_item_s) :
  Forall (fun y => clock e < clock y) above ->
  clock x <= clock e ->
  insert_backwards (above ++ x :: before) e = Some (above ++ e :: x :: before).
Proof.
  intros Habove Hx. induction Habove as [|y above Hy _ IH]; cbn [app insert_backwards].
  - destruct (Z.geb_spec (clock e) (clock x)); [reflexivity|lia].
  - destruct (Z.geb_spec (clock e) (clock y)); [lia|].
    rewrite IH. reflexivity.
Qed.

(** When every item is above the new clock the walk ends at the head and
    nothing is linked. *)
Lemma insert_backwards_not_found (from_tail : list ordered_clock_item_s)
      (e : ordered_clock_item_s) :
  Forall (fun y => clock e < clock y) from_tail ->
  insert_backwards from_tail e = None.
Proof.
  intros H. induction H as [|y l Hy _ IH]; cbn [insert_backwards].
  - reflexivity.
  - destruct (Z.geb_spec (clock e) (clock y)); [lia|].
    rewrite IH. reflexivity.
Qed.

(** With an item at or below the new clock in the list, the new entry
    goes right behind the last such item. *)
Lemma ordered_clock_insert_found (front back : list ordered_clock_item_s)
      (x src : ordered_clock_item_s) :
  clock x <= clock src ->
  Forall (fun y => clock src < clock y) back ->
  ordered_clock_insert (front ++ x :: back) src = front ++ x :: src :: back.
Proof.
  intros Hx Hback. unfold ordered_clock_insert.
  destruct (front ++ x :: back) as [|h tl] eqn:El.
  { destruct front; discriminate. }
  rewrite <- El. clear El h tl.
  rewrite rev_app_distr. cbn [rev]. rewrite <- app_assoc. cbn [app].
  rewrite insert_backwards_found.
  - rewrite rev_app_distr. cbn [rev]. rewrite rev_involutive.
    rewrite <- !app_assoc. cbn [app]. rewrite rev_involutive. reflexivity.
  - apply Forall_rev. exact Hback.
  - exact Hx.
Qed.

(** The list stays sorted in that case. *)
Lemma ordered_clock_insert_sorted (front back : list ordered_clock_item_s)
      (x src : ordered_clock_item_s) :
  clock x <= clock src ->
  Forall (fun y => clock src < clock y) back ->
  clocks_sorted (front ++ x :: back) ->
  clocks_sorted (ordered_clock_insert (front ++ x :: back) src).
Proof.
  intros Hx Hback Hs. rewrite ordered_clock_insert_found by assumption.
  unfold clocks_sorted in *. apply StronglySorted_app_iff in Hs.
  destruct Hs as (H1 & H2 & H12). apply StronglySorted_app_iff.
  apply StronglySorted_inv in H2. destruct H2 as (Hb & Hxb).
  repeat split.
  - exact H1.
  - constructor.
    + constructor; [exact Hb|].
      rewrite Forall_forall in *. intros y Hy. unfold clock_le.
      specialize (Hback y Hy). cbn beta in Hback. lia.
    + constructor; [exact Hx|exact Hxb].
  - intros a b Ha [<-|[<-|Hb']].
    + apply H12; [exact Ha|left; reflexivity].
    + specialize (H12 a x Ha (or_introl eq_refl)). unfold clock_le in *. lia.
    + apply H12; [exact Ha|right; exact Hb'].
Qed.

(** A new clock below every clock of a list that is not empty leaves the
    list as it was: the new entry is not in it. *)
Lemma ordered_clock_insert_dropped (items : list ordered_clock_item_s)
      (src : ordered_clock_item_s) :
  items <> [] ->
  Forall (fun y => clock src < clock y) items ->
  ordered_clock_insert items src = items.
Proof.
  intros Hne Hall. unfold ordered_clock_insert.
  destruct items as [|h tl]; [contradiction|].
  rewrite insert_backwards_not_found; [reflexivity|].
  apply Forall_rev. exact Hall.
Qed.

(** C6: the failing input.  Into the list holding (nr 1, clock 10) the
    entry (nr 2, clock 5) is inserted: the list is unchanged and the entry
    is not in it; the same happens through [processPESHeader] in reorder
    mode for PTS 10 followed by PTS 5. *)
Theorem ordered_clock_insert_drops_new_minimum :
  ordered_clock_insert [mk_item 1 10 0] (mk_item 2 5 188) = [mk_item 1 10 0]
  /\ ~ In (mk_item 2 5 188)
         (ordered_clock_insert [mk_item 1 10 0] (mk_item 2 5 188))
  /\ ordered_pts_list
       (fst (two_headers
               (mk_context 1 0 0 700 (fun _ => zero_pid) 0 0 0 0 1 0x31)
               0x200 10 5))
     = [mk_item 1 10 0].
Proof.
  split; [reflexivity|]. split; [|reflexivity].
  cbn. intros [H|[]]. discriminate H.
Qed.

(** ** The slice copy *)

Lemma firstn_add_skipn {A : Type} (a b : nat) (l : list A) :
  firstn (a + b) l = firstn a l ++ firstn b (skipn a l).
Proof.
  revert l. induction a as [|a IH]; intros l; [reflexivity|].
  destruct l as [|x l]; cbn [Nat.add firstn skipn app].
  - rewrite firstn_nil. reflexivity.
  - rewrite IH. reflexivity.
Qed.

(** As long as the loop counter cannot wrap, the loop ends after
    [copy_rounds] rounds and has written that many whole blocks of the
    input, or what the input had left. *)
Lemma slicer_copy_loop_blocks (fuel : nat) (ifh : list Z) (begin e_offset : Z)
      (ofh : list Z) :
  0 <= begin -> e_offset + Slicer.slice_blen <= 2 ^ 64 ->
  (Slicer.copy_rounds begin e_offset < fuel)%nat ->
  Slicer.slicer_copy_loop fuel ifh begin e_offset ofh
  = Some (ofh ++ firstn (Slicer.copy_rounds begin e_offset
                         * Z.to_nat Slicer.slice_blen) ifh).
Proof.
  revert ifh begin ofh.
  induction fuel as [|fuel IH]; intros ifh begin ofh Hb He Hf; [lia|].
  cbn [Slicer.slicer_copy_loop].
  unfold Slicer.copy_rounds, Slicer.slice_blen in *.
  change (188 * 64) with 12032 in *.
  change (2 ^ 64) with 18446744073709551616 in *.
  destruct (Z.ltb_spec begin e_offset) as [Hlt|Hge].
  - rewrite uint64_id by lia.
    assert (Hr : Z.to_nat ((e_offset - begin + 12032 - 1) / 12032)
                 = S (Z.to_nat ((e_offset - (begin + 12032) + 12032 - 1) / 12032))).
    { replace (e_offset - begin + 12032 - 1)
        with ((e_offset - (begin + 12032) + 12032 - 1) + 1 * 12032) by lia.
      rewrite Z.div_add by lia.
      rewrite Z2Nat.inj_add; [lia| |lia].
      apply Z.div_pos; lia. }
    rewrite IH; [|lia|lia|lia].
    rewrite Hr. cbn [Nat.mul]. rewrite firstn_add_skipn.
    rewrite <- app_assoc. reflexivity.
  - replace (Z.to_nat ((e_offset - begin + 12032 - 1) / 12032)) with 0%nat.
    + cbn [Nat.mul firstn]. rewrite app_nil_r. reflexivity.
    + assert (Hq : (e_offset - begin + 12032 - 1) / 12032 < 1)
        by (apply Z.div_lt_upper_bound; lia).
      lia.
Qed.

(** The number of bytes the slice copy writes: the range rounded up to
    whole blocks of 12032 bytes, or what the input holds behind
    [s.offset]. *)
Lemma slicer_copy_length (fuel : nat) (input : list Z)
      (s e : Slicer.ltntstools_pcr_position_s) :
  0 <= Slicer.offset s < 2 ^ 63 ->
  Slicer.offset e + Slicer.slice_blen <= 2 ^ 64 ->
  (Slicer.copy_rounds (Slicer.offset s) (Slicer.offset e) < fuel)%nat ->
  exists out,
    Slicer.slicer_copy fuel input s e = Some out
    /\ Z.of_nat (List.length out)
       = Z.min (Z.of_nat (Slicer.copy_rounds (Slicer.offset s) (Slicer.offset e))
                * Slicer.slice_blen)
               (Z.max 0 (Z.of_nat (List.length input) - Slicer.offset s)).
Proof.
  intros Hs He Hf. unfold Slicer.slicer_copy.
  rewrite slicer_copy_loop_blocks by (assumption || lia).
  eexists. split; [reflexivity|]. cbn [app].
  unfold Slicer.fseeko_set. rewrite int64_id.
  2:{ change (2 ^ 63) with 9223372036854775808 in Hs. lia. }
  destruct (Z.ltb_spec (Slicer.offset s) 0) as [Hn|_]; [lia|].
  rewrite length_firstn, length_skipn.
  unfold Slicer.slice_blen. change (188 * 64) with 12032. lia.
Qed.

(** C1: the failing input.  In a file of 64 packets (12032 bytes) with a
    PCR in every packet, the first index record is at offset 0 and the
    second at offset 188; for these two records the copy loop ends after
    one round and has written all 12032 bytes of the file, not the 188
    bytes between the two offsets; [slicer] with
    [-s 0.00:00:00.0 -e 0.00:00:00.1] picks these two records and writes
    the same. *)
Theorem slicer_copy_writes_whole_block :
  option_map (firstn 2)
    (Slicer.ts_queryPCRs Slicer.pcr_every_packet_file 12032 0)
  = Some [Slicer.mk_position 0 0 0x31; Slicer.mk_position 27000 188 0x31]
  /\ Slicer.slicer_copy 2 Slicer.pcr_every_packet_file
       (Slicer.mk_position 0 0 0x31) (Slicer.mk_position 27000 188 0x31)
     = Some Slicer.pcr_every_packet_file
  /\ Z.of_nat (List.length Slicer.pcr_every_packet_file) = 12032
  /\ Slicer.offset (Slicer.mk_position 27000 188 0x31)
     - Slicer.offset (Slicer.mk_position 0 0 0x31) = 188
  /\ str_to_videotime "0.00:00:00.0" = Some (mk_videotime 0 0 0 0 0)
  /\ str_to_videotime "0.00:00:00.1" = Some (mk_videotime 0 0 0 0 1)
  /\ Slicer.slicer_slice 2 Slicer.one_millisecond_slice
       Slicer.pcr_every_packet_file
     = Some Slicer.pcr_every_packet_file.
Proof.
  split; [vm_compute; reflexivity|].
  split; [vm_compute; reflexivity|].
  split; [reflexivity|]. split; [reflexivity|].
  split; [reflexivity|]. split; [reflexivity|].
  vm_compute. reflexivity.
Qed.

(** ** Fast duration query: the result *)

Lemma read_segments_spec (file : list Z) :
  let n := Z.of_nat (List.length file) in
  Slicer.read_segments file
  = (n <? 32 * 1048576, Slicer.head_segment file,
     if n <? 32 * 1048576 then Slicer.no_segment else Slicer.tail_segment file).
Proof.
  intros n. unfold Slicer.read_segments, Slicer.head_segment,
    Slicer.tail_segment. fold n.
  destruct (Z.ltb_spec n (32 * 1048576)) as [Hs|Hl].
  - rewrite int32_id by lia. unfold Slicer.fread_at.
    change (Z.to_nat 0) with 0%nat. cbn [skipn].
    unfold n. rewrite Nat2Z.id, firstn_all. reflexivity.
  - unfold Slicer.fread_at. change (Z.to_nat 0) with 0%nat. cbn [skipn].
    rewrite (firstn_all2 (n := Z.to_nat (16 * 1048576))
               (skipn (Z.to_nat (n - 16 * 1048576)) file)).
    + reflexivity.
    + rewrite length_skipn. lia.
Qed.

(** C2 (amended): for a file that opens, with at least one PCR record
    found in its head segment and in its tail segment,
    [indexFastQueryDuration] returns 0, [begin] is the first record of the
    head, [end] the last record of the tail, and [*durationTicks] is
    end.pcr - begin.pcr by plain 64-bit subtraction (the difference modulo
    [MAX_SCR_VALUE] only when begin.pcr <= end.pcr); of a file of at
    least 32 MiB only the first and the last 16 MiB are read. *)
Theorem indexFastQueryDuration_duration
        (query : list Z -> Z -> Z -> option (list Slicer.ltntstools_pcr_position_s))
        (fopen_rb : string -> option (list Z))
        (name : string) (file : list Z)
        (b : Slicer.ltntstools_pcr_position_s)
        (rest a : list Slicer.ltntstools_pcr_position_s)
        (durationTicks streamTime fileSize : bool) :
  fopen_rb name = Some file ->
  Slicer.query_segment query (Slicer.head_segment file) = Some (b :: rest) ->
  Slicer.query_segment query (Slicer.tail_segment file) = Some a ->
  a <> [] ->
  let n := Z.of_nat (List.length file) in
  let e := last a b in
  let d := int64 (Slicer.pcr e - Slicer.pcr b) in
  Slicer.indexFastQueryDuration query fopen_rb (Some name) true true
    durationTicks streamTime fileSize
  = Slicer.Returned 0
      (Slicer.mk_writes (Some b) (Some e)
         (if durationTicks then Some d else None)
         (if fileSize then Some n else None)
         (if streamTime then Some (pcr_to_videotime d) else None))
  /\ (- 2 ^ 63 <= Slicer.pcr e - Slicer.pcr b < 2 ^ 63 ->
      d = Slicer.pcr e - Slicer.pcr b)
  /\ (0 <= Slicer.pcr b <= Slicer.pcr e -> Slicer.pcr e < MAX_SCR_VALUE ->
      d = ltntstools_scr_diff (Slicer.pcr b) (Slicer.pcr e))
  /\ (32 * 1048576 <= n ->
      forall (fopen_rb' : string -> option (list Z)) (file' : list Z),
        fopen_rb' name = Some file' ->
        List.length file' = List.length file ->
        firstn (Z.to_nat (16 * 1048576)) file'
        = firstn (Z.to_nat (16 * 1048576)) file ->
        skipn (Z.to_nat (n - 16 * 1048576)) file'
        = skipn (Z.to_nat (n - 16 * 1048576)) file ->
        Slicer.indexFastQueryDuration query fopen_rb' (Some name) true true
          durationTicks streamTime fileSize
        = Slicer.indexFastQueryDuration query fopen_rb (Some name) true true
            durationTicks streamTime fileSize).
Proof.
  intros Hopen Hhead Htail Hne n e d.
  assert (Hrun : forall (fo : string -> option (list Z)) (f : list Z),
             fo name = Some f ->
             Slicer.indexFastQueryDuration query fo (Some name) true true
               durationTicks streamTime fileSize
             = match Slicer.query_segment query (Slicer.head_segment f) with
               | Some (b0 :: r0) =>
                   match Slicer.query_segment query (Slicer.tail_segment f) with
                   | Some (x :: a0) =>
                       let e0 := last (x :: a0) b0 in
                       let d0 := int64 (Slicer.pcr e0 - Slicer.pcr b0) in
                       Slicer.Returned 0
                         (Slicer.mk_writes (Some b0) (Some e0)
                            (if durationTicks then Some d0 else None)
                            (if fileSize then Some (Z.of_nat (List.length f))
                             else None)
                            (if streamTime then Some (pcr_to_videotime d0)
                             else None))
                   | _ => Slicer.Fault
                   end
               | _ => Slicer.Fault
               end).
  { intros fo f Hf. unfold Slicer.indexFastQueryDuration.
    cbn [negb orb]. rewrite Hf.
    pose proof (read_segments_spec f) as Hseg. cbv zeta in Hseg.
    rewrite Hseg. clear Hseg.
    destruct (Slicer.query_segment query (Slicer.head_segment f))
      as [[|b0 r0]|] eqn:Eh; try reflexivity.
    destruct (Z.of_nat (List.length f) <? 32 * 1048576) eqn:Es.
    - assert (Et : Slicer.tail_segment f = Slicer.head_segment f).
      { unfold Slicer.tail_segment, Slicer.head_segment. rewrite Es.
        reflexivity. }
      rewrite Et, Eh. reflexivity.
    - destruct (Slicer.query_segment query (Slicer.tail_segment f))
        as [[|x a0]|]; reflexivity. }
  split; [|split; [|split]].
  - rewrite (Hrun fopen_rb file Hopen), Hhead, Htail.
    destruct a as [|x a0]; [contradiction|]. reflexivity.
  - intros Hrange. subst d. apply int64_id.
    change (2 ^ 63) with 9223372036854775808 in Hrange. lia.
  - intros Hb He. subst d. unfold ltntstools_scr_diff.
    destruct (Z.ltb_spec (Slicer.pcr e - Slicer.pcr b) 0) as [Hn|_]; [lia|].
    apply int64_id. unfold MAX_SCR_VALUE in He.
    change (2 ^ 33 * 300) with 2576980377600 in He. lia.
  - intros Hbig fo' file' Hopen' Hlen Hfirst Hlast.
    rewrite (Hrun fo' file' Hopen'), (Hrun fopen_rb file Hopen).
    assert (Ehs : Slicer.head_segment file' = Slicer.head_segment file).
    { unfold Slicer.head_segment. rewrite Hlen. fold n.
      destruct (n <? 32 * 1048576) eqn:Es; [apply Z.ltb_lt in Es; lia|].
      rewrite Hfirst. reflexivity. }
    assert (Ets : Slicer.tail_segment file' = Slicer.tail_segment file).
    { unfold Slicer.tail_segment. rewrite Hlen. fold n.
      destruct (n <? 32 * 1048576) eqn:Es; [apply Z.ltb_lt in Es; lia|].
      rewrite Hlast. reflexivity. }
    rewrite Ehs, Ets, Hlen. reflexivity.
Qed.

Lemma indexFastQueryDuration_duration_witness :
  Slicer.indexFastQueryDuration Slicer.ts_queryPCRs
    (fun _ => Some Slicer.one_second_file) (Some "one.ts"%string)
    true true true false true
  = Slicer.Returned 0
      (Slicer.mk_writes (Some (Slicer.mk_position 1000000 0 0x31))
         (Some (Slicer.mk_position 28000000 376 0x31))
         (Some 27000000) (Some 564) None).
Proof.
  assert (Hopen : (fun _ : string => Some Slicer.one_second_file)
                    "one.ts"%string = Some Slicer.one_second_file)
    by reflexivity.
  assert (Hhead : Slicer.query_segment Slicer.ts_queryPCRs
                    (Slicer.head_segment Slicer.one_second_file)
                  = Some [Slicer.mk_position 1000000 0 0x31;
                          Slicer.mk_position 28000000 376 0x31])
    by (vm_compute; reflexivity).
  assert (Htail : Slicer.query_segment Slicer.ts_queryPCRs
                    (Slicer.tail_segment Slicer.one_second_file)
                  = Some [Slicer.mk_position 1000000 0 0x31;
                          Slicer.mk_position 28000000 376 0x31])
    by (vm_compute; reflexivity).
  assert (Hne : [Slicer.mk_position 1000000 0 0x31;
                 Slicer.mk_position 28000000 376 0x31] <> [])
    by discriminate.
  destruct (indexFastQueryDuration_duration Slicer.ts_queryPCRs _ _ _ _ _ _
              true false true Hopen Hhead Htail Hne) as (T & _).
  rewrite T. vm_compute. reflexivity.
Defined.

(** C2 as stated fails on the code: for a recording that crosses the
    wrap of the 27 MHz clock [*durationTicks] is negative, while the
    difference modulo [MAX_SCR_VALUE] is two seconds of ticks. *)
Lemma indexFastQueryDuration_wrap_counterexample :
  Slicer.indexFastQueryDuration Slicer.ts_queryPCRs
    (fun _ => Some Slicer.wrapping_file) (Some "wrap.ts"%string)
    true true true false true
  = Slicer.Returned 0
      (Slicer.mk_writes (Some (Slicer.mk_position 2576953377600 0 0x31))
         (Some (Slicer.mk_position 27000000 188 0x31))
         (Some (-2576926377600)) (Some 376) None)
  /\ ltntstools_scr_diff 2576953377600 27000000 = 54000000.
Proof. split; vm_compute; reflexivity. Qed.

(** ** The round trip of a stream-time string *)

Lemma digits_value_snoc (ds : list ascii) (x : ascii) (a0 : Z) :
  digits_value (ds ++ [x]) a0 = digits_value ds a0 * 10 + digit_val x.
Proof. unfold digits_value. rewrite fold_left_app. reflexivity. Qed.

Lemma digit_char_facts (k : Z) :
  0 <= k < 10 ->
  is_digit (digit_char k) = true
  /\ is_space (digit_char k) = false
  /\ Ascii.eqb (digit_char k) "-" = false
  /\ Ascii.eqb (digit_char k) "+" = false
  /\ digit_val (digit_char k) = k.
Proof.
  intros H.
  assert (E : k = 0 \/ k = 1 \/ k = 2 \/ k = 3 \/ k = 4 \/ k = 5 \/ k = 6
              \/ k = 7 \/ k = 8 \/ k = 9) by lia.
  repeat (destruct E as [->|E]; [repeat split; reflexivity|]).
  subst k. repeat split; reflexivity.
Qed.

Lemma dec_digits_spec (fuel : nat) (n : Z) (acc : list ascii) :
  (0 < fuel)%nat -> 0 <= n < 10 ^ Z.of_nat fuel ->
  exists c ds,
    dec_digits fuel n acc = (c :: ds) ++ acc
    /\ Forall (fun x => is_digit x = true) (c :: ds)
    /\ is_space c = false /\ Ascii.eqb c "-" = false
    /\ Ascii.eqb c "+" = false
    /\ forall a0,
         digits_value (c :: ds) a0
         = a0 * 10 ^ Z.of_nat (List.length (c :: ds)) + n.
Proof.
  revert n acc. induction fuel as [|fuel IH]; intros n acc Hf Hn; [lia|].
  cbn [dec_digits].
  assert (Hm : 0 <= n mod 10 < 10) by (apply Z.mod_pos_bound; lia).
  destruct (digit_char_facts (n mod 10) Hm) as (D1 & D2 & D3 & D4 & D5).
  destruct (Z.ltb_spec n 10) as [Hlt|Hge].
  - exists (digit_char (n mod 10)), []. repeat split; try assumption.
    + constructor; [exact D1|constructor].
    + intros a0. unfold digits_value. cbn [fold_left List.length].
      rewrite D5. rewrite Z.mod_small by lia.
      change (10 ^ Z.of_nat 1) with 10. lia.
  - assert (Hfuel : (0 < fuel)%nat).
    { destruct fuel; [|lia]. change (10 ^ Z.of_nat 1) with 10 in Hn. lia. }
    assert (Hdiv : 0 <= n / 10 < 10 ^ Z.of_nat fuel).
    { split; [apply Z.div_pos; lia|].
      apply Z.div_lt_upper_bound; [lia|].
      rewrite Nat2Z.inj_succ, Z.pow_succ_r in Hn by lia. lia. }
    destruct (IH (n / 10) (digit_char (n mod 10) :: acc) Hfuel Hdiv)
      as (c & ds & E & Hall & S1 & S2 & S3 & Hval).
    exists c, (ds ++ [digit_char (n mod 10)]).
    split.
    { rewrite E. cbn [app]. rewrite <- app_assoc. reflexivity. }
    split.
    { change (c :: ds ++ [digit_char (n mod 10)])
        with ((c :: ds) ++ [digit_char (n mod 10)]).
      apply Forall_app. split; [exact Hall|].
      constructor; [exact D1|constructor]. }
    repeat split; try assumption.
    intros a0.
    change (c :: ds ++ [digit_char (n mod 10)])
      with ((c :: ds) ++ [digit_char (n mod 10)]).
    rewrite digits_value_snoc, Hval, D5. rewrite length_app.
    cbn [List.length].
    rewrite Nat2Z.inj_add. change (Z.of_nat 1) with 1.
    rewrite Z.pow_add_r by lia. change (10 ^ 1) with 10.
    pose proof (Z.div_mod n 10 ltac:(lia)). lia.
Qed.

(** Scanning without a width runs through a prefix of digits that is
    followed by the end of the input or by a character that is no digit. *)
Lemma scan_digits_prefix (ds rest : list ascii) (acc : Z) (count : nat) :
  Forall (fun x => is_digit x = true) ds ->
  match rest with [] => True | c :: _ => is_digit c = false end ->
  scan_digits None acc count (ds ++ rest)
  = (digits_value ds acc, (count + List.length ds)%nat, rest).
Proof.
  intros Hds Hrest. revert acc count.
  induction Hds as [|x ds Hx _ IH]; intros acc count; cbn [app].
  - unfold digits_value. cbn [fold_left List.length]. rewrite Nat.add_0_r.
    destruct rest as [|c rest']; [reflexivity|].
    cbn [scan_digits]. rewrite Hrest. reflexivity.
  - cbn [scan_digits option_map]. rewrite Hx. rewrite IH.
    unfold digits_value. cbn [fold_left List.length].
    rewrite Nat.add_succ_r. reflexivity.
Qed.

Lemma store_int_id (v : Z) : 0 <= v < 2 ^ 31 -> store_int v = v.
Proof.
  intros H. change (2 ^ 31) with 2147483648 in H. unfold store_int.
  rewrite Z.min_r by lia. rewrite Z.max_r by lia. apply int32_id. lia.
Qed.

(** [%d] reads back what [%d] printed, up to the next character that is
    no digit. *)
Lemma scan_d_fmt_d (d : Z) (rest : list ascii) :
  0 <= d < 2 ^ 31 ->
  match rest with [] => True | c :: _ => is_digit c = false end ->
  scan_d None (fmt_d d ++ rest) = Some (d, rest).
Proof.
  intros Hd Hrest. unfold fmt_d.
  destruct (Z.ltb_spec d 0) as [Hn|_]; [lia|].
  assert (Hr : 0 <= d < 10 ^ Z.of_nat 10).
  { change (10 ^ Z.of_nat 10) with 10000000000.
    change (2 ^ 31) with 2147483648 in Hd. lia. }
  destruct (dec_digits_spec 10 d [] ltac:(lia) Hr)
    as (c & ds & E & Hall & S1 & S2 & S3 & Hval).
  rewrite E, app_nil_r. unfold scan_d. cbn [app skip_spaces].
  rewrite S1, S2, S3. cbn [orb].
  change (c :: ds ++ rest) with ((c :: ds) ++ rest).
  rewrite (scan_digits_prefix (c :: ds) rest 0 0 Hall Hrest).
  cbn [Nat.add List.length]. rewrite Hval. cbn [Z.mul Z.add].
  rewrite store_int_id by exact Hd. reflexivity.
Qed.

Lemma fmt_02d_two_digits (v : Z) :
  0 <= v < 100 -> fmt_02d v = [digit_char (v / 10); digit_char (v mod 10)].
Proof.
  intros H. unfold fmt_02d.
  destruct (Z.ltb_spec v 0) as [Hn|_]; [lia|].
  cbn [dec_digits]. destruct (Z.ltb_spec v 10) as [Hs|Hl].
  - cbn [List.length Nat.ltb Nat.leb]. rewrite Z.div_small by lia. reflexivity.
  - assert (Hq : v / 10 < 10) by (apply Z.div_lt_upper_bound; lia).
    destruct (Z.ltb_spec (v / 10) 10) as [_|Hx]; [|lia].
    cbn [List.length Nat.ltb Nat.leb].
    rewrite (Z.mod_small (v / 10)); [reflexivity|].
    split; [apply Z.div_pos; lia|exact Hq].
Qed.

(** [%02d] reads back the two digits [%02d] printed, whatever follows. *)
Lemma scan_d_fmt_02d (v : Z) (rest : list ascii) :
  0 <= v < 100 -> scan_d (Some 2%nat) (fmt_02d v ++ rest) = Some (v, rest).
Proof.
  intros H. rewrite fmt_02d_two_digits by exact H.
  assert (H1 : 0 <= v / 10 < 10).
  { split; [apply Z.div_pos; lia|apply Z.div_lt_upper_bound; lia]. }
  assert (H2 : 0 <= v mod 10 < 10) by (apply Z.mod_pos_bound; lia).
  destruct (digit_char_facts _ H1) as (A1 & A2 & A3 & A4 & A5).
  destruct (digit_char_facts _ H2) as (B1 & _ & _ & _ & B5).
  unfold scan_d. cbn [app skip_spaces]. rewrite A2, A3, A4. cbn [orb].
  cbn [scan_digits option_map Nat.pred]. rewrite A1, B1.
  assert (Hend : scan_digits (Some 0%nat)
                   ((0 * 10 + digit_val (digit_char (v / 10))) * 10
                    + digit_val (digit_char (v mod 10))) 2 rest
                 = ((0 * 10 + digit_val (digit_char (v / 10))) * 10
                    + digit_val (digit_char (v mod 10)), 2%nat, rest)).
  { destruct rest; reflexivity. }
  rewrite Hend. rewrite A5, B5.
  pose proof (Z.div_mod v 10 ltac:(lia)).
  replace ((0 * 10 + v / 10) * 10 + v mod 10) with v by lia.
  rewrite store_int_id; [reflexivity|]. change (2 ^ 31) with 2147483648. lia.
Qed.

Lemma videotime_to_pcr_seconds (d h m s : Z) :
  0 <= d -> 0 <= h < 24 -> 0 <= m < 60 -> 0 <= s < 60 ->
  d * 86400 + h * 3600 + m * 60 + s < 2 ^ 31 ->
  videotime_to_pcr (mk_videotime d h m s 0)
  = (d * 86400 + h * 3600 + m * 60 + s) * 27000000.
Proof.
  intros Hd Hh Hm Hs Ht. change (2 ^ 31) with 2147483648 in Ht.
  unfold videotime_to_pcr. cbn [days hours mins secs msecs].
  rewrite (int32_id (d * 3600)) by lia.
  rewrite (int32_id (d * 3600 * 24)) by lia.
  rewrite (int32_id (h * 3600)) by lia.
  rewrite (int32_id (m * 60)) by lia.
  change (0 * 27000) with 0. rewrite (int32_id 0) by lia.
  rewrite (int64_id (0 + d * 3600 * 24)) by lia.
  rewrite (int64_id (0 + d * 3600 * 24 + h * 3600)) by lia.
  rewrite (int64_id (0 + d * 3600 * 24 + h * 3600 + m * 60)) by lia.
  rewrite (int64_id (0 + d * 3600 * 24 + h * 3600 + m * 60 + s)) by lia.
  rewrite (int64_id ((0 + d * 3600 * 24 + h * 3600 + m * 60 + s) * 27000000))
    by lia.
  rewrite int64_id by lia. lia.
Qed.

Lemma pcr_to_videotime_of_seconds (d h m s : Z) :
  0 <= d -> 0 <= h < 24 -> 0 <= m < 60 -> 0 <= s < 60 ->
  d * 86400 + h * 3600 + m * 60 + s < 2 ^ 31 ->
  pcr_to_videotime ((d * 86400 + h * 3600 + m * 60 + s) * 27000000)
  = mk_videotime d h m s 0.
Proof.
  intros Hd Hh Hm Hs Ht. change (2 ^ 31) with 2147483648 in Ht.
  set (T := d * 86400 + h * 3600 + m * 60 + s) in *.
  assert (HT : 0 <= T) by (unfold T; lia).
  pose proof (pcr_to_videotime_fields (T * 27000000) ltac:(lia)) as E.
  cbv zeta in E. rewrite Z.div_mul in E by lia. rewrite E.
  assert (E1 : T / 86400 = d).
  { symmetry. apply (Z.div_unique T 86400 d (h * 3600 + m * 60 + s));
      unfold T; lia. }
  assert (E2 : T mod 86400 = h * 3600 + m * 60 + s).
  { symmetry. apply (Z.mod_unique T 86400 d); unfold T; lia. }
  assert (E3 : (h * 3600 + m * 60 + s) / 3600 = h).
  { symmetry. apply (Z.div_unique _ 3600 h (m * 60 + s)); lia. }
  assert (E4 : T mod 3600 = m * 60 + s).
  { symmetry. apply (Z.mod_unique T 3600 (d * 24 + h)); unfold T; lia. }
  assert (E5 : (m * 60 + s) / 60 = m).
  { symmetry. apply (Z.div_unique _ 60 m s); lia. }
  assert (E6 : T mod 60 = s).
  { symmetry. apply (Z.mod_unique T 60 (d * 1440 + h * 60 + m));
      unfold T; lia. }
  rewrite E1, E2, E3, E4, E5, E6. reflexivity.
Qed.

Lemma str_to_videotime_of_str (d h m s : Z) :
  0 <= d < 2 ^ 31 -> 0 <= h < 100 -> 0 <= m < 100 -> 0 <= s < 100 ->
  str_to_videotime (videotime_to_str (mk_videotime d h m s 0))
  = Some (mk_videotime d h m s 0).
Proof.
  intros Hd Hh Hm Hs. unfold str_to_videotime, videotime_to_str.
  rewrite list_ascii_of_string_of_list_ascii.
  cbn [days hours mins secs msecs].
  rewrite scan_d_fmt_d; [|exact Hd|reflexivity].
  cbn [scan_lit]. rewrite Ascii.eqb_refl.
  rewrite scan_d_fmt_02d by exact Hh.
  cbn [scan_lit]. rewrite Ascii.eqb_refl.
  rewrite scan_d_fmt_02d by exact Hm.
  cbn [scan_lit]. rewrite Ascii.eqb_refl.
  rewrite scan_d_fmt_02d by exact Hs.
  cbn [scan_lit]. rewrite Ascii.eqb_refl.
  reflexivity.
Qed.

(** C7 (amended): for every stream-time string in the form
    [videotime_to_str] prints (days in decimal, hours 00-23, minutes and
    seconds 00-59 in two digits, and the one digit 0 as its milliseconds
    field) that stands for fewer than 2^31 seconds, [str_to_videotime]
    succeeds and the chain [str_to_videotime], [videotime_to_pcr],
    [pcr_to_videotime], [videotime_to_str] returns the string it was
    given. *)
Theorem time_roundtrip_identity (d h m s : Z) :
  0 <= d -> 0 <= h < 24 -> 0 <= m < 60 -> 0 <= s < 60 ->
  d * 86400 + h * 3600 + m * 60 + s < 2 ^ 31 ->
  let t := videotime_to_str (mk_videotime d h m s 0) in
  str_to_videotime t = Some (mk_videotime d h m s 0)
  /\ time_roundtrip t = Some t.
Proof.
  intros Hd Hh Hm Hs Ht t.
  assert (Hparse : str_to_videotime t = Some (mk_videotime d h m s 0)).
  { apply str_to_videotime_of_str; try lia. }
  split; [exact Hparse|].
  unfold time_roundtrip. rewrite Hparse.
  rewrite videotime_to_pcr_seconds by assumption.
  rewrite pcr_to_videotime_of_seconds by assumption.
  reflexivity.
Qed.

Lemma time_roundtrip_identity_witness :
  time_roundtrip "1.02:30:43.0" = Some "1.02:30:43.0"%string.
Proof.
  assert (H1 : 0 <= 1) by lia.
  assert (H2 : 0 <= 2 < 24) by lia.
  assert (H3 : 0 <= 30 < 60) by lia.
  assert (H4 : 0 <= 43 < 60) by lia.
  assert (H5 : 1 * 86400 + 2 * 3600 + 30 * 60 + 43 < 2 ^ 31) by lia.
  exact (proj2 (time_roundtrip_identity 1 2 30 43 H1 H2 H3 H4 H5)).
Defined.

(** C7 as stated fails on the code: a milliseconds field written with
    three digits comes back as one digit, and a time of 2^31 seconds or
    more comes back as another time. *)
Lemma time_roundtrip_counterexample :
  time_roundtrip "0.00:00:10.000" = Some "0.00:00:10.0"%string
  /\ time_roundtrip "24855.03:14:08.0" = Some "-24855.-3:-14:-8.0"%string.
Proof. split; vm_compute; reflexivity. Qed.

(** * Further properties of the slicer *)

(** ** Stream time *)

Lemma pcr_to_videotime_of_ticks (d h m s r : Z) :
  0 <= d -> 0 <= h < 24 -> 0 <= m < 60 -> 0 <= s < 60 ->
  d * 86400 + h * 3600 + m * 60 + s < 2 ^ 31 ->
  0 <= r < 27000000 ->
  pcr_to_videotime ((d * 86400 + h * 3600 + m * 60 + s) * 27000000 + r)
  = mk_videotime d h m s 0.
Proof.
  intros Hd Hh Hm Hs Ht Hr. change (2 ^ 31) with 2147483648 in Ht.
  set (T := d * 86400 + h * 3600 + m * 60 + s) in *.
  assert (HT : 0 <= T) by (unfold T; lia).
  pose proof (pcr_to_videotime_fields (T * 27000000 + r) ltac:(lia)) as E.
  cbv zeta in E.
  assert (Eq : (T * 27000000 + r) / 27000000 = T).
  { symmetry. apply (Z.div_unique _ 27000000 T r); lia. }
  rewrite Eq in E. rewrite E.
  assert (E1 : T / 86400 = d).
  { symmetry. apply (Z.div_unique T 86400 d (h * 3600 + m * 60 + s));
      unfold T; lia. }
  assert (E2 : T mod 86400 = h * 3600 + m * 60 + s).
  { symmetry. apply (Z.mod_unique T 86400 d); unfold T; lia. }
  assert (E3 : (h * 3600 + m * 60 + s) / 3600 = h).
  { symmetry. apply (Z.div_unique _ 3600 h (m * 60 + s)); lia. }
  assert (E4 : T mod 3600 = m * 60 + s).
  { symmetry. apply (Z.mod_unique T 3600 (d * 24 + h)); unfold T; lia. }
  assert (E5 : (m * 60 + s) / 60 = m).
  { symmetry. apply (Z.div_unique _ 60 m s); lia. }
  assert (E6 : T mod 60 = s).
  { symmetry. apply (Z.mod_unique T 60 (d * 1440 + h * 60 + m));
      unfold T; lia. }
  rewrite E1, E2, E3, E4, E5, E6. reflexivity.
Qed.

(** X1: what [videotime_to_str] prints, [str_to_videotime] reads back:
    for days and milliseconds in 0..2^31-1 and hours, minutes and seconds
    in 0..99 the parse of the printed text succeeds with the same five
    fields. *)
Theorem str_to_videotime_of_videotime_to_str (vt : videotime_s) :
  0 <= days vt < 2 ^ 31 -> 0 <= hours vt < 100 -> 0 <= mins vt < 100 ->
  0 <= secs vt < 100 -> 0 <= msecs vt < 2 ^ 31 ->
  str_to_videotime (videotime_to_str vt) = Some vt.
Proof.
  destruct vt as [d h m s ms]. cbn [days hours mins secs msecs].
  intros Hd Hh Hm Hs Hms. unfold str_to_videotime, videotime_to_str.
  rewrite list_ascii_of_string_of_list_ascii.
  cbn [days hours mins secs msecs].
  rewrite scan_d_fmt_d; [|exact Hd|reflexivity].
  cbn [scan_lit]. rewrite Ascii.eqb_refl.
  rewrite scan_d_fmt_02d by exact Hh.
  cbn [scan_lit]. rewrite Ascii.eqb_refl.
  rewrite scan_d_fmt_02d by exact Hm.
  cbn [scan_lit]. rewrite Ascii.eqb_refl.
  rewrite scan_d_fmt_02d by exact Hs.
  cbn [scan_lit]. rewrite Ascii.eqb_refl.
  rewrite <- (app_nil_r (fmt_d ms)).
  rewrite scan_d_fmt_d; [reflexivity|exact Hms|exact I].
Qed.

Lemma str_to_videotime_of_videotime_to_str_witness :
  str_to_videotime (videotime_to_str (mk_videotime 3 7 99 5 250))
  = Some (mk_videotime 3 7 99 5 250).
Proof.
  apply (str_to_videotime_of_videotime_to_str (mk_videotime 3 7 99 5 250));
    cbn [days hours mins secs msecs]; lia.
Defined.

(** X2: a PCR taken to a stream time and back loses exactly its part
    below one second: for 0 <= pcr < 2^31 * 27000000,
    [videotime_to_pcr (pcr_to_videotime pcr)] is pcr - pcr mod 27000000. *)
Theorem videotime_to_pcr_of_pcr_to_videotime (pcr : Z) :
  0 <= pcr < 2 ^ 31 * 27000000 ->
  videotime_to_pcr (pcr_to_videotime pcr) = pcr - pcr mod 27000000.
Proof.
  intros H. change (2 ^ 31) with 2147483648 in H.
  pose proof (pcr_to_videotime_fields pcr H) as E. cbv zeta in E.
  rewrite E. set (s := pcr / 27000000).
  assert (Hs : 0 <= s < 2147483648).
  { unfold s. split; [apply Z.div_pos; lia|apply Z.div_lt_upper_bound; lia]. }
  pose proof (Z.div_mod s 86400 ltac:(lia)) as D1.
  pose proof (Z.mod_pos_bound s 86400 ltac:(lia)) as B1.
  pose proof (Z.div_mod (s mod 86400) 3600 ltac:(lia)) as D2.
  pose proof (Z.mod_pos_bound (s mod 86400) 3600 ltac:(lia)) as B2.
  pose proof (Z.div_mod (s mod 3600) 60 ltac:(lia)) as D3.
  pose proof (Z.mod_pos_bound (s mod 3600) 60 ltac:(lia)) as B3.
  pose proof (mod_mod_divides s 3600 24 ltac:(lia) ltac:(lia)) as M1.
  pose proof (mod_mod_divides s 60 60 ltac:(lia) ltac:(lia)) as M2.
  change (3600 * 24) with 86400 in M1. change (60 * 60) with 3600 in M2.
  pose proof (Z.mod_pos_bound s 3600 ltac:(lia)) as B4.
  pose proof (Z.mod_pos_bound s 60 ltac:(lia)) as B5.
  assert (Hsum : s / 86400 * 86400 + s mod 86400 / 3600 * 3600
                 + s mod 3600 / 60 * 60 + s mod 60 = s) by lia.
  rewrite videotime_to_pcr_seconds.
  - rewrite Hsum. unfold s. pose proof (Z.div_mod pcr 27000000 ltac:(lia)). lia.
  - apply Z.div_pos; lia.
  - split; [apply Z.div_pos; lia|apply Z.div_lt_upper_bound; lia].
  - split; [apply Z.div_pos; lia|apply Z.div_lt_upper_bound; lia].
  - exact B5.
  - change (2 ^ 31) with 2147483648. lia.
Qed.

Lemma videotime_to_pcr_of_pcr_to_videotime_witness :
  videotime_to_pcr (pcr_to_videotime 2576980377599)
  = 2576980377599 - 2576980377599 mod 27000000.
Proof.
  apply videotime_to_pcr_of_pcr_to_videotime. lia.
Defined.

(** X3: a start or end time with a milliseconds field keeps it on the
    way to a PCR and loses it on the way back: for hours 0..23, minutes
    and seconds 0..59, milliseconds 0..999 and fewer than 2^31 seconds in
    all, [videotime_to_pcr] is ((total seconds) * 1000 + msecs) * 27000
    and [pcr_to_videotime] of it has the same days, hours, minutes and
    seconds and msecs 0. *)
Theorem videotime_to_pcr_keeps_msecs (d h m s ms : Z) :
  0 <= d -> 0 <= h < 24 -> 0 <= m < 60 -> 0 <= s < 60 -> 0 <= ms < 1000 ->
  d * 86400 + h * 3600 + m * 60 + s < 2 ^ 31 ->
  videotime_to_pcr (mk_videotime d h m s ms)
  = ((d * 86400 + h * 3600 + m * 60 + s) * 1000 + ms) * 27000
  /\ pcr_to_videotime (videotime_to_pcr (mk_videotime d h m s ms))
     = mk_videotime d h m s 0.
Proof.
  intros Hd Hh Hm Hs Hms Ht.
  assert (E : videotime_to_pcr (mk_videotime d h m s ms)
              = (d * 86400 + h * 3600 + m * 60 + s) * 27000000 + ms * 27000).
  { change (2 ^ 31) with 2147483648 in Ht.
    unfold videotime_to_pcr. cbn [days hours mins secs msecs].
    rewrite (int32_id (d * 3600)) by lia.
    rewrite (int32_id (d * 3600 * 24)) by lia.
    rewrite (int32_id (h * 3600)) by lia.
    rewrite (int32_id (m * 60)) by lia.
    rewrite (int32_id (ms * 27000)) by lia.
    rewrite (int64_id (0 + d * 3600 * 24)) by lia.
    rewrite (int64_id (0 + d * 3600 * 24 + h * 3600)) by lia.
    rewrite (int64_id (0 + d * 3600 * 24 + h * 3600 + m * 60)) by lia.
    rewrite (int64_id (0 + d * 3600 * 24 + h * 3600 + m * 60 + s)) by lia.
    rewrite (int64_id ((0 + d * 3600 * 24 + h * 3600 + m * 60 + s) * 27000000))
      by lia.
    rewrite int64_id by lia. lia. }
  split.
  - rewrite E. lia.
  - rewrite E. apply pcr_to_videotime_of_ticks; try assumption. lia.
Qed.

Lemma videotime_to_pcr_keeps_msecs_witness :
  videotime_to_pcr (mk_videotime 0 5 17 44 500) = 514741500000
  /\ pcr_to_videotime 514741500000 = mk_videotime 0 5 17 44 0.
Proof.
  destruct (videotime_to_pcr_keeps_msecs 0 5 17 44 500) as (E1 & E2);
    try lia.
  rewrite E1 in E2. split; [rewrite E1; reflexivity|exact E2].
Defined.

Lemma pcr_to_videotime_fields_neg (pcr : Z) :
  0 <= pcr < 2147483648 * 27000000 ->
  let s := pcr / 27000000 in
  pcr_to_videotime (- pcr) =
    mk_videotime (- (s / 86400)) (- (s mod 86400 / 3600))
                 (- (s mod 3600 / 60)) (- (s mod 60)) 0.
Proof.
  intros H s. unfold pcr_to_videotime.
  assert (Hs : 0 <= s < 2147483648).
  { unfold s. split; [apply Z.div_pos; lia|apply Z.div_lt_upper_bound; lia]. }
  rewrite (Z.quot_opp_l pcr 27000000) by lia.
  rewrite (Z.quot_div_nonneg pcr 27000000) by lia. fold s.
  rewrite (int32_id (- s)) by lia.
  change (3600 * 24) with 86400.
  rewrite (Z.quot_opp_l s 86400) by lia.
  rewrite (Z.quot_div_nonneg s 86400) by lia.
  pose proof (Z.div_mod s 86400 ltac:(lia)) as E1.
  pose proof (Z.mod_pos_bound s 86400 ltac:(lia)) as B1.
  assert (D1 : 0 <= s / 86400 < 24856).
  { split; [apply Z.div_pos; lia | apply Z.div_lt_upper_bound; lia]. }
  rewrite (int32_id (- (s / 86400))) by lia.
  rewrite (int32_id (- (s / 86400) * 3600)) by lia.
  rewrite (int32_id (- (s / 86400) * 3600 * 24)) by lia.
  replace (- s - - (s / 86400) * 3600 * 24) with (- (s mod 86400)) by lia.
  rewrite (int32_id (- (s mod 86400))) by lia.
  rewrite (Z.quot_opp_l (s mod 86400) 3600) by lia.
  rewrite (Z.quot_div_nonneg (s mod 86400) 3600) by lia.
  set (r1 := s mod 86400) in *.
  pose proof (Z.div_mod r1 3600 ltac:(lia)) as E2.
  pose proof (Z.mod_pos_bound r1 3600 ltac:(lia)) as B2.
  assert (D2 : 0 <= r1 / 3600 < 24).
  { split; [apply Z.div_pos; lia | apply Z.div_lt_upper_bound; lia]. }
  rewrite (int32_id (- (r1 / 3600))) by lia.
  rewrite (int32_id (- (r1 / 3600) * 3600)) by lia.
  replace (- r1 - - (r1 / 3600) * 3600) with (- (r1 mod 3600)) by lia.
  rewrite (int32_id (- (r1 mod 3600))) by lia.
  rewrite (Z.quot_opp_l (r1 mod 3600) 60) by lia.
  rewrite (Z.quot_div_nonneg (r1 mod 3600) 60) by lia.
  set (r2 := r1 mod 3600) in *.
  pose proof (Z.div_mod r2 60 ltac:(lia)) as E3.
  pose proof (Z.mod_pos_bound r2 60 ltac:(lia)) as B3.
  assert (D3 : 0 <= r2 / 60 < 60).
  { split; [apply Z.div_pos; lia | apply Z.div_lt_upper_bound; lia]. }
  rewrite (int32_id (- (r2 / 60))) by lia.
  rewrite (int32_id (- (r2 / 60) * 60)) by lia.
  replace (- r2 - - (r2 / 60) * 60) with (- (r2 mod 60)) by lia.
  rewrite (int32_id (- (r2 mod 60))) by lia.
  subst r2 r1.
  pose proof (mod_mod_divides s 3600 24 ltac:(lia) ltac:(lia)) as M1.
  pose proof (mod_mod_divides s 60 60 ltac:(lia) ltac:(lia)) as M2.
  change (3600 * 24) with 86400 in M1. change (60 * 60) with 3600 in M2.
  rewrite M1, M2. reflexivity.
Qed.

(** X4: a negative tick count (the duration of a recording whose last
    PCR is below its first) gives the negated fields: for
    0 <= pcr < 2^31 * 27000000, every field of [pcr_to_videotime (- pcr)]
    is the negated field of [pcr_to_videotime pcr]. *)
Theorem pcr_to_videotime_negated (pcr : Z) :
  0 <= pcr < 2 ^ 31 * 27000000 ->
  pcr_to_videotime (- pcr)
  = mk_videotime (- days (pcr_to_videotime pcr))
                 (- hours (pcr_to_videotime pcr))
                 (- mins (pcr_to_videotime pcr))
                 (- secs (pcr_to_videotime pcr))
                 (- msecs (pcr_to_videotime pcr)).
Proof.
  intros H. change (2 ^ 31) with 2147483648 in H.
  pose proof (pcr_to_videotime_fields pcr H) as E.
  pose proof (pcr_to_videotime_fields_neg pcr H) as N.
  cbv zeta in E, N. rewrite N, E. reflexivity.
Qed.

Lemma pcr_to_videotime_negated_witness :
  pcr_to_videotime (- 2576926377600) = mk_videotime (-1) (-2) (-30) (-41) 0.
Proof.
  exact (pcr_to_videotime_negated 2576926377600 ltac:(lia)).
Defined.

Lemma digit_val_bound (c : ascii) :
  is_digit c = true -> 0 <= digit_val c <= 9.
Proof.
  unfold is_digit, digit_val. intros H. apply andb_prop in H.
  destruct H as (H1 & H2). apply Nat.leb_le in H1, H2. lia.
Qed.

Lemma scan_digits_width_bound (s : list ascii) :
  forall (w : nat) (acc : Z) (count : nat) (v : Z) (n : nat) (r : list ascii),
    scan_digits (Some w) acc count s = (v, n, r) ->
    0 <= acc -> 0 <= v < (acc + 1) * 10 ^ Z.of_nat w.
Proof.
  induction s as [|c s IH]; intros w acc count v n r E Hacc.
  - cbn in E. injection E as <- _ _.
    pose proof (Z.pow_pos_nonneg 10 (Z.of_nat w) ltac:(lia) ltac:(lia)). nia.
  - cbn [scan_digits] in E. destruct w as [|w].
    + injection E as <- _ _. change (10 ^ Z.of_nat 0) with 1. lia.
    + destruct (is_digit c) eqn:Ed.
      * cbn [option_map Nat.pred] in E.
        apply digit_val_bound in Ed.
        apply IH in E; [|lia].
        rewrite Nat2Z.inj_succ, Z.pow_succ_r by lia.
        pose proof (Z.pow_pos_nonneg 10 (Z.of_nat w) ltac:(lia) ltac:(lia)).
        nia.
      * injection E as <- _ _.
        pose proof (Z.pow_pos_nonneg 10 (Z.of_nat (S w)) ltac:(lia) ltac:(lia)).
        nia.
Qed.

Lemma scan_d_two_bound (s r : list ascii) (v : Z) :
  scan_d (Some 2%nat) s = Some (v, r) -> -9 <= v <= 99.
Proof.
  unfold scan_d. destruct (skip_spaces s) as [|c s']; [discriminate|].
  destruct (Ascii.eqb c "-" || Ascii.eqb c "+") eqn:Esign.
  - cbn [option_map Nat.pred].
    destruct (scan_digits (Some 1%nat) 0 0 s') as [[v0 n] rest] eqn:E.
    apply scan_digits_width_bound in E; [|lia].
    change (10 ^ Z.of_nat 1) with 10 in E.
    destruct n; [discriminate|]. intros H. injection H as <- _.
    destruct (Ascii.eqb c "-"); unfold store_int;
      rewrite Z.min_r, Z.max_r, int32_id by lia; lia.
  - destruct (scan_digits (Some 2%nat) 0 0 (c :: s')) as [[v0 n] rest] eqn:E.
    apply scan_digits_width_bound in E; [|lia].
    change (10 ^ Z.of_nat 2) with 100 in E.
    destruct n; [discriminate|]. intros H. injection H as <- _.
    destruct (Ascii.eqb c "-"); unfold store_int;
      rewrite Z.min_r, Z.max_r, int32_id by lia; lia.
Qed.

(** X5: whatever text [str_to_videotime] accepts, the hours, minutes
    and seconds it stores come from at most two characters each and lie
    in -9..99 (values such as 99 minutes are not refused). *)
Theorem str_to_videotime_field_bounds (t : string) (vt : videotime_s) :
  str_to_videotime t = Some vt ->
  -9 <= hours vt <= 99 /\ -9 <= mins vt <= 99 /\ -9 <= secs vt <= 99.
Proof.
  unfold str_to_videotime.
  destruct (scan_d None (list_ascii_of_string t)) as [[d s0]|]; [|discriminate].
  destruct (scan_lit "." s0) as [s1|]; [|discriminate].
  destruct (scan_d (Some 2%nat) s1) as [[h s2]|] eqn:Eh; [|discriminate].
  destruct (scan_lit ":" s2) as [s3|]; [|discriminate].
  destruct (scan_d (Some 2%nat) s3) as [[m s4]|] eqn:Em; [|discriminate].
  destruct (scan_lit ":" s4) as [s5|]; [|discriminate].
  destruct (scan_d (Some 2%nat) s5) as [[sec s6]|] eqn:Es; [|discriminate].
  destruct (scan_lit "." s6) as [s7|]; [|discriminate].
  destruct (scan_d None s7) as [[ms s8]|]; [|discriminate].
  intros H. injection H as <-. cbn [hours mins secs].
  apply scan_d_two_bound in Eh, Em, Es. lia.
Qed.

Lemma str_to_videotime_field_bounds_witness :
  -9 <= 99 <= 99 /\ -9 <= -7 <= 99 /\ -9 <= 61 <= 99.
Proof.
  assert (E : str_to_videotime "0.99:-7:61.0"
              = Some (mk_videotime 0 99 (-7) 61 0)) by reflexivity.
  exact (str_to_videotime_field_bounds _ _ E).
Defined.

(** ** The index *)

Lemma indexLookupPCR_from_monotone
      (l : list Slicer.ltntstools_pcr_position_s) (q1 q2 : Z) (i0 : nat) :
  q1 <= q2 ->
  match Slicer.indexLookupPCR_from i0 l q2 with
  | Some j =>
      exists i, Slicer.indexLookupPCR_from i0 l q1 = Some i /\ (i <= j)%nat
  | None => True
  end.
Proof.
  intros Hq. revert i0.
  induction l as [|r l IH]; intros i0; cbn [Slicer.indexLookupPCR_from].
  - exact I.
  - destruct (Z.leb_spec q2 (Slicer.pcr r)) as [H2|H2].
    + destruct (Z.leb_spec q1 (Slicer.pcr r)) as [H1|H1]; [|lia].
      exists i0. split; [reflexivity|lia].
    + pose proof (indexLookupPCR_from_spec l q2 (S i0)) as Sp.
      specialize (IH (S i0)).
      destruct (Slicer.indexLookupPCR_from (S i0) l q2) as [j|]; [|exact I].
      destruct Sp as (Hj & _).
      destruct (Z.leb_spec q1 (Slicer.pcr r)) as [H1|H1].
      * exists i0. split; [reflexivity|lia].
      * exact IH.
Qed.

(** X6: [indexLookupPCR] is monotone in the queried PCR: when the lookup
    of the larger value finds record j, the lookup of the smaller value
    finds a record i <= j (so an end time that is not before the start
    time never selects an earlier record than the start). *)
Theorem indexLookupPCR_monotone (ctx : Slicer.tool_context_s) (q1 q2 : Z)
        (j : nat) :
  q1 <= q2 ->
  Slicer.indexLookupPCR ctx q2 = Some j ->
  exists i, Slicer.indexLookupPCR ctx q1 = Some i /\ (i <= j)%nat.
Proof.
  intros Hq Hj. unfold Slicer.indexLookupPCR in *.
  pose proof (indexLookupPCR_from_monotone (Slicer.allPCRs ctx) q1 q2 0 Hq) as M.
  rewrite Hj in M. exact M.
Qed.

Lemma indexLookupPCR_monotone_witness :
  exists i,
    Slicer.indexLookupPCR Slicer.one_millisecond_slice 27000 = Some i
    /\ (i <= 3)%nat.
Proof.
  apply (indexLookupPCR_monotone Slicer.one_millisecond_slice 27000 81000 3).
  - lia.
  - vm_compute. reflexivity.
Defined.

Lemma indexLookupPCR_from_hit
      (l : list Slicer.ltntstools_pcr_position_s) (q : Z) (i0 : nat)
      (r : Slicer.ltntstools_pcr_position_s) :
  In r l -> q <= Slicer.pcr r ->
  exists i, Slicer.indexLookupPCR_from i0 l q = Some i.
Proof.
  intros Hin Hq.
  pose proof (indexLookupPCR_from_spec l q i0) as Sp.
  destruct (Slicer.indexLookupPCR_from i0 l q) as [i|].
  - exists i. reflexivity.
  - specialize (Sp r Hin). lia.
Qed.

Lemma last_In {A : Type} (l : list A) (d : A) : l <> [] -> In (last l d) l.
Proof.
  induction l as [|x l IH]; intros H; [contradiction|].
  destruct l as [|y l]; [left; reflexivity|].
  right. apply IH. discriminate.
Qed.

(** X7: after [indexLoad] of an index that is not empty, and without
    [-s] and [-e], neither lookup of [slicer] returns NULL: the start is
    record 0, the end is a record whose PCR is at least the PCR of the
    last record, and the slice is the copy between these two. *)
Theorem slicer_default_range (ctx0 ctx : Slicer.tool_context_s)
        (index_file : list Slicer.ltntstools_pcr_position_s)
        (d : Z) (vt : videotime_s) (fuel : nat) (input : list Z) :
  Slicer.opt_s ctx0 = false -> Slicer.opt_e ctx0 = false ->
  Indexer.indexLoad ctx0 (Some index_file) = Indexer.Loaded ctx d vt ->
  exists first e j,
    nth_error index_file 0 = Some first
    /\ Slicer.indexLookupPCR ctx (Slicer.pcrMin ctx) = Some 0%nat
    /\ Slicer.indexLookupPCR ctx (Slicer.pcrMax ctx) = Some j
    /\ nth_error index_file j = Some e
    /\ Slicer.pcr (last index_file first) <= Slicer.pcr e
    /\ d = int64 (Slicer.pcr (last index_file first) - Slicer.pcr first)
    /\ Slicer.slicer_slice fuel ctx input
       = Slicer.slicer_copy fuel input first e.
Proof.
  intros Hs He Hload. unfold Indexer.indexLoad in Hload.
  destruct index_file as [|first rest]; [discriminate|].
  injection Hload as <- <- _.
  set (l := first :: rest) in *.
  assert (Hlast : In (last l first) l) by (apply last_In; discriminate).
  destruct (indexLookupPCR_from_hit l (Slicer.pcr (last l first)) 0
              (last l first) Hlast ltac:(lia)) as (j & Ej).
  pose proof (indexLookupPCR_from_spec l (Slicer.pcr (last l first)) 0) as Sp.
  rewrite Ej in Sp. rewrite Nat.sub_0_r in Sp.
  destruct Sp as (_ & (e & Hn & Hq) & _).
  assert (E0 : Slicer.indexLookupPCR_from 0 l (Slicer.pcr first) = Some 0%nat).
  { unfold l. cbn [Slicer.indexLookupPCR_from].
    rewrite Z.leb_refl. reflexivity. }
  exists first, e, j.
  unfold Slicer.slicer_slice, Slicer.indexLookupPCR.
  cbn [Slicer.allPCRs Slicer.pcrMin Slicer.pcrMax Slicer.opt_s Slicer.opt_e].
  change (match rest with [] => first | _ :: _ => last rest first end)
    with (last l first).
  rewrite Hs, He, E0, Ej, Hn. repeat split; try reflexivity; assumption.
Qed.

Lemma slicer_default_range_witness :
  exists e,
    Slicer.slicer_slice 2
      (Slicer.mk_context (Slicer.allPCRs Slicer.one_millisecond_slice)
         false false 0 1701000 (mk_videotime 0 0 0 0 0)
         (mk_videotime 0 0 0 0 0))
      Slicer.pcr_every_packet_file
    = Slicer.slicer_copy 2 Slicer.pcr_every_packet_file
        (Slicer.mk_position 0 0 0x31) e.
Proof.
  assert (Hs : Slicer.opt_s
                 (Slicer.mk_context [] false false 0 0
                    (mk_videotime 0 0 0 0 0) (mk_videotime 0 0 0 0 0)) = false)
    by reflexivity.
  assert (He : Slicer.opt_e
                 (Slicer.mk_context [] false false 0 0
                    (mk_videotime 0 0 0 0 0) (mk_videotime 0 0 0 0 0)) = false)
    by reflexivity.
  assert (Hl : Indexer.indexLoad
                 (Slicer.mk_context [] false false 0 0
                    (mk_videotime 0 0 0 0 0) (mk_videotime 0 0 0 0 0))
                 (Some (Slicer.allPCRs Slicer.one_millisecond_slice))
               = Indexer.Loaded
                   (Slicer.mk_context
                      (Slicer.allPCRs Slicer.one_millisecond_slice)
                      false false 0 1701000 (mk_videotime 0 0 0 0 0)
                      (mk_videotime 0 0 0 0 0))
                   1701000 (mk_videotime 0 0 0 0 0))
    by (vm_compute; reflexivity).
  destruct (slicer_default_range _ _ _ _ _ 2 Slicer.pcr_every_packet_file
              Hs He Hl) as (first & e & j & Hn0 & _ & _ & _ & _ & _ & Hslice).
  exists e. rewrite Hslice.
  assert (Ef : first = Slicer.mk_position 0 0 0x31).
  { vm_compute in Hn0. injection Hn0 as <-. reflexivity. }
  rewrite Ef. reflexivity.
Defined.

(** ** The index build *)

Lemma takeZ_all {A : Type} (l : list A) (n : Z) :
  Z.of_nat (List.length l) <= n -> Indexer.takeZ n l = l.
Proof.
  revert n. induction l as [|x l IH]; intros n H; cbn [Indexer.takeZ].
  - reflexivity.
  - cbn [List.length] in H. destruct (Z.ltb_spec 0 n); [|lia].
    rewrite IH by lia. reflexivity.
Qed.


Lemma takeZ_app_exact {A : Type} (a b : list A) (n : Z) :
  Z.of_nat (List.length a) = n -> Indexer.takeZ n (a ++ b) = a.
Proof.
  revert n. induction a as [|x a IH]; intros n H; cbn [app].
  - cbn in H. subst n. destruct b; reflexivity.
  - cbn [Indexer.takeZ]. cbn [List.length] in H.
    destruct (Z.ltb_spec 0 n); [|lia]. rewrite IH by lia. reflexivity.
Qed.

Lemma dropZ_app_exact {A : Type} (a b : list A) (n : Z) :
  Z.of_nat (List.length a) = n -> Indexer.dropZ n (a ++ b) = b.
Proof.
  revert n. induction a as [|x a IH]; intros n H; cbn [app].
  - cbn in H. subst n. destruct b; reflexivity.
  - cbn [Indexer.dropZ]. cbn [List.length] in H.
    destruct (Z.ltb_spec 0 n); [|lia]. apply IH. lia.
Qed.



Lemma index_blen_value : Indexer.index_blen = 16777120.
Proof. reflexivity. Qed.

(** X8: for an input file shorter than one block of the index build
    (16777120 bytes) and not empty, the fast query returns what building
    the index and loading it gives: the first and the last record of the
    index as [begin] and [end], and [pcrDuration] and [streamTime] of
    [indexLoad] as duration; it reads through a null array exactly when
    the built index is empty. *)
Theorem indexFastQueryDuration_agrees_with_index
        (query : list Z -> Z -> Z -> option (list Slicer.ltntstools_pcr_position_s))
        (fopen_rb : string -> option (list Z))
        (name : string) (file : list Z) (ctx0 : Slicer.tool_context_s) :
  fopen_rb name = Some file ->
  0 < Z.of_nat (List.length file) < Indexer.index_blen ->
  exists records,
    Indexer.index_build query 2 file = Some records
    /\ Slicer.indexFastQueryDuration query fopen_rb (Some name)
         true true true true true
       = match Indexer.indexLoad ctx0 (Some records) with
         | Indexer.Loaded ctx d vt =>
             Slicer.Returned 0
               (Slicer.mk_writes
                  (nth_error (Slicer.allPCRs ctx) 0)
                  (nth_error (Slicer.allPCRs ctx)
                             (List.length (Slicer.allPCRs ctx) - 1))
                  (Some d) (Some (Z.of_nat (List.length file))) (Some vt))
         | _ => Slicer.Fault
         end.
Proof.
  intros Hopen Hlen. rewrite index_blen_value in Hlen.
  unfold Indexer.index_build. cbn [Indexer.index_build_loop].
  rewrite index_blen_value.
  rewrite takeZ_all by lia.
  destruct (Z.leb_spec (Z.of_nat (List.length file)) 0) as [Hz|_]; [lia|].
  destruct (Z.ltb_spec (Z.of_nat (List.length file)) 16777120) as [_|Hz];
    [|lia].
  eexists. split; [reflexivity|].
  unfold Slicer.indexFastQueryDuration. cbn [negb orb]. rewrite Hopen.
  pose proof (read_segments_spec file) as Hseg. cbv zeta in Hseg.
  rewrite Hseg. clear Hseg.
  destruct (Z.ltb_spec (Z.of_nat (List.length file)) (32 * 1048576))
    as [_|Hbig]; [|lia].
  unfold Slicer.query_segment at 1, Slicer.head_segment.
  destruct (Z.ltb_spec (Z.of_nat (List.length file)) (32 * 1048576))
    as [_|Hbig]; [|lia].
  cbn [Slicer.buf Slicer.lengthBytes Slicer.addr app].
  destruct (query file (Z.of_nat (List.length file)) 0) as [[|b r]|];
    try reflexivity.
  unfold Indexer.indexLoad. cbn [Slicer.allPCRs nth_error].
  f_equal. f_equal.
  assert (Hl : forall (l : list Slicer.ltntstools_pcr_position_s) d,
             l <> [] -> nth_error l (List.length l - 1) = Some (last l d)).
  { induction l as [|x l IH]; intros d Hne; [contradiction|].
    destruct l as [|y l]; [reflexivity|].
    change (last (x :: y :: l) d) with (last (y :: l) d).
    rewrite <- (IH d) by discriminate.
    replace (List.length (x :: y :: l) - 1)%nat with (S (List.length l))
      by (cbn [List.length]; lia).
    replace (List.length (y :: l) - 1)%nat with (List.length l)
      by (cbn [List.length]; lia).
    reflexivity. }
  symmetry. apply Hl. discriminate.
Qed.

Lemma indexFastQueryDuration_agrees_with_index_witness :
  exists records,
    Indexer.index_build Slicer.ts_queryPCRs 2 Slicer.one_second_file
    = Some records
    /\ Slicer.indexFastQueryDuration Slicer.ts_queryPCRs
         (fun _ => Some Slicer.one_second_file) (Some "one.ts"%string)
         true true true true true
       = match Indexer.indexLoad Slicer.one_millisecond_slice (Some records)
         with
         | Indexer.Loaded ctx d vt =>
             Slicer.Returned 0
               (Slicer.mk_writes
                  (nth_error (Slicer.allPCRs ctx) 0)
                  (nth_error (Slicer.allPCRs ctx)
                             (List.length (Slicer.allPCRs ctx) - 1))
                  (Some d)
                  (Some (Z.of_nat (List.length Slicer.one_second_file)))
                  (Some vt))
         | _ => Slicer.Fault
         end.
Proof.
  apply indexFastQueryDuration_agrees_with_index.
  - reflexivity.
  - rewrite index_blen_value. vm_compute. split; reflexivity.
Defined.






(** ** The slice copy, in general *)

Lemma slicer_copy_blocks (fuel : nat) (input : list Z)
      (s e : Slicer.ltntstools_pcr_position_s) :
  0 <= Slicer.offset s < 2 ^ 63 ->
  Slicer.offset e + Slicer.slice_blen <= 2 ^ 64 ->
  (Slicer.copy_rounds (Slicer.offset s) (Slicer.offset e) < fuel)%nat ->
  Slicer.slicer_copy fuel input s e
  = Some (firstn (Slicer.copy_rounds (Slicer.offset s) (Slicer.offset e)
                  * Z.to_nat Slicer.slice_blen)
                 (skipn (Z.to_nat (Slicer.offset s)) input)).
Proof.
  intros Hs He Hf. unfold Slicer.slicer_copy.
  rewrite slicer_copy_loop_blocks by (assumption || lia).
  cbn [app]. unfold Slicer.fseeko_set. rewrite int64_id.
  2:{ change (2 ^ 63) with 9223372036854775808 in Hs. lia. }
  destruct (Z.ltb_spec (Slicer.offset s) 0) as [Hn|_]; [lia|].
  reflexivity.
Qed.



(** X11: when the distance between the two offsets is a multiple of the
    block length 12032 and the input holds the end offset, the slice copy
    writes exactly the bytes from [s.offset] up to [e.offset]. *)
Theorem slicer_copy_exact_when_aligned (fuel : nat) (input : list Z)
        (s e : Slicer.ltntstools_pcr_position_s) :
  0 <= Slicer.offset s <= Slicer.offset e ->
  Slicer.offset s < 2 ^ 63 ->
  Slicer.offset e <= Z.of_nat (List.length input) ->
  Slicer.offset e + Slicer.slice_blen <= 2 ^ 64 ->
  (Slicer.offset e - Slicer.offset s) mod Slicer.slice_blen = 0 ->
  (Slicer.copy_rounds (Slicer.offset s) (Slicer.offset e) < fuel)%nat ->
  exists out,
    Slicer.slicer_copy fuel input s e = Some out
    /\ out = firstn (Z.to_nat (Slicer.offset e - Slicer.offset s))
                    (skipn (Z.to_nat (Slicer.offset s)) input)
    /\ Z.of_nat (List.length out) = Slicer.offset e - Slicer.offset s.
Proof.
  intros Hs Hs63 Hin He Hmod Hf.
  pose proof (slicer_copy_blocks fuel input s e
                (conj (proj1 Hs) Hs63) He Hf) as E.
  eexists. split; [exact E|].
  assert (Er : (Slicer.copy_rounds (Slicer.offset s) (Slicer.offset e)
                * Z.to_nat Slicer.slice_blen)%nat
               = Z.to_nat (Slicer.offset e - Slicer.offset s)).
  { unfold Slicer.copy_rounds, Slicer.slice_blen in *.
    change (188 * 64) with 12032 in *.
    set (dlt := Slicer.offset e - Slicer.offset s) in *.
    pose proof (Z.div_mod dlt 12032 ltac:(lia)) as Dm.
    rewrite Hmod in Dm.
    assert (Hk : 0 <= dlt / 12032) by (apply Z.div_pos; lia).
    assert (Eq : (dlt + 12032 - 1) / 12032 = dlt / 12032).
    { symmetry. apply (Z.div_unique _ 12032 _ 12031); lia. }
    rewrite Eq. lia. }
  rewrite Er. split; [reflexivity|].
  rewrite length_firstn, length_skipn. lia.
Qed.

Lemma slicer_copy_exact_when_aligned_witness :
  exists out,
    Slicer.slicer_copy 3 Slicer.pcr_every_packet_file
      (Slicer.mk_position 0 0 0x31) (Slicer.mk_position 1728000 12032 0x31)
    = Some out
    /\ out = firstn (Z.to_nat (12032 - 0))
                    (skipn (Z.to_nat 0) Slicer.pcr_every_packet_file)
    /\ Z.of_nat (List.length out) = 12032 - 0.
Proof.
  apply (slicer_copy_exact_when_aligned 3 Slicer.pcr_every_packet_file
           (Slicer.mk_position 0 0 0x31)
           (Slicer.mk_position 1728000 12032 0x31)).
  - cbn [Slicer.offset]. lia.
  - cbn [Slicer.offset]. lia.
  - cbn [Slicer.offset]. vm_compute. discriminate.
  - cbn [Slicer.offset]. unfold Slicer.slice_blen. lia.
  - reflexivity.
  - vm_compute. lia.
Defined.


(** * Further properties of the clock inspector *)

Import Pipeline.

(** ** What each statistic leaves alone *)

Lemma uint64_add_l (a b : Z) : uint64 (uint64 a + b) = uint64 (a + b).
Proof. unfold uint64, wrap_unsigned. apply Zplus_mod_idemp_l. Qed.

Lemma processPacketStats_keeps (c : tool_context_s) (pkt : list Z) (pos q : Z) :
  let c' := fst (processPacketStats c pkt pos) in
  scr (pids c' q) = scr (pids c q)
  /\ pts_last_scr (pids c' q) = pts_last_scr (pids c q)
  /\ dts_last_scr (pids c' q) = dts_last_scr (pids c q)
  /\ maxAllowablePTSDTSDrift c' = maxAllowablePTSDTSDrift c
  /\ doPESStatistics c' = doPESStatistics c
  /\ scr_pid c' = scr_pid c
  /\ ts_total_packets c' = ts_total_packets c.
Proof.
  unfold processPacketStats.
  destruct (dumpHex c =? 0); cbn [fst pids maxAllowablePTSDTSDrift
    doPESStatistics scr_pid ts_total_packets];
    unfold store_pid; destruct (q =? ltntstools_pid pkt) eqn:E;
    try (apply Z.eqb_eq in E; subst q); cbn [scr pts_last_scr dts_last_scr];
    repeat split; reflexivity.
Qed.

Lemma processPacketStats_no_pes_lines (c : tool_context_s) (pkt : list Z)
      (pos : Z) :
  Forall (fun l => match l with
                   | TS_header | TS_line _ _ _ | TS_hexdump _
                   | CC_error _ _ _ => True
                   | _ => False
                   end) (snd (processPacketStats c pkt pos)).
Proof.
  unfold processPacketStats.
  destruct (dumpHex c =? 0); cbn [snd];
    repeat (apply Forall_app; split);
    repeat match goal with
           | |- Forall _ (if ?b then _ else _) => destruct b
           | |- Forall _ [] => constructor
           | |- Forall _ (_ :: _) => constructor; [exact I|]
           end.
Qed.

Lemma processPESHeader_keeps
      (parse : ltn_pes_packet_s -> list Z -> Z * ltn_pes_packet_s)
      (buf : list Z) (pid : Z) (c : tool_context_s) (pos t u q : Z) :
  let c' := fst (fst (processPESHeader parse buf pid c pos t u)) in
  pkt_count (pids c' q) = pkt_count (pids c q)
  /\ cc (pids c' q) = cc (pids c q)
  /\ cc_errors (pids c' q) = cc_errors (pids c q)
  /\ scr (pids c' q) = scr (pids c q)
  /\ (q <> pid -> pids c' q = pids c q)
  /\ maxAllowablePTSDTSDrift c' = maxAllowablePTSDTSDrift c
  /\ doPESStatistics c' = doPESStatistics c
  /\ scr_pid c' = scr_pid c
  /\ ts_total_packets c' = ts_total_packets c.
Proof.
  unfold processPESHeader. destruct (parse (pes (pids c pid)) buf) as [len h].
  cbn [fst pids maxAllowablePTSDTSDrift doPESStatistics scr_pid
       ts_total_packets].
  unfold store_pid. destruct (Z.eqb_spec q pid) as [->|Hne];
    cbn [pkt_count cc cc_errors scr]; repeat split; try reflexivity.
  intros H. contradiction.
Qed.

Lemma processPESHeader_no_cc_lines
      (parse : ltn_pes_packet_s -> list Z -> Z * ltn_pes_packet_s)
      (buf : list Z) (pid : Z) (c : tool_context_s) (pos t u : Z) :
  Forall (fun l => is_CC_error l = false)
         (snd (fst (processPESHeader parse buf pid c pos t u))).
Proof.
  unfold processPESHeader. destruct (parse (pes (pids c pid)) buf) as [len h].
  cbn [fst snd].
  repeat (apply Forall_app; split);
    repeat match goal with
           | |- Forall _ (if ?b then _ else _) => destruct b
           | |- Forall _ (_ ++ _) => apply Forall_app; split
           | |- Forall _ [] => constructor
           | |- Forall _ (_ :: _) => constructor; [reflexivity|]
           end.
Qed.

Lemma processSCRStats_keeps (st : inspector_state) (pkt : list Z) (pos q : Z) :
  let st' := fst (processSCRStats st pkt pos) in
  pkt_count (pids (ctx st') q) = pkt_count (pids (ctx st) q)
  /\ cc (pids (ctx st') q) = cc (pids (ctx st) q)
  /\ cc_errors (pids (ctx st') q) = cc_errors (pids (ctx st) q)
  /\ pts_last_scr (pids (ctx st') q) = pts_last_scr (pids (ctx st) q)
  /\ dts_last_scr (pids (ctx st') q) = dts_last_scr (pids (ctx st) q)
  /\ (q <> ltntstools_pid pkt \/ ltntstools_scr pkt = None ->
      pids (ctx st') q = pids (ctx st) q)
  /\ maxAllowablePTSDTSDrift (ctx st') = maxAllowablePTSDTSDrift (ctx st)
  /\ doPESStatistics (ctx st') = doPESStatistics (ctx st)
  /\ scr_pid (ctx st') = scr_pid (ctx st)
  /\ ts_total_packets (ctx st') = ts_total_packets (ctx st)
  /\ doSCRStatistics st' = doSCRStatistics st.
Proof.
  unfold processSCRStats. destruct (ltntstools_scr pkt) as [v|].
  - cbn [fst ctx doSCRStatistics]. unfold with_pids.
    cbn [pids maxAllowablePTSDTSDrift doPESStatistics scr_pid
         ts_total_packets].
    unfold store_pid, with_scr.
    destruct (Z.eqb_spec q (ltntstools_pid pkt)) as [->|Hne];
      cbn [pkt_count cc cc_errors pts_last_scr dts_last_scr];
      repeat split; try reflexivity.
    intros [H|H]; [contradiction|discriminate].
  - cbn [fst]. repeat split; reflexivity.
Qed.

Section LoopFacts.

Variable parse : ltn_pes_packet_s -> list Z -> Z * ltn_pes_packet_s.
Variable contains : list Z -> Z -> Z.
Variable subtract_us : Z -> Z -> Z.

Lemma processPESStats_keeps (st : inspector_state) (pkt : list Z)
      (pos ts q : Z) :
  let st' := fst (processPESStats parse contains subtract_us st pkt pos ts) in
  pkt_count (pids (ctx st') q) = pkt_count (pids (ctx st) q)
  /\ cc (pids (ctx st') q) = cc (pids (ctx st) q)
  /\ cc_errors (pids (ctx st') q) = cc_errors (pids (ctx st) q)
  /\ scr (pids (ctx st') q) = scr (pids (ctx st) q)
  /\ (q <> ltntstools_pid pkt -> pids (ctx st') q = pids (ctx st) q)
  /\ maxAllowablePTSDTSDrift (ctx st') = maxAllowablePTSDTSDrift (ctx st)
  /\ doPESStatistics (ctx st') = doPESStatistics (ctx st)
  /\ scr_pid (ctx st') = scr_pid (ctx st)
  /\ ts_total_packets (ctx st') = ts_total_packets (ctx st)
  /\ doSCRStatistics st' = doSCRStatistics st
  /\ Forall (fun l => is_CC_error l = false)
            (snd (processPESStats parse contains subtract_us st pkt pos ts)).
Proof.
  unfold processPESStats.
  destruct (ltntstools_payload_unit_start_indicator pkt =? 0).
  { cbn [fst snd ctx doSCRStatistics]. repeat split; try reflexivity.
    constructor. }
  destruct ((int32 (contains (skipn 4 pkt) (188 - 4)) >=? 0)
            && (ltntstools_pid pkt >? 0)).
  2:{ cbn [fst snd ctx doSCRStatistics]. repeat split; try reflexivity.
      constructor. }
  match goal with
  | |- context [processPESHeader parse ?b ?p ?c ?po ?t ?u] =>
      pose proof (processPESHeader_keeps parse b p c po t u q) as K;
      pose proof (processPESHeader_no_cc_lines parse b p c po t u) as N;
      destruct (processPESHeader parse b p c po t u) as [[c' out] len]
  end.
  cbn [fst snd ctx doSCRStatistics] in *.
  destruct K as (K1 & K2 & K3 & K4 & K5 & K6 & K7 & K8 & K9).
  repeat split; assumption.
Qed.

End LoopFacts.

Lemma expected_cc_mod_16 (c : Z) : Z.land (uint32 (c + 1)) 0x0f = (c + 1) mod 16.
Proof.
  rewrite land_15_mod_16. unfold uint32, wrap_unsigned.
  change (2 ^ 32) with (16 * 268435456). apply mod_mod_divides; lia.
Qed.

Lemma filter_map_through {A B : Type} (f : B -> bool) (g : A -> B)
      (h : A -> bool) (l : list A) :
  (forall x, f (g x) = true -> h x = true) ->
  filter f (map g l) = filter f (map g (filter h l)).
Proof.
  intros H. induction l as [|x l IH]; [reflexivity|].
  cbn [map filter]. destruct (h x) eqn:Eh.
  - cbn [map filter]. destruct (f (g x)); rewrite IH; reflexivity.
  - destruct (f (g x)) eqn:Ef; [|exact IH].
    apply H in Ef. congruence.
Qed.

Lemma filter_none {A : Type} (f : A -> bool) (l : list A) :
  Forall (fun x => f x = false) l -> filter f l = [].
Proof.
  induction 1 as [|x l Hx _ IH]; [reflexivity|].
  cbn [filter]. rewrite Hx. exact IH.
Qed.

Section PacketLoop.

Variable parse : ltn_pes_packet_s -> list Z -> Z * ltn_pes_packet_s.
Variable contains : list Z -> Z -> Z.
Variable subtract_us : Z -> Z -> Z.

(** What one round of the packet loop does to the continuity state of a
    PID slot and which [!CC Error] lines of that PID it writes. *)
Lemma inspect_packet_cc (st : inspector_state) (pkt : list Z) (pos ts q : Z) :
  let r := inspect_packet parse contains subtract_us st pkt pos ts in
  let pid := ltntstools_pid pkt in
  let p := pids (ctx st) pid in
  let afc := ltntstools_adaption_field_control pkt in
  let cc_now := ltntstools_continuity_counter pkt in
  let expected := (cc p + 1) mod 16 in
  let error :=
    ((afc =? 1) || (afc =? 3)) && (uint64 (pkt_count p + 1) >? 1)
    && negb (expected =? cc_now) && negb (pid =? 0x1fff) in
  pkt_count (pids (ctx (fst r)) q)
  = (if q =? pid then uint64 (pkt_count p + 1)
     else pkt_count (pids (ctx st) q))
  /\ cc (pids (ctx (fst r)) q)
     = (if q =? pid then cc_now else cc (pids (ctx st) q))
  /\ cc_errors (pids (ctx (fst r)) q)
     = (if q =? pid
        then if error then uint64 (cc_errors p + 1) else cc_errors p
        else cc_errors (pids (ctx st) q))
  /\ filter (is_CC_error_of q) (snd r)
     = (if (q =? pid) && error
        then [Report (CC_error pid expected cc_now)] else [])
  /\ ts_total_packets (ctx (fst r)) = uint64 (ts_total_packets (ctx st) + 1)
  /\ doSCRStatistics (fst r) = doSCRStatistics st
  /\ doPESStatistics (ctx (fst r)) = doPESStatistics (ctx st).
Proof.
  intros r pid p afc cc_now expected error. subst r.
  unfold inspect_packet.
  pose proof (processPacketStats_effect (ctx st) pkt pos) as E.
  cbv zeta in E. fold pid p afc cc_now in E.
  rewrite (expected_cc_mod_16 (cc p)) in E. fold expected error in E.
  pose proof (processPacketStats_keeps (ctx st) pkt pos q) as K.
  cbv zeta in K.
  destruct (processPacketStats (ctx st) pkt pos) as [c1 o1].
  cbn [fst snd] in E, K.
  destruct E as (Eout & Eerrs & Ecc & Ecount & Eother).
  destruct K as (_ & _ & _ & _ & Kpes & _ & Ktotal).
  (* the slot q after the packet statistics *)
  assert (S1 : pkt_count (pids c1 q)
               = (if q =? pid then uint64 (pkt_count p + 1)
                  else pkt_count (pids (ctx st) q))
               /\ cc (pids c1 q)
                  = (if q =? pid then cc_now else cc (pids (ctx st) q))
               /\ cc_errors (pids c1 q)
                  = (if q =? pid
                     then if error then uint64 (cc_errors p + 1)
                          else cc_errors p
                     else cc_errors (pids (ctx st) q))).
  { destruct (Z.eqb_spec q pid) as [->|Hne].
    - repeat split; assumption.
    - rewrite (Eother q Hne). repeat split; reflexivity. }
  (* the SCR statistics *)
  set (st1 := mk_state c1 (more st) (initial_time st) (current_stream_time st)
                       (scr_linenr st) (doSCRStatistics st)).
  assert (S2 : exists st2 o2,
             (if doSCRStatistics st1 =? 0 then (st1, [])
              else processSCRStats st1 pkt pos) = (st2, o2)
             /\ pkt_count (pids (ctx st2) q) = pkt_count (pids c1 q)
             /\ cc (pids (ctx st2) q) = cc (pids c1 q)
             /\ cc_errors (pids (ctx st2) q) = cc_errors (pids c1 q)
             /\ doPESStatistics (ctx st2) = doPESStatistics c1
             /\ ts_total_packets (ctx st2) = ts_total_packets c1
             /\ doSCRStatistics st2 = doSCRStatistics st).
  { destruct (doSCRStatistics st1 =? 0).
    - exists st1, []. repeat split; reflexivity.
    - pose proof (processSCRStats_keeps st1 pkt pos q) as K2. cbv zeta in K2.
      destruct (processSCRStats st1 pkt pos) as [st2 o2]. cbn [fst] in K2.
      exists st2, o2. destruct K2 as (A1 & A2 & A3 & _ & _ & _ & _ & A4 & _ & A5 & A6).
      repeat split; assumption. }
  destruct S2 as (st2 & o2 & E2 & B1 & B2 & B3 & B4 & B5 & B6).
  rewrite E2.
  (* the PES statistics *)
  assert (S3 : exists st3 o3,
             (if doPESStatistics (ctx st2) =? 0 then (st2, [])
              else processPESStats parse contains subtract_us st2 pkt pos ts)
             = (st3, o3)
             /\ pkt_count (pids (ctx st3) q) = pkt_count (pids (ctx st2) q)
             /\ cc (pids (ctx st3) q) = cc (pids (ctx st2) q)
             /\ cc_errors (pids (ctx st3) q) = cc_errors (pids (ctx st2) q)
             /\ doPESStatistics (ctx st3) = doPESStatistics (ctx st2)
             /\ ts_total_packets (ctx st3) = ts_total_packets (ctx st2)
             /\ doSCRStatistics st3 = doSCRStatistics st2
             /\ Forall (fun l => is_CC_error l = false) o3).
  { destruct (doPESStatistics (ctx st2) =? 0).
    - exists st2, []. repeat split; try reflexivity. constructor.
    - pose proof (processPESStats_keeps parse contains subtract_us
                    st2 pkt pos ts q) as K3. cbv zeta in K3.
      destruct (processPESStats parse contains subtract_us st2 pkt pos ts)
        as [st3 o3]. cbn [fst snd] in K3.
      exists st3, o3.
      destruct K3 as (A1 & A2 & A3 & _ & _ & _ & A4 & _ & A5 & A6 & A7).
      repeat split; assumption. }
  destruct S3 as (st3 & o3 & E3 & C1 & C2 & C3 & C4 & C5 & C6 & C7).
  rewrite E3. cbn [fst snd ctx pids ts_total_packets doSCRStatistics
                   doPESStatistics].
  destruct S1 as (S1a & S1b & S1c).
  split; [congruence|]. split; [congruence|]. split; [congruence|].
  split.
  - rewrite !filter_app.
    assert (F2 : filter (is_CC_error_of q) (map ScrReport o2) = []).
    { apply filter_none. apply Forall_forall. intros x Hx.
      apply in_map_iff in Hx. destruct Hx as (y & <- & _). reflexivity. }
    assert (F3 : filter (is_CC_error_of q) (map Report o3) = []).
    { apply filter_none. apply Forall_forall. intros x Hx.
      apply in_map_iff in Hx. destruct Hx as (y & <- & Hy).
      rewrite Forall_forall in C7. specialize (C7 y Hy).
      destruct y; try reflexivity. discriminate C7. }
    rewrite F2, F3, !app_nil_r.
    rewrite (filter_map_through (is_CC_error_of q) Report is_CC_error o1).
    2:{ intros x Hx. destruct x; try discriminate Hx. reflexivity. }
    rewrite Eout. destruct error; cbn [map filter is_CC_error_of].
    + rewrite (Z.eqb_sym pid q). destruct (q =? pid); reflexivity.
    + rewrite andb_false_r. reflexivity.
  - repeat split; congruence.
Qed.

End PacketLoop.

Section StreamTheorems.

Variable parse : ltn_pes_packet_s -> list Z -> Z * ltn_pes_packet_s.
Variable contains : list Z -> Z -> Z.
Variable subtract_us : Z -> Z -> Z.

Lemma ltntstools_pid_range (pkt : list Z) : 0 <= ltntstools_pid pkt < 8192.
Proof.
  unfold ltntstools_pid. change 0x1fff with (Z.ones 13).
  rewrite Z.land_ones by lia. change (2 ^ 13) with 8192.
  apply Z.mod_pos_bound. lia.
Qed.

Lemma loop_counts (pkts : list (list Z * Z)) :
  forall (st : inspector_state) (pos q : Z),
    let st' := fst (clock_inspector_loop parse contains subtract_us st pkts pos) in
    pkt_count (pids (ctx st') q)
    = (match packets_of q pkts with
       | [] => pkt_count (pids (ctx st) q)
       | _ => uint64 (pkt_count (pids (ctx st) q)
                      + Z.of_nat (List.length (packets_of q pkts)))
       end)
    /\ ts_total_packets (ctx st')
       = (match pkts with
          | [] => ts_total_packets (ctx st)
          | _ => uint64 (ts_total_packets (ctx st)
                         + Z.of_nat (List.length pkts))
          end).
Proof.
  induction pkts as [|[pkt ts] rest IH]; intros st pos q.
  - cbn. split; reflexivity.
  - cbn [clock_inspector_loop].
    pose proof (inspect_packet_cc parse contains subtract_us st pkt pos ts q)
      as E. cbv zeta in E.
    destruct (inspect_packet parse contains subtract_us st pkt pos ts)
      as [st1 o1]. cbn [fst snd] in E.
    destruct E as (Ec & _ & _ & _ & Et & _).
    specialize (IH st1 (uint64 (pos + 188)) q). cbv zeta in IH.
    destruct (clock_inspector_loop parse contains subtract_us st1 rest
                (uint64 (pos + 188))) as [st2 o2].
    cbn [fst] in *. destruct IH as (IHc & IHt). split.
    + rewrite IHc, Ec. unfold packets_of. cbn [filter fst].
      fold (packets_of q rest).
      rewrite (Z.eqb_sym (ltntstools_pid pkt) q).
      destruct (Z.eqb_spec q (ltntstools_pid pkt)) as [Eq|Hne].
      * rewrite <- Eq. destruct (packets_of q rest) as [|x l].
        -- cbn [List.length]. reflexivity.
        -- rewrite uint64_add_l. f_equal. cbn [List.length]. lia.
      * reflexivity.
    + rewrite IHt, Et. destruct rest as [|x l].
      * cbn [List.length]. reflexivity.
      * rewrite uint64_add_l. f_equal. cbn [List.length]. lia.
Qed.

(** X12: the packet counter of a PID slot counts the packets of that
    PID whatever statistics are switched on, and [pidReport] after the
    loop lists a PID exactly when a packet of the stream carried it, with
    the number of its packets (for fewer than 2^64 packets and slots that
    start at 0); every PID of the stream is listed. *)
Theorem pidReport_counts_packets (st : inspector_state)
        (pkts : list (list Z * Z)) (pos : Z) :
  (forall q, pkt_count (pids (ctx st) q) = 0) ->
  Z.of_nat (List.length pkts) < 2 ^ 64 ->
  let st' := fst (clock_inspector_loop parse contains subtract_us st pkts pos) in
  (forall q, pkt_count (pids (ctx st') q)
             = Z.of_nat (List.length (packets_of q pkts)))
  /\ (forall q n e,
        In (q, n, e) (pidReport (ctx st'))
        <-> 0 <= q < 8192
            /\ n = Z.of_nat (List.length (packets_of q pkts)) /\ n <> 0
            /\ e = cc_errors (pids (ctx st') q))
  /\ (forall pkt ts,
        In (pkt, ts) pkts ->
        exists n e, In (ltntstools_pid pkt, n, e) (pidReport (ctx st'))).
Proof.
  intros Hfresh Hlen st'.
  assert (Hcount : forall q, pkt_count (pids (ctx st') q)
                             = Z.of_nat (List.length (packets_of q pkts))).
  { intros q. pose proof (loop_counts pkts st pos q) as L. cbv zeta in L.
    fold st' in L. destruct L as (L & _). rewrite L, Hfresh.
    assert (Hle : (List.length (packets_of q pkts) <= List.length pkts)%nat)
      by apply filter_length_le.
    destruct (packets_of q pkts) as [|x l] eqn:Ep; [reflexivity|].
    apply uint64_id. change (2 ^ 64) with 18446744073709551616 in Hlen. lia. }
  assert (Hin : forall q n e,
             In (q, n, e) (pidReport (ctx st'))
             <-> 0 <= q < 8192
                 /\ n = Z.of_nat (List.length (packets_of q pkts)) /\ n <> 0
                 /\ e = cc_errors (pids (ctx st') q)).
  { intros q n e. unfold pidReport. rewrite in_flat_map. split.
    - intros (i & Hi & Hx). apply in_seq in Hi.
      destruct (Z.eqb_spec (pkt_count (pids (ctx st') (Z.of_nat i))) 0)
        as [E0|E0]; [destruct Hx|].
      destruct Hx as [Hx|[]]. injection Hx as <- <- <-.
      rewrite Hcount in E0 |- *. repeat split; try lia.
    - intros (Hq & Hn & Hn0 & He). exists (Z.to_nat q). split.
      + apply in_seq. lia.
      + rewrite Z2Nat.id by lia. rewrite Hcount, <- Hn.
        destruct (Z.eqb_spec n 0); [contradiction|].
        left. rewrite He. reflexivity. }
  split; [exact Hcount|]. split; [exact Hin|].
  intros pkt ts Hp.
  exists (Z.of_nat (List.length (packets_of (ltntstools_pid pkt) pkts))),
    (cc_errors (pids (ctx st') (ltntstools_pid pkt))).
  apply Hin. split; [apply ltntstools_pid_range|]. split; [reflexivity|].
  split; [|reflexivity].
  assert (Hmem : In (pkt, ts) (packets_of (ltntstools_pid pkt) pkts)).
  { unfold packets_of. apply filter_In. split; [exact Hp|].
    cbn [fst]. apply Z.eqb_refl. }
  destruct (packets_of (ltntstools_pid pkt) pkts); [destruct Hmem|].
  cbn [List.length]. lia.
Qed.

End StreamTheorems.

Section ContinuityTheorems.

Variable parse : ltn_pes_packet_s -> list Z -> Z * ltn_pes_packet_s.
Variable contains : list Z -> Z -> Z.
Variable subtract_us : Z -> Z -> Z.

(** X13: the null PID 0x1FFF is never checked: whatever the stream and
    the state, the loop writes no [!CC Error] line for it and leaves its
    [cc_errors] as it was. *)
Theorem null_pid_never_reports (st : inspector_state)
        (pkts : list (list Z * Z)) (pos : Z) :
  filter (is_CC_error_of 0x1fff)
         (snd (clock_inspector_loop parse contains subtract_us st pkts pos))
  = []
  /\ cc_errors
       (pids (ctx (fst (clock_inspector_loop parse contains subtract_us
                          st pkts pos))) 0x1fff)
     = cc_errors (pids (ctx st) 0x1fff).
Proof.
  revert st pos. induction pkts as [|[pkt ts] rest IH]; intros st pos.
  - cbn. split; reflexivity.
  - cbn [clock_inspector_loop].
    pose proof (inspect_packet_cc parse contains subtract_us st pkt pos ts
                  0x1fff) as E. cbv zeta in E.
    destruct (inspect_packet parse contains subtract_us st pkt pos ts)
      as [st1 o1]. cbn [fst snd] in E.
    destruct E as (_ & _ & Ee & Ef & _).
    specialize (IH st1 (uint64 (pos + 188))).
    destruct (clock_inspector_loop parse contains subtract_us st1 rest
                (uint64 (pos + 188))) as [st2 o2].
    cbn [fst snd] in *. destruct IH as (IHf & IHe).
    rewrite filter_app, IHf, Ef, IHe, Ee.
    rewrite (Z.eqb_sym (ltntstools_pid pkt) 0x1fff).
    destruct (Z.eqb_spec 0x1fff (ltntstools_pid pkt)) as [Eq|Hne].
    + rewrite <- Eq. rewrite !andb_false_r. cbn [andb negb].
      split; reflexivity.
    + cbn [andb app]. split; reflexivity.
Qed.

(** The continuity lines and the error counter of a PID that has been
    seen before, over a whole stream. *)
Lemma loop_cc_tracking (pkts : list (list Z * Z)) :
  forall (st : inspector_state) (pos q : Z),
    q <> 0x1fff ->
    1 <= pkt_count (pids (ctx st) q) ->
    pkt_count (pids (ctx st) q) + Z.of_nat (List.length pkts) < 2 ^ 64 ->
    0 <= cc_errors (pids (ctx st) q) ->
    cc_errors (pids (ctx st) q) + Z.of_nat (List.length pkts) < 2 ^ 64 ->
    let r := clock_inspector_loop parse contains subtract_us st pkts pos in
    let d := cc_discontinuities (cc (pids (ctx st) q)) (packets_of q pkts) in
    Z.of_nat (List.length (filter (is_CC_error_of q) (snd r))) = d
    /\ cc_errors (pids (ctx (fst r)) q) = cc_errors (pids (ctx st) q) + d
    /\ 0 <= d <= Z.of_nat (List.length pkts).
Proof.
  change (2 ^ 64) with 18446744073709551616.
  induction pkts as [|[pkt ts] rest IH]; intros st pos q Hq Hn Hnb He Heb.
  - cbn. repeat split; lia.
  - cbn [clock_inspector_loop].
    pose proof (inspect_packet_cc parse contains subtract_us st pkt pos ts q)
      as E. cbv zeta in E.
    destruct (inspect_packet parse contains subtract_us st pkt pos ts)
      as [st1 o1]. cbn [fst snd] in E.
    destruct E as (Ec & Ecc & Ee & Ef & _).
    cbn [List.length] in Hnb, Heb. rewrite Nat2Z.inj_succ in Hnb, Heb.
    unfold packets_of. cbn [filter fst]. fold (packets_of q rest).
    rewrite (Z.eqb_sym (ltntstools_pid pkt) q).
    destruct (Z.eqb_spec q (ltntstools_pid pkt)) as [Eq|Hne].
    + (* a packet of this PID *)
      rewrite <- Eq in *. cbn [andb] in Ef.
      rewrite uint64_id in Ec, Ee, Ef by lia.
      assert (Hgt : (pkt_count (pids (ctx st) q) + 1 >? 1) = true).
      { rewrite Z.gtb_ltb. apply Z.ltb_lt. lia. }
      assert (Hnull : negb (q =? 0x1fff) = true).
      { destruct (Z.eqb_spec q 0x1fff); [contradiction|reflexivity]. }
      rewrite Hgt, Hnull, andb_true_r, andb_true_r in Ee, Ef.
      rewrite (Z.eqb_sym ((cc (pids (ctx st) q) + 1) mod 16)) in Ee, Ef.
      set (step := ((ltntstools_adaption_field_control pkt =? 1)
                    || (ltntstools_adaption_field_control pkt =? 3))
                   && negb (ltntstools_continuity_counter pkt
                            =? (cc (pids (ctx st) q) + 1) mod 16)) in *.
      assert (He1 : 0 <= cc_errors (pids (ctx st1) q)
                    <= cc_errors (pids (ctx st) q) + 1).
      { rewrite Ee. destruct step; [rewrite uint64_id by lia|]; lia. }
      specialize (IH st1 (uint64 (pos + 188)) q Hq ltac:(lia) ltac:(lia)
                     ltac:(lia) ltac:(lia)).
      cbv zeta in IH. rewrite Ecc in IH.
      destruct (clock_inspector_loop parse contains subtract_us st1 rest
                  (uint64 (pos + 188))) as [st2 o2].
      cbn [fst snd] in *. destruct IH as (IHl & IHe & IHd).
      cbn [cc_discontinuities]. fold step.
      rewrite filter_app, length_app, Nat2Z.inj_add, IHl, IHe, Ef, Ee.
      destruct step; cbn [List.length]; [rewrite uint64_id by lia|];
        repeat split; lia.
    + (* a packet of another PID *)
      cbn [andb] in Ef.
      specialize (IH st1 (uint64 (pos + 188)) q Hq ltac:(lia) ltac:(lia)
                     ltac:(lia) ltac:(lia)).
      cbv zeta in IH. rewrite Ecc, Ee in IH.
      destruct (clock_inspector_loop parse contains subtract_us st1 rest
                  (uint64 (pos + 188))) as [st2 o2].
      cbn [fst snd] in *. destruct IH as (IHl & IHe & IHd).
      rewrite filter_app, length_app, Nat2Z.inj_add, IHl, IHe, Ef.
      cbn [List.length]. repeat split; lia.
Qed.

(** X14: on a PID other than 0x1FFF whose slot is fresh, the number of
    [!CC Error] lines of that PID written over a whole stream, and the
    final [cc_errors] of the PID, is the number of discontinuities among
    the payload-carrying packets of that PID after its first packet; the
    packets of other PIDs in between and the statistics switched on do not
    matter (fewer than 2^64 - 1 packets). *)
Theorem cc_errors_count_discontinuities (st : inspector_state)
        (pkts : list (list Z * Z)) (pos q : Z) :
  q <> 0x1fff ->
  pkt_count (pids (ctx st) q) = 0 -> cc_errors (pids (ctx st) q) = 0 ->
  Z.of_nat (List.length pkts) < 2 ^ 64 - 1 ->
  let r := clock_inspector_loop parse contains subtract_us st pkts pos in
  let d :=
    match packets_of q pkts with
    | [] => 0
    | (first, _) :: rest =>
        cc_discontinuities (ltntstools_continuity_counter first) rest
    end in
  Z.of_nat (List.length (filter (is_CC_error_of q) (snd r))) = d
  /\ cc_errors (pids (ctx (fst r)) q) = d.
Proof.
  change (2 ^ 64) with 18446744073709551616.
  intros Hq. revert st pos.
  induction pkts as [|[pkt ts] rest IH]; intros st pos Hn He Hlen.
  - cbn. rewrite He. split; reflexivity.
  - cbn [clock_inspector_loop].
    pose proof (inspect_packet_cc parse contains subtract_us st pkt pos ts q)
      as E. cbv zeta in E.
    destruct (inspect_packet parse contains subtract_us st pkt pos ts)
      as [st1 o1] eqn:E1. cbn [fst snd] in E.
    destruct E as (Ec & Ecc & Ee & Ef & _).
    cbn [List.length] in Hlen. rewrite Nat2Z.inj_succ in Hlen.
    unfold packets_of. cbn [filter fst]. fold (packets_of q rest).
    rewrite (Z.eqb_sym (ltntstools_pid pkt) q).
    destruct (Z.eqb_spec q (ltntstools_pid pkt)) as [Eq|Hne].
    + rewrite <- Eq in *. cbn [andb] in Ef.
      rewrite Hn in Ec, Ee, Ef. change (uint64 (0 + 1)) with 1 in Ec, Ee, Ef.
      change (1 >? 1) with false in Ee, Ef.
      rewrite andb_false_r in Ee, Ef. cbn [andb] in Ee, Ef.
      rewrite He in Ee.
      pose proof (loop_cc_tracking rest st1 (uint64 (pos + 188)) q Hq) as T.
      rewrite Ec, Ee, Ecc in T.
      specialize (T ltac:(lia) ltac:(lia) ltac:(lia) ltac:(lia)).
      cbv zeta in T.
      destruct (clock_inspector_loop parse contains subtract_us st1 rest
                  (uint64 (pos + 188))) as [st2 o2].
      cbn [fst snd] in *. destruct T as (Tl & Te & _).
      rewrite filter_app, length_app, Nat2Z.inj_add, Tl, Te, Ef.
      cbn [List.length]. split; lia.
    + cbn [andb] in Ef.
      specialize (IH st1 (uint64 (pos + 188))).
      rewrite Ec, Ee in IH. specialize (IH Hn He ltac:(lia)).
      cbv zeta in IH.
      destruct (clock_inspector_loop parse contains subtract_us st1 rest
                  (uint64 (pos + 188))) as [st2 o2].
      cbn [fst snd] in *. destruct IH as (IHl & IHe).
      rewrite filter_app, length_app, Nat2Z.inj_add, IHl, Ef.
      cbn [List.length]. split; [lia|exact IHe].
Qed.

End ContinuityTheorems.

(** ** The SCR difference of the PTS report *)

Lemma processPESHeader_scr_quiet
      (parse : ltn_pes_packet_s -> list Z -> Z * ltn_pes_packet_s)
      (buf : list Z) (pid : Z) (c : tool_context_s) (pos t u : Z) :
  scr (pids c pid) = 0 -> pts_last_scr (pids c pid) = 0 ->
  dts_last_scr (pids c pid) = 0 ->
  0 < uint64 (maxAllowablePTSDTSDrift c) ->
  let r := processPESHeader parse buf pid c pos t u in
  Forall (fun l => match l with
                   | PTS_scr_diff_warning _ _ _
                   | DTS_scr_diff_warning _ _ _ => False
                   | PTS_line _ _ _ _ _ d _ | DTS_line _ _ _ _ _ d _ => d = 0
                   | _ => True
                   end) (snd (fst r))
  /\ pts_last_scr (pids (fst (fst r)) pid) = 0
  /\ dts_last_scr (pids (fst (fst r)) pid) = 0.
Proof.
  intros Hs Hp Hd Hl r. subst r. unfold processPESHeader.
  destruct (parse (pes (pids c pid)) buf) as [len h].
  cbn [fst snd pids]. rewrite store_pid_same.
  cbn [pts_last_scr dts_last_scr]. rewrite Hs, Hp, Hd.
  change (uint64 (Z.quot (ltntstools_scr_diff 0 0) 27000)) with 0.
  assert (Hq : (0 >=? uint64 (maxAllowablePTSDTSDrift c)) = false).
  { rewrite Z.geb_leb. apply Z.leb_gt. exact Hl. }
  split; [|split].
  - destruct (has_PTS h), (has_DTS h); rewrite ?Hq;
      repeat match goal with
             | |- Forall _ (_ ++ _) => apply Forall_app; split
             | |- Forall _ (if ?b then _ else _) => destruct b
             | |- Forall _ [] => constructor
             | |- Forall _ (_ :: _) => constructor; [try exact I; reflexivity|]
             end.
  - destruct (has_PTS h); reflexivity.
  - destruct (has_DTS h); reflexivity.
Qed.

Section ScrDifference.

Variable parse : ltn_pes_packet_s -> list Z -> Z * ltn_pes_packet_s.
Variable contains : list Z -> Z -> Z.
Variable subtract_us : Z -> Z -> Z.

Lemma loop_scr_quiet (S : Z -> Prop) (pkts : list (list Z * Z)) :
  forall (st : inspector_state) (pos : Z),
    (forall pkt ts, In (pkt, ts) pkts ->
                    ltntstools_payload_unit_start_indicator pkt <> 0 ->
                    S (ltntstools_pid pkt)) ->
    (forall pkt ts, In (pkt, ts) pkts -> S (ltntstools_pid pkt) ->
                    ltntstools_scr pkt = None) ->
    (forall q, S q ->
               scr (pids (ctx st) q) = 0
               /\ pts_last_scr (pids (ctx st) q) = 0
               /\ dts_last_scr (pids (ctx st) q) = 0) ->
    0 < uint64 (maxAllowablePTSDTSDrift (ctx st)) ->
    Forall (fun l => match l with
                     | Report (PTS_scr_diff_warning _ _ _)
                     | Report (DTS_scr_diff_warning _ _ _) => False
                     | Report (PTS_line _ _ _ _ _ d _)
                     | Report (DTS_line _ _ _ _ _ d _) => d = 0
                     | _ => True
                     end)
           (snd (clock_inspector_loop parse contains subtract_us st pkts pos)).
Proof.
  induction pkts as [|[pkt ts] rest IH]; intros st pos HS Hnone Hinv Hlim.
  - cbn. constructor.
  - cbn [clock_inspector_loop].
    assert (Hstep :
      let r := inspect_packet parse contains subtract_us st pkt pos ts in
      Forall (fun l => match l with
                       | Report (PTS_scr_diff_warning _ _ _)
                       | Report (DTS_scr_diff_warning _ _ _) => False
                       | Report (PTS_line _ _ _ _ _ d _)
                       | Report (DTS_line _ _ _ _ _ d _) => d = 0
                       | _ => True
                       end) (snd r)
      /\ (forall q, S q ->
                    scr (pids (ctx (fst r)) q) = 0
                    /\ pts_last_scr (pids (ctx (fst r)) q) = 0
                    /\ dts_last_scr (pids (ctx (fst r)) q) = 0)
      /\ maxAllowablePTSDTSDrift (ctx (fst r))
         = maxAllowablePTSDTSDrift (ctx st)).
    { cbv zeta. unfold inspect_packet.
      pose proof (processPacketStats_no_pes_lines (ctx st) pkt pos) as N1.
      pose proof (fun q => processPacketStats_keeps (ctx st) pkt pos q) as K1.
      cbv zeta in K1.
      destruct (processPacketStats (ctx st) pkt pos) as [c1 o1].
      cbn [fst snd] in N1, K1.
      set (st1 := mk_state c1 (more st) (initial_time st)
                           (current_stream_time st) (scr_linenr st)
                           (doSCRStatistics st)).
      assert (I1 : forall q, S q ->
                     scr (pids (ctx st1) q) = 0
                     /\ pts_last_scr (pids (ctx st1) q) = 0
                     /\ dts_last_scr (pids (ctx st1) q) = 0).
      { intros q Hq. destruct (K1 q) as (A & B & C & _).
        destruct (Hinv q Hq) as (X & Y & Z0). unfold st1. cbn [ctx].
        repeat split; congruence. }
      assert (L1 : maxAllowablePTSDTSDrift (ctx st1)
                   = maxAllowablePTSDTSDrift (ctx st)).
      { destruct (K1 0) as (_ & _ & _ & A & _). unfold st1. cbn [ctx].
        exact A. }
      (* the SCR statistics *)
      assert (S2 : exists st2 o2,
                 (if doSCRStatistics st1 =? 0 then (st1, [])
                  else processSCRStats st1 pkt pos) = (st2, o2)
                 /\ (forall q, S q ->
                       scr (pids (ctx st2) q) = 0
                       /\ pts_last_scr (pids (ctx st2) q) = 0
                       /\ dts_last_scr (pids (ctx st2) q) = 0)
                 /\ maxAllowablePTSDTSDrift (ctx st2)
                    = maxAllowablePTSDTSDrift (ctx st)).
      { destruct (doSCRStatistics st1 =? 0).
        - exists st1, []. split; [reflexivity|]. split; [exact I1|exact L1].
        - pose proof (fun q => processSCRStats_keeps st1 pkt pos q) as K2.
          cbv zeta in K2.
          destruct (processSCRStats st1 pkt pos) as [st2 o2]. cbn [fst] in K2.
          exists st2, o2. split; [reflexivity|]. split.
          + intros q Hq.
            destruct (K2 q) as (_ & _ & _ & _ & _ & Same & _).
            rewrite Same; [apply I1; exact Hq|].
            destruct (Z.eq_dec q (ltntstools_pid pkt)) as [->|Hne];
              [right|left; exact Hne].
            apply (Hnone pkt ts); [left; reflexivity|exact Hq].
          + destruct (K2 0) as (_ & _ & _ & _ & _ & _ & A & _). congruence. }
      destruct S2 as (st2 & o2 & E2 & I2 & L2). rewrite E2.
      (* the PES statistics *)
      assert (S3 : exists st3 o3,
                 (if doPESStatistics (ctx st2) =? 0 then (st2, [])
                  else processPESStats parse contains subtract_us
                         st2 pkt pos ts) = (st3, o3)
                 /\ Forall (fun l => match l with
                                     | PTS_scr_diff_warning _ _ _
                                     | DTS_scr_diff_warning _ _ _ => False
                                     | PTS_line _ _ _ _ _ d _
                                     | DTS_line _ _ _ _ _ d _ => d = 0
                                     | _ => True
                                     end) o3
                 /\ (forall q, S q ->
                       scr (pids (ctx st3) q) = 0
                       /\ pts_last_scr (pids (ctx st3) q) = 0
                       /\ dts_last_scr (pids (ctx st3) q) = 0)
                 /\ maxAllowablePTSDTSDrift (ctx st3)
                    = maxAllowablePTSDTSDrift (ctx st)).
      { destruct (doPESStatistics (ctx st2) =? 0).
        { exists st2, []. split; [reflexivity|]. split; [constructor|].
          split; [exact I2|exact L2]. }
        unfold processPESStats.
        destruct (Z.eqb_spec (ltntstools_payload_unit_start_indicator pkt) 0)
          as [Hp0|Hp].
        { eexists. eexists. split; [reflexivity|]. cbn [ctx].
          split; [constructor|]. split; [exact I2|exact L2]. }
        destruct ((int32 (contains (skipn 4 pkt) (188 - 4)) >=? 0)
                  && (ltntstools_pid pkt >? 0)).
        2:{ eexists. eexists. split; [reflexivity|]. cbn [ctx].
            split; [constructor|]. split; [exact I2|exact L2]. }
        assert (HSp : S (ltntstools_pid pkt))
          by (apply (HS pkt ts); [left; reflexivity|exact Hp]).
        destruct (I2 _ HSp) as (Xs & Xp & Xd).
        match goal with
        | |- context [processPESHeader parse ?b ?p ?c ?po ?t ?u] =>
            pose proof (processPESHeader_scr_quiet parse b p c po t u
                          Xs Xp Xd ltac:(rewrite L2; exact Hlim)) as Q;
            pose proof (fun q => processPESHeader_keeps parse b p c po t u q)
              as K3;
            cbv zeta in Q, K3;
            destruct (processPESHeader parse b p c po t u) as [[c' out] len]
        end.
        cbn [fst snd] in Q, K3. destruct Q as (Q1 & Q2 & Q3).
        eexists. eexists. split; [reflexivity|]. cbn [ctx].
        split; [exact Q1|]. split.
        - intros q Hq. destruct (K3 q) as (_ & _ & _ & A & Same & _).
          destruct (Z.eq_dec q (ltntstools_pid pkt)) as [->|Hne].
          + repeat split; congruence.
          + rewrite (Same Hne). apply I2. exact Hq.
        - destruct (K3 0) as (_ & _ & _ & _ & _ & A & _). congruence. }
      destruct S3 as (st3 & o3 & E3 & F3 & I3 & L3). rewrite E3.
      cbn [fst snd ctx pids maxAllowablePTSDTSDrift].
      split; [|split; [exact I3|exact L3]].
      apply Forall_app. split.
      - apply Forall_forall. intros x Hx. apply in_map_iff in Hx.
        destruct Hx as (y & <- & Hy). rewrite Forall_forall in N1.
        specialize (N1 y Hy). destruct y; try exact I; contradiction.
      - apply Forall_app. split.
        + apply Forall_forall. intros x Hx. apply in_map_iff in Hx.
          destruct Hx as (y & <- & _). exact I.
        + apply Forall_forall. intros x Hx. apply in_map_iff in Hx.
          destruct Hx as (y & <- & Hy). rewrite Forall_forall in F3.
          exact (F3 y Hy). }
    cbv zeta in Hstep.
    destruct (inspect_packet parse contains subtract_us st pkt pos ts)
      as [st1 o1]. cbn [fst snd] in Hstep.
    destruct Hstep as (F1 & I1 & L1).
    specialize (IH st1 (uint64 (pos + 188))).
    destruct (clock_inspector_loop parse contains subtract_us st1 rest
                (uint64 (pos + 188))) as [st2 o2].
    cbn [snd] in *. apply Forall_app. split; [exact F1|].
    apply IH.
    + intros p0 t0 Hin. apply (HS p0 t0). right. exact Hin.
    + intros p0 t0 Hin. apply (Hnone p0 t0). right. exact Hin.
    + exact I1.
    + rewrite L1. exact Hlim.
Qed.

(** X15: the SCR of a PID slot is written only by a PCR on that very PID.
    When no PID that starts PES units carries a PCR, then, from a fresh
    table and with a limit that is not 0, the loop writes no "measured in
    SCR ticks" warning at all, and the SCR-difference column of every PTS
    and DTS line is 0, whatever PCRs the other PIDs carry. *)
Theorem scr_difference_needs_pcr_on_pid (st : inspector_state)
        (pkts : list (list Z * Z)) (pos : Z) :
  (forall q, scr (pids (ctx st) q) = 0
             /\ pts_last_scr (pids (ctx st) q) = 0
             /\ dts_last_scr (pids (ctx st) q) = 0) ->
  0 < uint64 (maxAllowablePTSDTSDrift (ctx st)) ->
  (forall pkt ts pkt' ts',
      In (pkt, ts) pkts -> In (pkt', ts') pkts ->
      ltntstools_payload_unit_start_indicator pkt <> 0 ->
      ltntstools_pid pkt' = ltntstools_pid pkt ->
      ltntstools_scr pkt' = None) ->
  let out :=
    snd (clock_inspector_loop parse contains subtract_us st pkts pos) in
  filter is_scr_diff_warning out = []
  /\ (forall count fp pid pts diff d m,
         In (Report (PTS_line count fp pid pts diff d m)) out -> d = 0)
  /\ (forall count fp pid dts diff d m,
         In (Report (DTS_line count fp pid dts diff d m)) out -> d = 0).
Proof.
  intros Hfresh Hlim Hpes out.
  pose proof (loop_scr_quiet
                (fun q => exists pkt ts,
                     In (pkt, ts) pkts
                     /\ ltntstools_payload_unit_start_indicator pkt <> 0
                     /\ ltntstools_pid pkt = q)
                pkts st pos) as Q.
  cbv beta in Q. fold out in Q.
  assert (F : Forall
                (fun l => match l with
                          | Report (PTS_scr_diff_warning _ _ _)
                          | Report (DTS_scr_diff_warning _ _ _) => False
                          | Report (PTS_line _ _ _ _ _ d _)
                          | Report (DTS_line _ _ _ _ _ d _) => d = 0
                          | _ => True
                          end) out).
  { apply Q.
    - intros pkt ts Hin Hp. exists pkt, ts. repeat split; assumption.
    - intros pkt' ts' Hin' (pkt & ts & Hin & Hp & Hpid).
      apply (Hpes pkt ts pkt' ts' Hin Hin' Hp). symmetry. exact Hpid.
    - intros q _. apply Hfresh.
    - exact Hlim. }
  rewrite Forall_forall in F. split; [|split].
  - apply filter_none. apply Forall_forall. intros l Hl. specialize (F l Hl).
    destruct l as [[]|]; try reflexivity; contradiction.
  - intros count fp pid pts diff d m Hin. exact (F _ Hin).
  - intros count fp pid dts diff d m Hin. exact (F _ Hin).
Qed.

End ScrDifference.

(** ** The theorems on a stream of two PIDs *)

Lemma pidReport_counts_packets_witness :
  pkt_count
    (pids (ctx (fst (clock_inspector_loop
                       (parser_finding 14 (mk_pes 2 0 0))
                       (fun _ _ => -1) (fun _ _ => 0)
                       (initial_state initial_context 0 0)
                       two_pid_stream 0))) 0x100)
  = 3.
Proof.
  pose proof (pidReport_counts_packets
                (parser_finding 14 (mk_pes 2 0 0))
                (fun _ _ => -1) (fun _ _ => 0)
                (initial_state initial_context 0 0) two_pid_stream 0
                (fun _ => eq_refl)) as T.
  assert (H : Z.of_nat (List.length two_pid_stream) < 2 ^ 64)
    by (vm_compute; reflexivity).
  specialize (T H). cbv zeta in T. destruct T as (T & _).
  rewrite (T 0x100). reflexivity.
Defined.

Lemma cc_errors_count_discontinuities_witness :
  cc_errors
    (pids (ctx (fst (clock_inspector_loop
                       (parser_finding 14 (mk_pes 2 0 0))
                       (fun _ _ => -1) (fun _ _ => 0)
                       (initial_state initial_context 0 0)
                       two_pid_stream 0))) 0x100)
  = 1.
Proof.
  pose proof (cc_errors_count_discontinuities
                (parser_finding 14 (mk_pes 2 0 0))
                (fun _ _ => -1) (fun _ _ => 0)
                (initial_state initial_context 0 0) two_pid_stream 0 0x100)
    as T.
  assert (H1 : 0x100 <> 0x1fff) by discriminate.
  assert (H2 : Z.of_nat (List.length two_pid_stream) < 2 ^ 64 - 1)
    by (vm_compute; reflexivity).
  specialize (T H1 eq_refl eq_refl H2). cbv zeta in T.
  destruct T as (_ & T). rewrite T. reflexivity.
Defined.

Lemma scr_difference_needs_pcr_on_pid_witness :
  filter is_scr_diff_warning
    (snd (clock_inspector_loop
            (parser_finding 14 (mk_pes 2 90000 0))
            (fun _ _ => 0) (fun _ _ => 0)
            (initial_state pes_context 0 1) pes_and_pcr_stream 0))
  = [].
Proof.
  pose proof (scr_difference_needs_pcr_on_pid
                (parser_finding 14 (mk_pes 2 90000 0))
                (fun _ _ => 0) (fun _ _ => 0)
                (initial_state pes_context 0 1) pes_and_pcr_stream 0) as T.
  assert (H1 : forall q,
             scr (pids (ctx (initial_state pes_context 0 1)) q) = 0
             /\ pts_last_scr (pids (ctx (initial_state pes_context 0 1)) q)
                = 0
             /\ dts_last_scr (pids (ctx (initial_state pes_context 0 1)) q)
                = 0)
    by (intros q; repeat split; reflexivity).
  assert (H2 : 0 < uint64 (maxAllowablePTSDTSDrift
                             (ctx (initial_state pes_context 0 1))))
    by (vm_compute; reflexivity).
  assert (H3 : forall pkt ts pkt' ts',
             In (pkt, ts) pes_and_pcr_stream ->
             In (pkt', ts') pes_and_pcr_stream ->
             ltntstools_payload_unit_start_indicator pkt <> 0 ->
             ltntstools_pid pkt' = ltntstools_pid pkt ->
             ltntstools_scr pkt' = None).
  { intros pkt ts pkt' ts' I1 I2 Hp Hpid.
    unfold pes_and_pcr_stream in I1, I2. cbn [In] in I1, I2.
    repeat match goal with
           | H : _ \/ _ |- _ => destruct H as [H|H]
           | H : False |- _ => destruct H
           | H : (_, _) = (_, _) |- _ => injection H as <- <-
           end;
      try reflexivity;
      try (exfalso; apply Hp; reflexivity);
      try (vm_compute in Hpid; discriminate Hpid). }
  specialize (T H1 H2 H3). cbv zeta in T. destruct T as (T & _). exact T.
Defined.

(** * Further properties of the ordered PTS list *)

(** Either every item is above the new clock, or the list splits at the
    last item that is not. *)
Lemma last_not_above (src : ordered_clock_item_s)
      (l : list ordered_clock_item_s) :
  Forall (fun y => clock src < clock y) l
  \/ exists front x back,
      l = front ++ x :: back
      /\ clock x <= clock src
      /\ Forall (fun y => clock src < clock y) back.
Proof.
  induction l as [|a l IH].
  - left. constructor.
  - destruct IH as [Hall|(front & x & back & -> & Hx & Hback)].
    + destruct (Z_le_gt_dec (clock a) (clock src)) as [Hle|Hgt].
      * right. exists [], a, l. repeat split; assumption.
      * left. constructor; [lia|exact Hall].
    + right. exists (a :: front), x, back. repeat split; assumption.
Qed.

Lemma ordered_clock_insert_step (first src : ordered_clock_item_s)
      (tl : list ordered_clock_item_s) :
  clocks_sorted (first :: tl) ->
  exists tl',
    ordered_clock_insert (first :: tl) src = first :: tl'
    /\ clocks_sorted (first :: tl')
    /\ Permutation (first :: tl')
         ((first :: tl)
          ++ if clock first <=? clock src then [src] else []).
Proof.
  intros Hs.
  assert (Hmin : Forall (fun y => clock first <= clock y) (first :: tl)).
  { constructor; [lia|]. apply StronglySorted_inv in Hs. exact (proj2 Hs). }
  destruct (Z.leb_spec (clock first) (clock src)) as [Hle|Hlt].
  - destruct (last_not_above src (first :: tl))
      as [Hall|(front & x & back & E & Hx & Hback)].
    { apply Forall_inv in Hall. lia. }
    rewrite E in Hs |- *.
    pose proof (ordered_clock_insert_sorted front back x src Hx Hback Hs)
      as Hs'.
    rewrite (ordered_clock_insert_found front back x src Hx Hback) in Hs' |- *.
    assert (Eh : exists tl', front ++ x :: src :: back = first :: tl'
                             /\ front ++ x :: back = first :: tl).
    { destruct front as [|f front]; cbn [app] in E |- *.
      - injection E as -> ->. exists (src :: back). split; reflexivity.
      - injection E as -> ->. exists (front ++ x :: src :: back).
        split; reflexivity. }
    destruct Eh as (tl' & E1 & E2). exists tl'. rewrite <- E1.
    split; [reflexivity|]. split; [exact Hs'|].
    change (front ++ x :: src :: back) with (front ++ [x] ++ src :: back).
    rewrite app_assoc.
    eapply Permutation_trans;
      [apply Permutation_sym, Permutation_middle|].
    rewrite <- app_assoc. cbn [app].
    apply Permutation_cons_append.
  - exists tl. rewrite app_nil_r.
    rewrite ordered_clock_insert_dropped.
    + split; [reflexivity|]. split; [exact Hs|apply Permutation_refl].
    + discriminate.
    + rewrite Forall_forall in *. intros y Hy. specialize (Hmin y Hy).
      cbn beta in Hmin. lia.
Qed.

Lemma ordered_clock_insert_run (first : ordered_clock_item_s)
      (rest : list ordered_clock_item_s) :
  forall tl,
    clocks_sorted (first :: tl) ->
    exists tl',
      fold_left ordered_clock_insert rest (first :: tl) = first :: tl'
      /\ clocks_sorted (first :: tl')
      /\ Permutation (first :: tl')
           ((first :: tl)
            ++ filter (fun o => clock first <=? clock o) rest).
Proof.
  induction rest as [|a rest IH]; intros tl Hs.
  - exists tl. cbn [fold_left filter]. rewrite app_nil_r.
    split; [reflexivity|]. split; [exact Hs|apply Permutation_refl].
  - cbn [fold_left filter].
    destruct (ordered_clock_insert_step first a tl Hs)
      as (tl1 & E1 & Hs1 & P1).
    rewrite E1. destruct (IH tl1 Hs1) as (tl' & E & Hs' & P).
    exists tl'. split; [exact E|]. split; [exact Hs'|].
    eapply Permutation_trans; [exact P|].
    eapply Permutation_trans;
      [apply Permutation_app_tail; exact P1|].
    rewrite <- app_assoc.
    destruct (clock first <=? clock a); cbn [app]; apply Permutation_refl.
Qed.

(** X16: collecting observations with [ordered_clock_insert], from the
    empty list of [ordered_clock_init]: the list is always sorted by clock,
    its head is the first observation, and it holds the first observation
    and exactly those later ones whose clock is not below the clock of the
    first, each once; the later ones below the first clock are lost. *)
Theorem ordered_clock_insert_collects (first : ordered_clock_item_s)
        (rest : list ordered_clock_item_s) :
  let l := fold_left ordered_clock_insert rest
                     (ordered_clock_insert [] first) in
  clocks_sorted l
  /\ hd_error l = Some first
  /\ Permutation l
       (first :: filter (fun o => clock first <=? clock o) rest).
Proof.
  intros l. subst l. change (ordered_clock_insert [] first) with [first].
  destruct (ordered_clock_insert_run first rest [])
    as (tl' & E & Hs & P).
  { constructor; constructor. }
  rewrite E. split; [exact Hs|]. split; [reflexivity|exact P].
Qed.

(** ** The dump of the ordered list *)





(** * The window of the PTS difference warning *)




(** * The SCR of a PID slot and the stream time *)

Lemma processSCRStats_effect (st : inspector_state) (pkt : list Z)
      (pos q : Z) :
  let st' := fst (processSCRStats st pkt pos) in
  let f := more st (ltntstools_pid pkt) in
  initial_time st' = initial_time st
  /\ match ltntstools_scr pkt with
     | None => st' = st
     | Some v =>
         current_stream_time st'
         = int64 ((if scr_updateCount f >? 0 then scr_first_time f
                   else initial_time st)
                  + Z.quot (ltntstools_scr_diff
                              (if scr_updateCount f >? 0 then scr_first f
                               else uint64 v) (uint64 v)) 27000000)
         /\ (q = ltntstools_pid pkt ->
             scr (pids (ctx st') q) = uint64 v
             /\ scr_updateCount (more st' q)
                = uint64 (scr_updateCount f + 1)
             /\ scr_first (more st' q)
                = (if scr_updateCount f >? 0 then scr_first f else uint64 v)
             /\ scr_first_time (more st' q)
                = (if scr_updateCount f >? 0 then scr_first_time f
                   else initial_time st))
         /\ (q <> ltntstools_pid pkt ->
             more st' q = more st q /\ pids (ctx st') q = pids (ctx st) q)
     end.
Proof.
  unfold processSCRStats. destruct (ltntstools_scr pkt) as [v|].
  - cbn [fst initial_time current_stream_time ctx more]. unfold with_pids.
    cbn [pids]. unfold store_pid, store_fields, with_scr.
    split; [reflexivity|]. split; [reflexivity|]. split.
    + intros ->. rewrite Z.eqb_refl.
      cbn [scr scr_updateCount scr_first scr_first_time].
      repeat split; reflexivity.
    + intros Hne. apply Z.eqb_neq in Hne. rewrite Hne. split; reflexivity.
  - cbn [fst]. split; reflexivity.
Qed.

Section StreamTime.

Variable parse : ltn_pes_packet_s -> list Z -> Z * ltn_pes_packet_s.
Variable contains : list Z -> Z -> Z.
Variable subtract_us : Z -> Z -> Z.

Lemma processPESStats_keeps_scr_fields (st : inspector_state)
      (pkt : list Z) (pos ts q : Z) :
  let st' := fst (processPESStats parse contains subtract_us st pkt pos ts) in
  scr_first (more st' q) = scr_first (more st q)
  /\ scr_first_time (more st' q) = scr_first_time (more st q)
  /\ scr_updateCount (more st' q) = scr_updateCount (more st q)
  /\ initial_time st' = initial_time st
  /\ current_stream_time st' = current_stream_time st.
Proof.
  unfold processPESStats.
  destruct (ltntstools_payload_unit_start_indicator pkt =? 0).
  { cbn [fst more initial_time current_stream_time]. unfold store_fields.
    destruct (Z.eqb_spec q (ltntstools_pid pkt)) as [->|_];
      repeat split; reflexivity. }
  destruct ((int32 (contains (skipn 4 pkt) (188 - 4)) >=? 0)
            && (ltntstools_pid pkt >? 0)).
  2:{ cbn [fst more initial_time current_stream_time]. unfold store_fields.
      destruct (Z.eqb_spec q (ltntstools_pid pkt)) as [->|_];
        repeat split; reflexivity. }
  match goal with
  | |- context [processPESHeader parse ?b ?p ?c ?po ?t ?u] =>
      destruct (processPESHeader parse b p c po t u) as [[c' out] len]
  end.
  cbn [fst more initial_time current_stream_time]. unfold store_fields.
  destruct (Z.eqb_spec q (ltntstools_pid pkt)) as [->|_];
    repeat split; reflexivity.
Qed.

Lemma inspect_packet_scr (st : inspector_state) (pkt : list Z)
      (pos ts q : Z) :
  doSCRStatistics st <> 0 ->
  let st' := fst (inspect_packet parse contains subtract_us st pkt pos ts) in
  let f := more st (ltntstools_pid pkt) in
  initial_time st' = initial_time st
  /\ doSCRStatistics st' = doSCRStatistics st
  /\ match ltntstools_scr pkt with
     | None =>
         current_stream_time st' = current_stream_time st
         /\ scr (pids (ctx st') q) = scr (pids (ctx st) q)
         /\ scr_updateCount (more st' q) = scr_updateCount (more st q)
         /\ scr_first (more st' q) = scr_first (more st q)
         /\ scr_first_time (more st' q) = scr_first_time (more st q)
     | Some v =>
         current_stream_time st'
         = int64 ((if scr_updateCount f >? 0 then scr_first_time f
                   else initial_time st)
                  + Z.quot (ltntstools_scr_diff
                              (if scr_updateCount f >? 0 then scr_first f
                               else uint64 v) (uint64 v)) 27000000)
         /\ (q = ltntstools_pid pkt ->
             scr (pids (ctx st') q) = uint64 v
             /\ scr_updateCount (more st' q)
                = uint64 (scr_updateCount f + 1)
             /\ scr_first (more st' q)
                = (if scr_updateCount f >? 0 then scr_first f else uint64 v)
             /\ scr_first_time (more st' q)
                = (if scr_updateCount f >? 0 then scr_first_time f
                   else initial_time st))
         /\ (q <> ltntstools_pid pkt ->
             scr (pids (ctx st') q) = scr (pids (ctx st) q)
             /\ scr_updateCount (more st' q) = scr_updateCount (more st q)
             /\ scr_first (more st' q) = scr_first (more st q)
             /\ scr_first_time (more st' q) = scr_first_time (more st q))
     end.
Proof.
  intros Hon. cbv zeta. unfold inspect_packet.
  pose proof (processPacketStats_keeps (ctx st) pkt pos q) as K1.
  cbv zeta in K1.
  destruct (processPacketStats (ctx st) pkt pos) as [c1 o1].
  cbn [fst] in K1. destruct K1 as (K1 & _).
  cbn [doSCRStatistics].
  destruct (Z.eqb_spec (doSCRStatistics st) 0) as [E0|_]; [contradiction|].
  set (st1 := mk_state c1 (more st) (initial_time st)
                       (current_stream_time st) (scr_linenr st)
                       (doSCRStatistics st)).
  pose proof (processSCRStats_effect st1 pkt pos q) as S. cbv zeta in S.
  pose proof (processSCRStats_keeps st1 pkt pos q) as S'. cbv zeta in S'.
  destruct (processSCRStats st1 pkt pos) as [st2 o2]. cbn [fst] in S, S'.
  destruct S as (Si & S).
  destruct S' as (_ & _ & _ & _ & _ & _ & _ & _ & _ & _ & Sd).
  assert (P : exists st3 o3,
             (if doPESStatistics (ctx st2) =? 0 then (st2, [])
              else processPESStats parse contains subtract_us st2 pkt pos ts)
             = (st3, o3)
             /\ scr (pids (ctx st3) q) = scr (pids (ctx st2) q)
             /\ scr_first (more st3 q) = scr_first (more st2 q)
             /\ scr_first_time (more st3 q) = scr_first_time (more st2 q)
             /\ scr_updateCount (more st3 q) = scr_updateCount (more st2 q)
             /\ initial_time st3 = initial_time st2
             /\ current_stream_time st3 = current_stream_time st2
             /\ doSCRStatistics st3 = doSCRStatistics st2).
  { destruct (doPESStatistics (ctx st2) =? 0).
    - exists st2, []. repeat split; reflexivity.
    - pose proof (processPESStats_keeps_scr_fields st2 pkt pos ts q) as A.
      pose proof (processPESStats_keeps parse contains subtract_us
                    st2 pkt pos ts q) as B.
      cbv zeta in A, B.
      destruct (processPESStats parse contains subtract_us st2 pkt pos ts)
        as [st3 o3]. cbn [fst snd] in A, B.
      destruct A as (A1 & A2 & A3 & A4 & A5).
      destruct B as (_ & _ & _ & B4 & _ & _ & _ & _ & _ & B10 & _).
      exists st3, o3. repeat split; assumption. }
  destruct P as (st3 & o3 & -> & P1 & P2 & P3 & P4 & P5 & P6 & P7).
  cbn [fst ctx pids more initial_time current_stream_time doSCRStatistics].
  rewrite P1, P2, P3, P4, P5, P6, P7, Si, Sd.
  unfold st1 in *. cbn [initial_time more doSCRStatistics ctx] in *.
  split; [reflexivity|]. split; [reflexivity|].
  destruct (ltntstools_scr pkt) as [v|].
  - destruct S as (Sc & Sq & Sn). split; [exact Sc|]. split.
    + exact Sq.
    + intros Hne. destruct (Sn Hne) as (Em & Ep). rewrite Em, Ep.
      repeat split; try reflexivity. exact K1.
  - rewrite S. cbn [current_stream_time ctx more].
    repeat split; try reflexivity. exact K1.
Qed.

Lemma loop_scr_slot (q : Z) (pkts : list (list Z * Z)) :
  forall (st : inspector_state) (pos : Z),
    doSCRStatistics st <> 0 ->
    0 <= scr_updateCount (more st q) ->
    scr_updateCount (more st q) + Z.of_nat (List.length pkts) < 2 ^ 64 ->
    let st' :=
      fst (clock_inspector_loop parse contains subtract_us st pkts pos) in
    let seen := scr_updateCount (more st q) >? 0 in
    initial_time st' = initial_time st
    /\ scr_updateCount (more st' q)
       = scr_updateCount (more st q)
         + Z.of_nat (List.length (pcrs_of q pkts))
    /\ scr (pids (ctx st') q)
       = last (pcrs_of q pkts) (scr (pids (ctx st) q))
    /\ scr_first (more st' q)
       = (if seen then scr_first (more st q)
          else hd (scr_first (more st q)) (pcrs_of q pkts))
    /\ scr_first_time (more st' q)
       = (if seen then scr_first_time (more st q)
          else match pcrs_of q pkts with
               | [] => scr_first_time (more st q)
               | _ :: _ => initial_time st
               end).
Proof.
  change (2 ^ 64) with 18446744073709551616.
  induction pkts as [|[pkt ts] rest IH]; intros st pos Hon Hc Hlen.
  - cbn. rewrite Z.add_0_r.
    destruct (scr_updateCount (more st q) >? 0); repeat split; reflexivity.
  - cbn [clock_inspector_loop].
    pose proof (inspect_packet_scr st pkt pos ts q Hon) as E. cbv zeta in E.
    destruct (inspect_packet parse contains subtract_us st pkt pos ts)
      as [st1 o1]. cbn [fst] in E. destruct E as (Ei & Ed & E).
    cbn [List.length] in Hlen. rewrite Nat2Z.inj_succ in Hlen.
    specialize (IH st1 (uint64 (pos + 188))).
    destruct (clock_inspector_loop parse contains subtract_us st1 rest
                (uint64 (pos + 188))) as [st2 o2].
    cbn [fst] in *. unfold pcrs_of. cbn [flat_map fst].
    fold (pcrs_of q rest).
    rewrite (Z.eqb_sym (ltntstools_pid pkt) q).
    destruct (ltntstools_scr pkt) as [v|].
    + destruct E as (_ & Eq & Ene).
      destruct (Z.eqb_spec q (ltntstools_pid pkt)) as [Hq|Hne].
      * destruct (Eq Hq) as (E1 & E2 & E3 & E4). rewrite <- Hq in *.
        assert (E2' : scr_updateCount (more st1 q)
                      = scr_updateCount (more st q) + 1).
        { rewrite E2. apply uint64_id.
          change (2 ^ 64) with 18446744073709551616. lia. }
        assert (Hc1 : 0 <= scr_updateCount (more st1 q)) by lia.
        assert (Hl1 : scr_updateCount (more st1 q)
                      + Z.of_nat (List.length rest)
                      < 18446744073709551616) by lia.
        specialize (IH ltac:(congruence) Hc1 Hl1). cbv zeta in IH.
        destruct IH as (I0 & I1 & I2 & I3 & I4).
        assert (Hs1 : (scr_updateCount (more st1 q) >? 0) = true)
          by (apply Z.gtb_lt; lia).
        rewrite Hs1 in I3, I4.
        cbn [app List.length hd]. rewrite Nat2Z.inj_succ.
        split; [congruence|]. split; [lia|]. split.
        { rewrite I2, E1. clear.
          destruct (pcrs_of q rest) as [|a l]; [reflexivity|].
          cbn [last]. revert a. induction l as [|b l IHl]; intros a.
          - reflexivity.
          - cbn [last] in *. apply IHl. }
        rewrite I3, I4, E3, E4.
        destruct (scr_updateCount (more st q) >? 0); split; reflexivity.
      * destruct (Ene Hne) as (E1 & E2 & E3 & E4).
        specialize (IH ltac:(congruence) ltac:(lia) ltac:(lia)).
        cbv zeta in IH. destruct IH as (I0 & I1 & I2 & I3 & I4).
        cbn [app]. rewrite I1, I2, I3, I4, E1, E2, E3, E4, Ei.
        repeat split; try reflexivity. congruence.
    + destruct E as (_ & E1 & E2 & E3 & E4).
      specialize (IH ltac:(congruence) ltac:(lia) ltac:(lia)).
      cbv zeta in IH. destruct IH as (I0 & I1 & I2 & I3 & I4).
      assert (Enil : (if q =? ltntstools_pid pkt then @nil Z else [])
                     = []) by (destruct (q =? ltntstools_pid pkt);
                               reflexivity).
      rewrite Enil. cbn [app]. rewrite I1, I2, I3, I4, E1, E2, E3, E4, Ei.
      repeat split; try reflexivity. congruence.
Qed.

Lemma loop_without_pcr_keeps_time (pkts : list (list Z * Z)) :
  forall (st : inspector_state) (pos : Z),
    doSCRStatistics st <> 0 ->
    Forall (fun x => ltntstools_scr (fst x) = None) pkts ->
    current_stream_time
      (fst (clock_inspector_loop parse contains subtract_us st pkts pos))
    = current_stream_time st.
Proof.
  induction pkts as [|[pkt ts] rest IH]; intros st pos Hon Hall.
  - reflexivity.
  - cbn [clock_inspector_loop].
    apply Forall_cons_iff in Hall. destruct Hall as (Hp & Hrest).
    cbn [fst] in Hp.
    pose proof (inspect_packet_scr st pkt pos ts 0 Hon) as E. cbv zeta in E.
    destruct (inspect_packet parse contains subtract_us st pkt pos ts)
      as [st1 o1]. cbn [fst] in E. destruct E as (_ & Ed & E).
    rewrite Hp in E. destruct E as (E & _).
    specialize (IH st1 (uint64 (pos + 188)) ltac:(congruence) Hrest).
    destruct (clock_inspector_loop parse contains subtract_us st1 rest
                (uint64 (pos + 188))) as [st2 o2].
    cbn [fst] in *. congruence.
Qed.

(** X19: with the SCR statistics on, the slot of a PID follows the PCRs
    carried by its own packets: from a slot without updates and for fewer
    than 2^64 packets, after the loop [scr_updateCount] is the number of
    PCRs of that PID in the stream, [scr] is the last of them,
    [scr_first] the first one and [scr_first_time] the initial time; the
    PCRs of other PIDs and the other statistics do not touch them. *)
Theorem scr_slot_follows_own_pcrs (st : inspector_state)
        (pkts : list (list Z * Z)) (pos q : Z) :
  doSCRStatistics st <> 0 ->
  scr_updateCount (more st q) = 0 ->
  Z.of_nat (List.length pkts) < 2 ^ 64 ->
  let st' :=
    fst (clock_inspector_loop parse contains subtract_us st pkts pos) in
  scr_updateCount (more st' q) = Z.of_nat (List.length (pcrs_of q pkts))
  /\ match pcrs_of q pkts with
     | [] => scr (pids (ctx st') q) = scr (pids (ctx st) q)
     | first :: rest =>
         scr (pids (ctx st') q) = last rest first
         /\ scr_first (more st' q) = first
         /\ scr_first_time (more st' q) = initial_time st
     end.
Proof.
  intros Hon Hfresh Hlen st'.
  pose proof (loop_scr_slot q pkts st pos Hon ltac:(lia) ltac:(lia)) as L.
  cbv zeta in L. fold st' in L.
  destruct L as (_ & L1 & L2 & L3 & L4).
  rewrite Hfresh in L1, L3, L4. change (0 >? 0) with false in L3, L4.
  split; [rewrite L1; lia|].
  destruct (pcrs_of q pkts) as [|first rest].
  - exact L2.
  - cbn [hd] in L3. split; [|split; [exact L3|exact L4]].
    rewrite L2. clear. 
    destruct rest as [|a l]; [reflexivity|].
    cbn [last]. revert a. induction l as [|b l IHl]; intros a.
    + reflexivity.
    + cbn [last] in *. apply IHl.
Qed.

Lemma loop_stream_time (pkt : list Z) (ts v : Z) (post : list (list Z * Z))
      (pre : list (list Z * Z)) :
  ltntstools_scr pkt = Some v ->
  Forall (fun x => ltntstools_scr (fst x) = None) post ->
  forall (st : inspector_state) (pos : Z),
    doSCRStatistics st <> 0 ->
    0 <= scr_updateCount (more st (ltntstools_pid pkt)) ->
    scr_updateCount (more st (ltntstools_pid pkt))
    + Z.of_nat (List.length pre) < 2 ^ 64 ->
    let f := more st (ltntstools_pid pkt) in
    current_stream_time
      (fst (clock_inspector_loop parse contains subtract_us st
              (pre ++ (pkt, ts) :: post) pos))
    = int64 ((if scr_updateCount f >? 0 then scr_first_time f
              else initial_time st)
             + Z.quot (ltntstools_scr_diff
                         (if scr_updateCount f >? 0 then scr_first f
                          else hd (uint64 v)
                                  (pcrs_of (ltntstools_pid pkt) pre))
                         (uint64 v)) 27000000).
Proof.
  change (2 ^ 64) with 18446744073709551616.
  intros Hv Hpost.
  induction pre as [|[p0 t0] pre IH]; intros st pos Hon Hc Hlen f.
  - cbn [app clock_inspector_loop pcrs_of flat_map hd].
    pose proof (inspect_packet_scr st pkt pos ts 0 Hon) as E. cbv zeta in E.
    destruct (inspect_packet parse contains subtract_us st pkt pos ts)
      as [st1 o1]. cbn [fst] in E. destruct E as (_ & Ed & E).
    rewrite Hv in E. destruct E as (E & _).
    pose proof (loop_without_pcr_keeps_time post st1 (uint64 (pos + 188))
                  ltac:(congruence) Hpost) as K.
    destruct (clock_inspector_loop parse contains subtract_us st1 post
                (uint64 (pos + 188))) as [st2 o2].
    cbn [fst] in *. rewrite K. exact E.
  - cbn [app clock_inspector_loop].
    pose proof (inspect_packet_scr st p0 pos t0 (ltntstools_pid pkt) Hon)
      as E. cbv zeta in E.
    destruct (inspect_packet parse contains subtract_us st p0 pos t0)
      as [st1 o1]. cbn [fst] in E. destruct E as (Ei & Ed & E).
    cbn [List.length] in Hlen. rewrite Nat2Z.inj_succ in Hlen.
    specialize (IH st1 (uint64 (pos + 188)) ltac:(congruence)).
    destruct (clock_inspector_loop parse contains subtract_us st1
                (pre ++ (pkt, ts) :: post) (uint64 (pos + 188)))
      as [st2 o2].
    cbn [fst] in *. unfold pcrs_of. cbn [flat_map fst].
    fold (pcrs_of (ltntstools_pid pkt) pre).
    rewrite (Z.eqb_sym (ltntstools_pid p0) (ltntstools_pid pkt)).
    subst f.
    destruct (ltntstools_scr p0) as [v0|].
    + destruct E as (_ & Eq & Ene).
      destruct (Z.eqb_spec (ltntstools_pid pkt) (ltntstools_pid p0))
        as [Hq|Hne].
      * destruct (Eq Hq) as (_ & E2 & E3 & E4). rewrite <- Hq in *.
        assert (E2' : scr_updateCount (more st1 (ltntstools_pid pkt))
                      = scr_updateCount (more st (ltntstools_pid pkt)) + 1).
        { rewrite E2. apply uint64_id.
          change (2 ^ 64) with 18446744073709551616. lia. }
        specialize (IH ltac:(lia) ltac:(lia)). cbv zeta in IH.
        assert (Hs1 : (scr_updateCount (more st1 (ltntstools_pid pkt)) >? 0)
                      = true) by (apply Z.gtb_lt; lia).
        rewrite Hs1 in IH. rewrite IH, E3, E4. cbn [app hd].
        destruct (scr_updateCount (more st (ltntstools_pid pkt)) >? 0);
          reflexivity.
      * destruct (Ene Hne) as (_ & E2 & E3 & E4).
        specialize (IH ltac:(lia) ltac:(lia)). cbv zeta in IH.
        rewrite IH, E2, E3, E4, Ei. cbn [app]. reflexivity.
    + destruct E as (_ & _ & E2 & E3 & E4).
      specialize (IH ltac:(lia) ltac:(lia)). cbv zeta in IH.
      assert (Enil : (if ltntstools_pid pkt =? ltntstools_pid p0
                      then @nil Z else []) = [])
        by (destruct (ltntstools_pid pkt =? ltntstools_pid p0);
            reflexivity).
      rewrite Enil. rewrite IH, E2, E3, E4, Ei. cbn [app]. reflexivity.
Qed.

(** X20: the stream time (the time stamp of the [!CC Error] lines) after
    the loop is set by the last packet of the stream that carries a PCR:
    it is the initial time plus the whole seconds of [ltntstools_scr_diff]
    from the first PCR of that packet's PID to this PCR, as a 64-bit
    [time_t]; the packets after it and the PCRs of other PIDs before it
    do not matter. *)
Theorem stream_time_follows_last_pcr (st : inspector_state)
        (pre post : list (list Z * Z)) (pkt : list Z) (ts v pos : Z) :
  doSCRStatistics st <> 0 ->
  scr_updateCount (more st (ltntstools_pid pkt)) = 0 ->
  Z.of_nat (List.length pre) < 2 ^ 64 ->
  ltntstools_scr pkt = Some v ->
  Forall (fun x => ltntstools_scr (fst x) = None) post ->
  current_stream_time
    (fst (clock_inspector_loop parse contains subtract_us st
            (pre ++ (pkt, ts) :: post) pos))
  = int64 (initial_time st
           + Z.quot (ltntstools_scr_diff
                       (hd (uint64 v) (pcrs_of (ltntstools_pid pkt) pre))
                       (uint64 v)) 27000000).
Proof.
  intros Hon Hfresh Hlen Hv Hpost.
  pose proof (loop_stream_time pkt ts v post pre Hv Hpost st pos Hon
                ltac:(lia) ltac:(lia)) as L.
  cbv zeta in L. rewrite Hfresh in L. change (0 >? 0) with false in L.
  exact L.
Qed.

End StreamTime.

Lemma scr_slot_follows_own_pcrs_witness :
  scr_updateCount
    (more (fst (clock_inspector_loop
                  (parser_finding 14 (mk_pes 2 90000 0))
                  (fun _ _ => 0) (fun _ _ => 0)
                  (initial_state pes_context 1000 1)
                  pes_and_pcr_stream 0)) 0x31)
  = 2.
Proof.
  pose proof (scr_slot_follows_own_pcrs
                (parser_finding 14 (mk_pes 2 90000 0))
                (fun _ _ => 0) (fun _ _ => 0)
                (initial_state pes_context 1000 1)
                pes_and_pcr_stream 0 0x31) as T.
  assert (H1 : doSCRStatistics (initial_state pes_context 1000 1) <> 0)
    by discriminate.
  assert (H2 : Z.of_nat (List.length pes_and_pcr_stream) < 2 ^ 64)
    by (vm_compute; reflexivity).
  specialize (T H1 eq_refl H2). cbv zeta in T. destruct T as (T & _).
  rewrite T. reflexivity.
Defined.

Lemma stream_time_follows_last_pcr_witness :
  current_stream_time
    (fst (clock_inspector_loop
            (parser_finding 14 (mk_pes 2 90000 0))
            (fun _ _ => 0) (fun _ _ => 0)
            (initial_state pes_context 1000 1)
            ([(pcr_packet 0x31 0 27000000, 0); (pusi_packet 0x100 0, 0)]
             ++ (pcr_packet 0x31 1 54000000, 0)
                :: [(pusi_packet 0x100 1, 0)]) 0))
  = 1001.
Proof.
  pose proof (stream_time_follows_last_pcr
                (parser_finding 14 (mk_pes 2 90000 0))
                (fun _ _ => 0) (fun _ _ => 0)
                (initial_state pes_context 1000 1)
                [(pcr_packet 0x31 0 27000000, 0); (pusi_packet 0x100 0, 0)]
                [(pusi_packet 0x100 1, 0)]
                (pcr_packet 0x31 1 54000000) 0 54000000 0) as T.
  assert (H1 : doSCRStatistics (initial_state pes_context 1000 1) <> 0)
    by discriminate.
  assert (H2 : Z.of_nat
                 (List.length
                    [(pcr_packet 0x31 0 27000000, 0);
                     (pusi_packet 0x100 0, 0)]) < 2 ^ 64)
    by (vm_compute; reflexivity).
  assert (H3 : ltntstools_scr (pcr_packet 0x31 1 54000000) = Some 54000000)
    by reflexivity.
  assert (H4 : Forall (fun x => ltntstools_scr (fst x) = None)
                      [(pusi_packet 0x100 1, 0)])
    by (repeat constructor).
  specialize (T H1 eq_refl H2 H3 H4). rewrite T. reflexivity.
Defined.
